(** * Stage Identity Engine: a shallow embedding of [stage_complete.py]

    The development follows the Python module function by function.

    - Python [str] is modelled by [string]: text over the code points
      U+0000..U+00FF, with Python's Unicode classification of those code
      points ([\d], [\s], [\w], [lower], [title]).
    - The patterns given to the module [re] are terms of the type
      [Re.regex], each next to the pattern it stands for, and [Re.search],
      [Re.finditer] and [Re.sub] run them by backtracking as [re] does.
    - JSON values and the values stored in the engine's dictionaries are the
      inductive type [pyval]; a [dict] is an association list in insertion
      order, as Python's dictionaries are.  A Python float is a primitive
      float.
    - The third-party libraries (requests, BeautifulSoup, json, isodate) and
      the arithmetic and printing of floats are the fields of the record
      [Libraries]; the engine is defined in a section over an arbitrary
      [Libraries].
    - An exception is the [Raise] outcome of the type [exc]; each
      [try]/[except] of the source is a [match] on that outcome.
    - [print] calls are not modelled.

    The engine comes first, then concrete pages, then the vocabulary of the
    statements, then the lemmas and the theorems. *)

From Stdlib Require Import String Ascii List ZArith NArith Bool Lia PeanoNat.
From Stdlib Require Import DecimalString Decimal DecimalPos Floats.PrimFloat.
Import ListNotations.
Open Scope string_scope.

Set Implicit Arguments.
Set Warnings "-register-all".

(* ================================================================== *)
(** * Characters and strings as Python sees them *)
(* ================================================================== *)

Module Str.

Definition code (c : ascii) : N := N_of_ascii c.

Definition between (lo hi : N) (c : ascii) : bool :=
  (N.leb lo (code c) && N.leb (code c) hi)%bool.

(** The double quote and the line feed, which a string literal cannot hold. *)
Definition dq : ascii := "034"%char.
Definition nl : ascii := "010"%char.
Definition DQ : string := String dq "".
Definition NL : string := String nl "".

(** [\d]: the decimal digits (no other code point below U+0100 is one). *)
Definition is_digit (c : ascii) : bool := between 48 57 c.

(** [\s] and [str.isspace]: tab..carriage return, the four separators
    U+001C..U+001F, space, U+0085 and U+00A0. *)
Definition is_space (c : ascii) : bool :=
  (between 9 13 c || between 28 32 c || N.eqb (code c) 133
   || N.eqb (code c) 160)%bool.

Definition is_upper_ascii (c : ascii) : bool := between 65 90 c.
Definition is_lower_ascii (c : ascii) : bool := between 97 122 c.

(** Upper-case letters of the Latin-1 supplement: U+00C0..U+00DE but U+00D7. *)
Definition is_upper_latin (c : ascii) : bool :=
  (between 192 222 c && negb (N.eqb (code c) 215))%bool.

(** Lower-case letters of the Latin-1 supplement that have a capital in the
    same block: U+00E0..U+00FE but U+00F7. *)
Definition is_lower_latin (c : ascii) : bool :=
  (between 224 254 c && negb (N.eqb (code c) 247))%bool.

(** Cased characters ([str.title] looks at them): the letters above, and
    U+00AA, U+00B5, U+00BA, U+00DF, U+00FF. *)
Definition is_cased (c : ascii) : bool :=
  (is_upper_ascii c || is_lower_ascii c || is_upper_latin c || is_lower_latin c
   || N.eqb (code c) 170 || N.eqb (code c) 181 || N.eqb (code c) 186
   || N.eqb (code c) 223 || N.eqb (code c) 255)%bool.

(** [\w]: alphanumeric code points and the underscore. *)
Definition is_word (c : ascii) : bool :=
  (is_digit c || is_cased c || N.eqb (code c) 95
   || N.eqb (code c) 178 || N.eqb (code c) 179 || N.eqb (code c) 185
   || between 188 190 c)%bool.

Definition lower_char (c : ascii) : ascii :=
  if (is_upper_ascii c || is_upper_latin c)%bool
  then ascii_of_N (code c + 32) else c.

(** The capital of a character, as the case variants of [re.IGNORECASE]
    need it; U+00B5 and U+00FF, whose capitals lie above U+00FF, and U+00DF,
    which has no one-letter capital, are left as they are. *)
Definition upper_char (c : ascii) : ascii :=
  if (is_lower_ascii c || is_lower_latin c)%bool
  then ascii_of_N (code c - 32) else c.

Definition eqb_char (a b : ascii) : bool := Ascii.eqb a b.

(** [s.lower()] *)
Fixpoint lower (s : string) : string :=
  match s with
  | EmptyString => EmptyString
  | String c s' => String (lower_char c) (lower s')
  end.

(** The title-case form of a character that starts a word: its capital,
    and the two letters "Ss" for U+00DF.  The title-case forms of U+00B5
    and U+00FF are U+039C and U+0178, which are not code points of these
    strings: a text in which one of the two starts a word has no title
    within them, and [title] leaves the character as it is there. *)
Definition title_char (c : ascii) : string :=
  if N.eqb (code c) 223 then String "S" (String "s" EmptyString)
  else String (upper_char c) EmptyString.

(** [s.title()]: a character that follows a cased character is lowered,
    any other one is put in title case. *)
Fixpoint title_from (prev_cased : bool) (s : string) : string :=
  match s with
  | EmptyString => EmptyString
  | String c s' =>
      (if prev_cased then String (lower_char c) EmptyString else title_char c)
      ++ title_from (is_cased c) s'
  end.

Definition title (s : string) : string := title_from false s.

(** [s.startswith(p)] *)
Fixpoint startswith (p s : string) : bool :=
  match p, s with
  | EmptyString, _ => true
  | String a p', String b s' => (eqb_char a b && startswith p' s')%bool
  | String _ _, EmptyString => false
  end.

(** [p in s] *)
Fixpoint contains (p s : string) : bool :=
  (startswith p s
   || match s with
      | EmptyString => false
      | String _ s' => contains p s'
      end)%bool.

Fixpoint rev_onto (s acc : string) : string :=
  match s with
  | EmptyString => acc
  | String c s' => rev_onto s' (String c acc)
  end.

Definition rev (s : string) : string := rev_onto s EmptyString.

(** [s.endswith(p)] *)
Definition endswith (p s : string) : bool := startswith (rev p) (rev s).

Fixpoint drop (n : nat) (s : string) : string :=
  match n, s with
  | O, _ => s
  | S n', String _ s' => drop n' s'
  | S _, EmptyString => EmptyString
  end.

Fixpoint take (n : nat) (s : string) : string :=
  match n, s with
  | O, _ => EmptyString
  | S n', String c s' => String c (take n' s')
  | S _, EmptyString => EmptyString
  end.

(** [s[i:j]] for [0 <= i], [0 <= j] *)
Definition slice (i j : nat) (s : string) : string := take (j - i) (drop i s).

(** [s.replace(old, new)] for a non-empty [old]; [skip] characters of a
    replaced occurrence are still to be passed over. *)
Fixpoint replace_from (skip : nat) (old new s : string) : string :=
  match s with
  | EmptyString => EmptyString
  | String c s' =>
      match skip with
      | S k => replace_from k old new s'
      | O =>
          if startswith old s
          then new ++ replace_from (String.length old - 1) old new s'
          else String c (replace_from 0 old new s')
      end
  end.

Definition replace (old new s : string) : string := replace_from 0 old new s.

(** [s.split(sep)] for a one-character separator. *)
Fixpoint split_acc (sep : ascii) (cur : string) (s : string) : list string :=
  match s with
  | EmptyString => [rev cur]
  | String c s' =>
      if eqb_char c sep then rev cur :: split_acc sep EmptyString s'
      else split_acc sep (String c cur) s'
  end.

Definition split (sep : ascii) (s : string) : list string :=
  split_acc sep EmptyString s.

Fixpoint lstrip_char (ch : ascii) (s : string) : string :=
  match s with
  | String c s' => if eqb_char c ch then lstrip_char ch s' else s
  | EmptyString => EmptyString
  end.

(** [s.strip(ch)] for a one-character [ch]. *)
Definition strip_char (ch : ascii) (s : string) : string :=
  rev (lstrip_char ch (rev (lstrip_char ch s))).

Definition is_empty (s : string) : bool :=
  match s with EmptyString => true | _ => false end.

Fixpoint all_digits (s : string) : bool :=
  match s with
  | EmptyString => true
  | String c s' => (is_digit c && all_digits s')%bool
  end.

(** The value of a string of decimal digits, as [int] reads it. *)
Fixpoint digits_value (acc : Z) (s : string) : Z :=
  match s with
  | EmptyString => acc
  | String c s' => digits_value (10 * acc + (Z.of_N (code c) - 48)) s'
  end.

(** [str(n)] and [f"{n}"] for an [int]. *)
Definition of_Z (n : Z) : string := NilZero.string_of_int (Z.to_int n).

End Str.

(* ================================================================== *)
(** * The regular expressions of the module [re]

    The patterns of the program use literals, character classes, repetition
    of one character class (greedy or lazy, bounded or not), grouping,
    alternation, [\b] and [$].  [regex] is the abstract syntax of exactly
    that fragment and [rmatch] is a backtracking matcher for it, which tries
    the alternatives in the order [re] does. *)
(* ================================================================== *)

Module Re.

Inductive citem : Type :=
| ILit (c : ascii)
| IRange (lo hi : ascii)
| IDigit
| ISpace.

Record cset : Type := { negated : bool; items : list citem }.

Definition item_mem (i : citem) (c : ascii) : bool :=
  match i with
  | ILit a => Str.eqb_char a c
  | IRange lo hi => Str.between (Str.code lo) (Str.code hi) c
  | IDigit => Str.is_digit c
  | ISpace => Str.is_space c
  end.

Definition items_mem (l : list citem) (c : ascii) : bool :=
  existsb (fun i => item_mem i c) l.

(** Membership in a class; under IGNORECASE a character belongs to the
    positive part of the class when one of its case variants does. *)
Definition cset_mem (ic : bool) (cs : cset) (c : ascii) : bool :=
  let pos :=
    (items_mem (items cs) c
     || (ic && (items_mem (items cs) (Str.lower_char c)
                || items_mem (items cs) (Str.upper_char c))))%bool in
  if negated cs then negb pos else pos.

Definition lit_eq (ic : bool) (p c : ascii) : bool :=
  if ic then Str.eqb_char (Str.lower_char p) (Str.lower_char c)
  else Str.eqb_char p c.

Inductive regex : Type :=
| Lit (s : string)
| Cls (cs : cset) (lo : nat) (hi : option nat) (greedy : bool)
| Cat (r1 r2 : regex)
| Alt (r1 r2 : regex)
| Grp (n : nat) (r : regex)
| WordB
| EndS.

(** Where the matcher stands: the character before the position, the
    position, the text still ahead, and the groups bound so far (start and
    text of each). *)
Record mstate : Type :=
  { m_prev : option ascii;
    m_pos : nat;
    m_rest : string;
    m_groups : list (nat * (nat * string)) }.

Definition kont : Type := mstate -> option mstate.

Fixpoint lit_match (ic : bool) (p : string) (k : kont)
    (prev : option ascii) (pos : nat) (rest : string)
    (gs : list (nat * (nat * string))) : option mstate :=
  match p with
  | EmptyString => k {| m_prev := prev; m_pos := pos; m_rest := rest; m_groups := gs |}
  | String a p' =>
      match rest with
      | String c rest' =>
          if lit_eq ic a c then lit_match ic p' k (Some c) (S pos) rest' gs
          else None
      | EmptyString => None
      end
  end.

Definition hi_open (hi : option nat) : bool :=
  match hi with Some O => false | _ => true end.

Definition hi_pred (hi : option nat) : option nat :=
  match hi with Some n => Some (pred n) | None => None end.

(** Repetition of one character class, between [lo] and [hi] times. The
    greedy form first takes one more character and gives it back when
    what follows fails; the lazy form first tries what follows. *)
Fixpoint cls_rep (ic : bool) (cs : cset) (greedy : bool)
    (lo : nat) (hi : option nat) (k : kont)
    (prev : option ascii) (pos : nat) (rest : string)
    (gs : list (nat * (nat * string))) {struct rest} : option mstate :=
  let here := {| m_prev := prev; m_pos := pos; m_rest := rest; m_groups := gs |} in
  match rest with
  | String c rest' =>
      if (hi_open hi && cset_mem ic cs c)%bool then
        if greedy then
          match cls_rep ic cs greedy (pred lo) (hi_pred hi) k (Some c) (S pos) rest' gs with
          | Some r => Some r
          | None => match lo with O => k here | S _ => None end
          end
        else
          match (match lo with O => k here | S _ => None end) with
          | Some r => Some r
          | None => cls_rep ic cs greedy (pred lo) (hi_pred hi) k (Some c) (S pos) rest' gs
          end
      else match lo with O => k here | S _ => None end
  | EmptyString => match lo with O => k here | S _ => None end
  end.

Definition is_word_opt (o : option ascii) : bool :=
  match o with Some c => Str.is_word c | None => false end.

Definition next_char (s : string) : option ascii :=
  match s with String c _ => Some c | EmptyString => None end.

(** [\b]: exactly one side of the position is a [\w] character. *)
Definition at_word_boundary (st : mstate) : bool :=
  xorb (is_word_opt (m_prev st)) (is_word_opt (next_char (m_rest st))).

(** [$]: the end of the text, or just before a line feed that ends it. *)
Definition at_end (st : mstate) : bool :=
  match m_rest st with
  | EmptyString => true
  | String c EmptyString => Str.eqb_char c Str.nl
  | _ => false
  end.

Definition bind_group (n : nat) (start : mstate) (stop : mstate) : mstate :=
  {| m_prev := m_prev stop; m_pos := m_pos stop; m_rest := m_rest stop;
     m_groups := (n, (m_pos start,
                      Str.take (m_pos stop - m_pos start) (m_rest start)))
                 :: m_groups stop |}.

Fixpoint rmatch (ic : bool) (r : regex) (k : kont) (st : mstate)
    {struct r} : option mstate :=
  match r with
  | Lit p => lit_match ic p k (m_prev st) (m_pos st) (m_rest st) (m_groups st)
  | Cls cs lo hi greedy =>
      cls_rep ic cs greedy lo hi k (m_prev st) (m_pos st) (m_rest st) (m_groups st)
  | Cat r1 r2 => rmatch ic r1 (fun st' => rmatch ic r2 k st') st
  | Alt r1 r2 =>
      match rmatch ic r1 k st with
      | Some res => Some res
      | None => rmatch ic r2 k st
      end
  | Grp n r1 => rmatch ic r1 (fun st' => k (bind_group n st st')) st
  | WordB => if at_word_boundary st then k st else None
  | EndS => if at_end st then k st else None
  end.

(** A match object: where it starts and ends, and its groups. *)
Record rematch : Type :=
  { start : nat; stop : nat; groups : list (nat * (nat * string)) }.

Fixpoint assoc_nat {A : Type} (n : nat) (l : list (nat * A)) : option A :=
  match l with
  | [] => None
  | (m, a) :: l' => if Nat.eqb n m then Some a else assoc_nat n l'
  end.

(** [m.group(n)]; every pattern of the program binds each of its groups
    whenever it matches, so the text of an unbound group is never asked for. *)
Definition group (n : nat) (m : rematch) : string :=
  match assoc_nat n (groups m) with
  | Some (_, s) => s
  | None => EmptyString
  end.

Definition match_here (ic : bool) (r : regex)
    (prev : option ascii) (pos : nat) (rest : string) : option rematch :=
  match rmatch ic r (fun st => Some st)
          {| m_prev := prev; m_pos := pos; m_rest := rest; m_groups := [] |} with
  | Some st => Some {| start := pos; stop := m_pos st; groups := m_groups st |}
  | None => None
  end.

(** [re.search] from a position on: the leftmost start at which the
    pattern matches. *)
Fixpoint search_from (ic : bool) (r : regex)
    (prev : option ascii) (pos : nat) (rest : string) : option rematch :=
  match match_here ic r prev pos rest with
  | Some m => Some m
  | None =>
      match rest with
      | EmptyString => None
      | String c rest' => search_from ic r (Some c) (S pos) rest'
      end
  end.

(** [re.search(pattern, s)] and [re.search(pattern, s, re.IGNORECASE)] *)
Definition search (ic : bool) (r : regex) (s : string) : option rematch :=
  search_from ic r None 0 s.

(** [re.finditer]: the successive matches, each search resuming where the
    previous match stopped ([skip] characters of the last match are still
    to be passed over). *)
Fixpoint finditer_from (ic : bool) (r : regex) (skip : nat)
    (prev : option ascii) (pos : nat) (rest : string) : list rematch :=
  match skip with
  | S k =>
      match rest with
      | EmptyString => []
      | String c rest' => finditer_from ic r k (Some c) (S pos) rest'
      end
  | O =>
      match match_here ic r prev pos rest with
      | Some m =>
          m :: match rest with
               | EmptyString => []
               | String c rest' =>
                   finditer_from ic r (pred (stop m - pos)) (Some c) (S pos) rest'
               end
      | None =>
          match rest with
          | EmptyString => []
          | String c rest' => finditer_from ic r 0 (Some c) (S pos) rest'
          end
      end
  end.

Definition finditer (ic : bool) (r : regex) (s : string) : list rematch :=
  finditer_from ic r 0 None 0 s.

(** [re.sub(pattern, repl, s)], the replacement being given as a function
    of the match. *)
Fixpoint sub_from (ic : bool) (r : regex) (repl : rematch -> string)
    (skip : nat) (prev : option ascii) (pos : nat) (rest : string) : string :=
  match skip with
  | S k =>
      match rest with
      | EmptyString => EmptyString
      | String c rest' => sub_from ic r repl k (Some c) (S pos) rest'
      end
  | O =>
      match match_here ic r prev pos rest with
      | Some m =>
          repl m ++
          match rest with
          | EmptyString => EmptyString
          | String c rest' =>
              (if Nat.eqb (stop m) pos then String c EmptyString else EmptyString)
              ++ sub_from ic r repl (pred (stop m - pos)) (Some c) (S pos) rest'
          end
      | None =>
          match rest with
          | EmptyString => EmptyString
          | String c rest' => String c (sub_from ic r repl 0 (Some c) (S pos) rest')
          end
      end
  end.

Definition sub (ic : bool) (r : regex) (repl : rematch -> string) (s : string)
  : string := sub_from ic r repl 0 None 0 s.

(** ** Notations for writing the patterns *)

Definition digit : cset := {| negated := false; items := [IDigit] |}.
Definition space : cset := {| negated := false; items := [ISpace] |}.
Definition dot : cset := {| negated := true; items := [ILit Str.nl] |}.
Definition alpha : cset :=
  {| negated := false; items := [IRange "A" "Z"; IRange "a" "z"] |}.
Definition range09 : cset := {| negated := false; items := [IRange "0" "9"] |}.
Definition chr (c : ascii) : cset := {| negated := false; items := [ILit c] |}.
Definition none_of (l : list ascii) : cset :=
  {| negated := true; items := map ILit l |}.

Definition plus (cs : cset) : regex := Cls cs 1 None true.
Definition star (cs : cset) : regex := Cls cs 0 None true.
Definition star_lazy (cs : cset) : regex := Cls cs 0 None false.
Definition opt (cs : cset) : regex := Cls cs 0 (Some 1) true.
Definition times (cs : cset) (lo hi : nat) : regex := Cls cs lo (Some hi) true.

End Re.

Declare Scope re_scope.
Delimit Scope re_scope with re.
Infix "+++" := Re.Cat (at level 60, right associativity) : re_scope.

(* ================================================================== *)
(** * [extract_stage_id] *)
(* ================================================================== *)

(** The pattern [-(\d+)$]. *)
Definition stage_id_pattern : Re.regex :=
  (Re.Lit "-" +++ Re.Grp 1 (Re.plus Re.digit) +++ Re.EndS)%re.

(** [[
    match = re.search(r'-(\d+)$', url)
    return match.group(1) if match else None
    ]] *)
Definition extract_stage_id (url : string) : option string :=
  match Re.search false stage_id_pattern url with
  | Some m => Some (Re.group 1 m)
  | None => None
  end.

(* ================================================================== *)
(** * Python values, dictionaries, exceptions *)
(* ================================================================== *)

(** What [json.loads] can return, which is also what the engine stores in
    its dictionaries. *)
Inductive pyval : Type :=
| VNone
| VBool (b : bool)
| VInt (n : Z)
| VFloat (f : float)
| VStr (s : string)
| VList (l : list pyval)
| VDict (d : list (string * pyval)).

(** A [dict] with string keys, in insertion order. *)
Definition dict : Type := list (string * pyval).

(** The outcome of a computation that may raise; the exception is kept as
    the text [str(e)] gives. *)
Inductive exc (A : Type) : Type :=
| Ok (a : A)
| Raise (msg : string).
Arguments Ok {A} a.
Arguments Raise {A} msg.

Definition bind {A B : Type} (m : exc A) (f : A -> exc B) : exc B :=
  match m with
  | Ok a => f a
  | Raise msg => Raise msg
  end.

Notation "x <- m ;; f" := (bind m (fun x => f))
  (at level 61, m at next level, right associativity).

Module Py.

Fixpoint lookup (k : string) (d : dict) : option pyval :=
  match d with
  | [] => None
  | (k', v) :: d' => if String.eqb k k' then Some v else lookup k d'
  end.

(** [k in d] *)
Definition mem (k : string) (d : dict) : bool :=
  match lookup k d with Some _ => true | None => false end.

(** [d.get(k, default)] *)
Definition get_default (k : string) (default : pyval) (d : dict) : pyval :=
  match lookup k d with Some v => v | None => default end.

(** [d.get(k)] *)
Definition get (k : string) (d : dict) : pyval := get_default k VNone d.

(** [d[k] = v]: the value of an existing key is replaced in place, a new
    key goes to the end. *)
Fixpoint set (k : string) (v : pyval) (d : dict) : dict :=
  match d with
  | [] => [(k, v)]
  | (k', v') :: d' =>
      if String.eqb k k' then (k, v) :: d' else (k', v') :: set k v d'
  end.

(** Truth value of an object, as [if], [not], [and], [or] test it. *)
Definition truthy (v : pyval) : bool :=
  match v with
  | VNone => false
  | VBool b => b
  | VInt n => negb (Z.eqb n 0)
  | VFloat f => negb (PrimFloat.eqb f 0%float)
  | VStr s => negb (Str.is_empty s)
  | VList l => match l with [] => false | _ => true end
  | VDict d => match d with [] => false | _ => true end
  end.

(** [v == s] for a string [s] *)
Definition eq_str (v : pyval) (s : string) : bool :=
  match v with VStr s' => String.eqb s' s | _ => false end.

(** [v in strs] for a list of strings *)
Definition in_strs (v : pyval) (strs : list string) : bool :=
  existsb (eq_str v) strs.

Definition type_name (v : pyval) : string :=
  match v with
  | VNone => "NoneType"
  | VBool _ => "bool"
  | VInt _ => "int"
  | VFloat _ => "float"
  | VStr _ => "str"
  | VList _ => "list"
  | VDict _ => "dict"
  end.

Definition attribute_error {A : Type} (v : pyval) (attr : string) : exc A :=
  Raise ("'" ++ type_name v ++ "' object has no attribute '" ++ attr ++ "'").

(** [v.get(k, default)] on an arbitrary object: only a [dict] has [get]. *)
Definition obj_get (v : pyval) (k : string) (default : pyval) : exc pyval :=
  match v with
  | VDict d => Ok (get_default k default d)
  | _ => attribute_error v "get"
  end.

(** [v.title()] on an arbitrary object *)
Definition obj_title (v : pyval) : exc pyval :=
  match v with
  | VStr s => Ok (VStr (Str.title s))
  | _ => attribute_error v "title"
  end.

(** [v.replace("\\n", "\n")] on an arbitrary object: backslash followed by
    the letter n becomes a line feed. *)
Definition obj_unescape_newlines (v : pyval) : exc pyval :=
  match v with
  | VStr s => Ok (VStr (Str.replace "\n" Str.NL s))
  | _ => attribute_error v "replace"
  end.

Definition of_option_str (o : option string) : pyval :=
  match o with Some s => VStr s | None => VNone end.

End Py.

(* ================================================================== *)
(** * The libraries the engine calls *)
(* ================================================================== *)

(** A [bs4] element, seen through what the engine asks of it:
    [get_text(strip=True)], [get("content")] and [.string]. *)
Record Tag : Type :=
  { get_text_strip : string;
    attr_content : option string;
    tag_string : option string }.

(** A parsed document: [select_one(selector)], [find("script", id=...)]
    and [find("script", type=...)]. *)
Record Soup : Type :=
  { select_one : string -> option Tag;
    find_script_by_id : string -> option Tag;
    find_script_by_type : string -> option Tag }.

(** The [datetime.timedelta] that [isodate.parse_duration] returns (for an
    [isodate.Duration] with years or months, its [tdelta], to which
    [total_seconds] is forwarded). *)
Record timedelta : Type :=
  { td_days : Z; td_seconds : Z; td_microseconds : Z }.

Record Libraries : Type :=
  { (** [session.get(url, timeout=30)], [raise_for_status()], [response.text] *)
    http_get : string -> exc string;
    (** [BeautifulSoup(html, "html.parser")] *)
    BeautifulSoup : string -> exc Soup;
    json_loads : string -> exc pyval;
    json_dumps : pyval -> string;
    (** [isodate.parse_duration] on a string: the [timedelta] whose
        [total_seconds] the parsed duration answers, or the exception *)
    parse_duration : string -> exc timedelta;
    (** [int(td.total_seconds() // 60)]: the whole minutes of a [timedelta],
        which Python takes on the double [total_seconds()] *)
    whole_minutes : timedelta -> Z;
    (** [x // n], [x % n] and [str(x)] for a float [x] *)
    float_floordiv : float -> Z -> float;
    float_mod : float -> Z -> float;
    float_str : float -> string;
    (** [str(v)] for a list or a dict [v] *)
    container_str : pyval -> string;
    (** [sys.get_int_max_str_digits()]: the longest digit string [int]
        converts, when the interpreter has such a limit *)
    int_max_str_digits : option nat }.

(* ================================================================== *)
(** * Layer A: [extract_embedded_data] and [find_movie_data] *)
(* ================================================================== *)

Module Embedded.

Import Re.
Local Open Scope re_scope.

Definition url_path_indicators : list string :=
  ["/show/"; "/series/"; "/web-series/"; "/tv-show/"].

Definition known_series : list string :=
  ["videshi bahu"; "ramayan"; "mahabharat"; "sacred games"].

(** [r'\b' + re.escape(series) + r'\b'] *)
Definition series_name_pattern (series : string) : regex :=
  WordB +++ Lit series +++ WordB.

(** The 200 characters around a match hold one of the two markers of a
    search suggestion. *)
Definition in_suggestion_context (content_lower : string) (match_pos : nat)
  : bool :=
  let context_start := match_pos - 100 in
  let context_end := Nat.min (String.length content_lower) (match_pos + 100) in
  let context := Str.slice context_start context_end content_lower in
  (Str.contains (Str.DQ ++ "search_screen" ++ Str.DQ) context
   || Str.contains "textfieldlabel" context)%bool.

(** The inner [for match in matches] loop: some match is not skipped. *)
Definition has_real_match (content_lower series : string) : bool :=
  existsb (fun m => negb (in_suggestion_context content_lower (start m)))
          (finditer true (series_name_pattern series) content_lower).

(** The outer [for series in known_series] loop. *)
Definition is_known_series (content_lower : string) : bool :=
  existsb (has_real_match content_lower) known_series.

(** [\bepisode\b], [\bseason\b], [\bseries\b], [\bshow\b] *)
Definition series_indicators : list regex :=
  map (fun w => WordB +++ Lit w +++ WordB) ["episode"; "season"; "series"; "show"].

Definition movie_indicators : list string := ["movie"; "film"; "cinema"].

Definition series_count (content_lower : string) : nat :=
  fold_left (fun n pattern => n + List.length (finditer true pattern content_lower))
            series_indicators 0.

Definition movie_count (content_lower : string) : nat :=
  List.length (filter (fun indicator => Str.contains indicator content_lower)
                      movie_indicators).

(** Lines 473-565: the content type, and the episode count of the manual
    override. *)
Definition classify (html_content : string) (result : dict) : dict :=
  if existsb (fun indicator => Str.contains indicator (Str.lower html_content))
             url_path_indicators
  then Py.set "type" (VStr "series") result
  else
    let content_lower := Str.lower html_content in
    if is_known_series content_lower then
      let result := Py.set "type" (VStr "series") result in
      if Str.contains "videshi bahu" content_lower
      then Py.set "episode_count" (VInt 12) result
      else result
    else if Str.contains "/movie/" (Str.lower html_content)
    then Py.set "type" (VStr "movie") result
    else if (Nat.leb 2 (series_count content_lower)
             && Nat.leb (movie_count content_lower) 1)%bool
    then Py.set "type" (VStr "series") result
    else Py.set "type" (VStr "movie") result.

Definition title_selectors : list string :=
  ["h1"; "title"; "[data-testid='movie-title']"; ".movie-title";
   "meta[property='og:title']"].

Definition attr_content_or_empty (element : Tag) : string :=
  match attr_content element with Some c => c | None => EmptyString end.

(** [element.get_text(strip=True) or element.get("content", "")] *)
Definition title_of_element (element : Tag) : string :=
  if Str.is_empty (get_text_strip element) then attr_content_or_empty element
  else get_text_strip element.

Fixpoint find_title (soup : Soup) (selectors : list string) : option string :=
  match selectors with
  | [] => None
  | selector :: rest =>
      match select_one soup selector with
      | Some element =>
          let title := title_of_element element in
          if (negb (Str.is_empty title) && negb (String.eqb title "STAGE"))%bool
          then Some title
          else find_title soup rest
      | None => find_title soup rest
      end
  end.

Definition set_title (soup : Soup) (result : dict) : dict :=
  match find_title soup title_selectors with
  | Some title => Py.set "title" (VStr title) result
  | None => result
  end.

Definition desc_selectors : list string :=
  ["meta[property='og:description']"; "meta[name='description']";
   ".movie-description"; ".description"; "p"].

(** [element.get("content", "") or element.get_text(strip=True)] *)
Definition desc_of_element (element : Tag) : string :=
  if Str.is_empty (attr_content_or_empty element) then get_text_strip element
  else attr_content_or_empty element.

Fixpoint find_description (soup : Soup) (selectors : list string)
  : option string :=
  match selectors with
  | [] => None
  | selector :: rest =>
      match select_one soup selector with
      | Some element =>
          let desc := desc_of_element element in
          if (negb (Str.is_empty desc) && Nat.ltb 50 (String.length desc))%bool
          then Some desc
          else find_description soup rest
      | None => find_description soup rest
      end
  end.

Definition set_description (soup : Soup) (result : dict) : dict :=
  match find_description soup desc_selectors with
  | Some desc => Py.set "description" (VStr desc) result
  | None => result
  end.

(** [\d+h\s*\d+m], [\d+h], [\d+m] *)
Definition hm : regex :=
  plus digit +++ Lit "h" +++ star space +++ plus digit +++ Lit "m".
Definition h_only : regex := plus digit +++ Lit "h".
Definition m_only : regex := plus digit +++ Lit "m".

Definition duration_patterns : list regex :=
  [ (* (\d{1,2}:\d{2}:\d{2}) *)
    Grp 1 (times digit 1 2 +++ Lit ":" +++ times digit 2 2 +++ Lit ":"
           +++ times digit 2 2);
    (* (\d{1,2}h\s*\d{1,2}m\s*\d{1,2}s) *)
    Grp 1 (times digit 1 2 +++ Lit "h" +++ star space +++ times digit 1 2
           +++ Lit "m" +++ star space +++ times digit 1 2 +++ Lit "s");
    (* (\d{1,2}h\s*\d{1,2}m) *)
    Grp 1 (times digit 1 2 +++ Lit "h" +++ star space +++ times digit 1 2
           +++ Lit "m");
    (* (\d{1,2}:\d{2}) *)
    Grp 1 (times digit 1 2 +++ Lit ":" +++ times digit 2 2);
    (* (\d{1,3})\s*minutes? *)
    Grp 1 (times digit 1 3) +++ star space +++ Lit "minute" +++ opt (chr "s");
    (* runs for approximately (\d+h\s*\d+m) *)
    Lit "runs for approximately " +++ Grp 1 hm;
    (* runs for approximately (\d+h) *)
    Lit "runs for approximately " +++ Grp 1 h_only;
    (* movie runs for approximately (\d+h\s*\d+m) *)
    Lit "movie runs for approximately " +++ Grp 1 hm;
    (* movie runs for approximately (\d+m) *)
    Lit "movie runs for approximately " +++ Grp 1 m_only;
    (* duration.*?(\d+h\s*\d+m) *)
    Lit "duration" +++ star_lazy dot +++ Grp 1 hm;
    (* duration.*?(\d+h) *)
    Lit "duration" +++ star_lazy dot +++ Grp 1 h_only;
    (* duration.*?(\d+m) *)
    Lit "duration" +++ star_lazy dot +++ Grp 1 m_only;
    (* (\d+h\s*\d+m)\s*long *)
    Grp 1 hm +++ star space +++ Lit "long";
    (* (\d+h)\s*long *)
    Grp 1 h_only +++ star space +++ Lit "long";
    (* (\d+m)\s*long *)
    Grp 1 m_only +++ star space +++ Lit "long" ].

(** [duration == "0m" or duration == "0h" or "348h" in duration] *)
Definition unrealistic (duration : string) : bool :=
  (String.eqb duration "0m" || String.eqb duration "0h"
   || Str.contains "348h" duration)%bool.

(** [int(s)] for the one to four digits a group of this layer holds. *)
Definition int_of (s : string) : Z := Str.digits_value 0 s.

(** [f"{hours}h {minutes}m {seconds}s"] when [hours > 0], else
    [f"{minutes}m {seconds}s"] *)
Definition clock_text (hours minutes seconds : Z) : string :=
  if (0 <? hours)%Z
  then Str.of_Z hours ++ "h " ++ Str.of_Z minutes ++ "m " ++ Str.of_Z seconds ++ "s"
  else Str.of_Z minutes ++ "m " ++ Str.of_Z seconds ++ "s".

(** [re.sub(r'([0-9]+)H([0-9]+)M', r'\1h \2m', duration)] and then
    [re.sub(r'([0-9]+)h([0-9]+)m', r'\1h \2m', duration)] *)
Definition respace (duration : string) : string :=
  let repl := fun m => group 1 m ++ "h " ++ group 2 m ++ "m" in
  let duration :=
    sub false (Grp 1 (plus range09) +++ Lit "H" +++ Grp 2 (plus range09) +++ Lit "M")
        repl duration in
  sub false (Grp 1 (plus range09) +++ Lit "h" +++ Grp 2 (plus range09) +++ Lit "m")
      repl duration.

(** Lines 630-649: the matched text put into the result. *)
Definition normalize (duration : string) (result : dict) : dict :=
  if Str.contains ":" duration then
    match Str.split ":" duration with
    | [p0; p1; p2] =>
        Py.set "duration" (VStr (clock_text (int_of p0) (int_of p1) (int_of p2)))
               result
    | [p0; p1] =>
        Py.set "duration"
               (VStr (Str.of_Z (int_of p0) ++ "m " ++ Str.of_Z (int_of p1) ++ "s"))
               result
    | _ => result
    end
  else Py.set "duration" (VStr (respace duration)) result.

(** The loop over [duration_patterns]: it stops at the first pattern whose
    match is not an unrealistic duration. *)
Fixpoint scan_duration (patterns : list regex) (html_content : string)
    (result : dict) : dict :=
  match patterns with
  | [] => result
  | pattern :: rest =>
      match search true pattern html_content with
      | Some m =>
          let duration := group 1 m in
          if negb (unrealistic duration) then normalize duration result
          else scan_duration rest html_content result
      | None => scan_duration rest html_content result
      end
  end.

Definition set_duration (html_content : string) (result : dict) : dict :=
  if (Str.contains "nasoor" (Str.lower html_content)
      && Str.contains "gujarati" (Str.lower html_content))%bool
  then Py.set "duration" (VStr "1h 53m") result
  else scan_duration duration_patterns html_content result.

Definition year_patterns : list regex :=
  [ (* released in (\d{4}) *)
    Lit "released in " +++ Grp 1 (times digit 4 4);
    (* (\d{4}) movie *)
    Grp 1 (times digit 4 4) +++ Lit " movie";
    (* (\d{4}) *)
    Grp 1 (times digit 4 4) ].

Fixpoint scan_year (patterns : list regex) (html_content : string)
    (result : dict) : dict :=
  match patterns with
  | [] => result
  | pattern :: rest =>
      match search false pattern html_content with
      | Some m =>
          let year := group 1 m in
          if ((1900 <=? int_of year) && (int_of year <=? 2030))%Z
          then Py.set "yearOfRelease" (VInt (int_of year)) result
          else scan_year rest html_content result
      | None => scan_year rest html_content result
      end
  end.

Definition lang_patterns : list regex :=
  [ (* Available in\s*([A-Za-z]+) *)
    Lit "Available in" +++ star space +++ Grp 1 (plus alpha);
    (* language.*?([A-Za-z]+) *)
    Lit "language" +++ star_lazy dot +++ Grp 1 (plus alpha);
    (* ([A-Za-z]+)\s*language *)
    Grp 1 (plus alpha) +++ star space +++ Lit "language" ].

Fixpoint scan_language (patterns : list regex) (html_content : string)
    (result : dict) : dict :=
  match patterns with
  | [] => result
  | pattern :: rest =>
      match search false pattern html_content with
      | Some m =>
          let lang := group 1 m in
          if Nat.ltb 2 (String.length lang)
          then Py.set "dialect" (VStr (Str.lower lang)) result
          else scan_language rest html_content result
      | None => scan_language rest html_content result
      end
  end.

(** The genre patterns, each with [len(match.groups())]. *)
Definition genre_patterns : list (regex * nat) :=
  [ (* genre.*?([A-Za-z]+) *)
    (Lit "genre" +++ star_lazy dot +++ Grp 1 (plus alpha), 1);
    (* ([A-Za-z]+)\s*movie *)
    (Grp 1 (plus alpha) +++ star space +++ Lit "movie", 1);
    (* compelling\s*([A-Za-z]+)\s*and\s*([A-Za-z]+)\s*movie *)
    (Lit "compelling" +++ star space +++ Grp 1 (plus alpha) +++ star space
     +++ Lit "and" +++ star space +++ Grp 2 (plus alpha) +++ star space
     +++ Lit "movie", 2) ].

Fixpoint scan_genre (patterns : list (regex * nat)) (html_content : string)
    (result : dict) : dict :=
  match patterns with
  | [] => result
  | (pattern, n_groups) :: rest =>
      match search false pattern html_content with
      | Some m =>
          if Nat.eqb n_groups 2
          then Py.set "genre" (VStr (group 1 m ++ ", " ++ group 2 m)) result
          else Py.set "genre" (VStr (group 1 m)) result
      | None => scan_genre rest html_content result
      end
  end.

Definition episodes_word : regex := Lit "episode" +++ opt (chr "s").

Definition episode_patterns : list regex :=
  [ (* (\d+)\s*episodes? *)
    Grp 1 (plus digit) +++ star space +++ episodes_word;
    (* episode\s*(\d+) *)
    Lit "episode" +++ star space +++ Grp 1 (plus digit);
    (* "episodeCount":\s*(\d+) *)
    Lit (Str.DQ ++ "episodeCount" ++ Str.DQ ++ ":") +++ star space
    +++ Grp 1 (plus digit);
    (* "numberOfEpisodes":\s*(\d+) *)
    Lit (Str.DQ ++ "numberOfEpisodes" ++ Str.DQ ++ ":") +++ star space
    +++ Grp 1 (plus digit);
    (* season\s*\d+.*?(\d+)\s*episodes? *)
    Lit "season" +++ star space +++ plus digit +++ star_lazy dot
    +++ Grp 1 (plus digit) +++ star space +++ episodes_word ].

(** (webp|jpg|jpeg) as group [n] *)
Definition image_ext (n : nat) : regex :=
  Grp n (Alt (Lit "webp") (Alt (Lit "jpg") (Lit "jpeg"))).

(** [(https://media\.stage\.in/episode/<dir>/[^Q]*\.(webp|jpg|jpeg))], where
    [Q] stands for the double quote *)
Definition poster_pattern (dir : string) : regex :=
  Grp 1 (Lit ("https://media.stage.in/episode/" ++ dir ++ "/")
         +++ star (none_of [Str.dq]) +++ Lit "." +++ image_ext 2).

(** [matches[0][0]] of [re.findall]: group 1 of the leftmost match. *)
Definition set_poster (key dir html_content : string) (result : dict) : dict :=
  match search false (poster_pattern dir) html_content with
  | Some m => Py.set key (VStr (group 1 m)) result
  | None => result
  end.

End Embedded.

Section Engine.

Variable L : Libraries.

(** [int(s)] for a string of digits; [ValueError] when the interpreter
    limits the length of such strings and [s] is longer. *)
Definition py_int (s : string) : exc Z :=
  match int_max_str_digits L with
  | Some limit =>
      if Nat.ltb limit (String.length s)
      then Raise "Exceeds the limit for integer string conversion"
      else Ok (Str.digits_value 0 s)
  | None => Ok (Str.digits_value 0 s)
  end.

(** The loop over the episode patterns, in [extract_embedded_data] and in
    [extract_episode_count]: a pattern whose number [int] refuses is passed
    over. *)
Fixpoint scan_episodes (patterns : list Re.regex) (text : string)
  : option Z :=
  match patterns with
  | [] => None
  | pattern :: rest =>
      match Re.search true pattern text with
      | Some m =>
          match py_int (Re.group 1 m) with
          | Ok n => Some n
          | Raise _ => scan_episodes rest text
          end
      | None => scan_episodes rest text
      end
  end.

Definition set_episode_count (html_content : string) (result : dict) : dict :=
  if Py.eq_str (Py.get "type" result) "series" then
    match scan_episodes Embedded.episode_patterns html_content with
    | Some n => Py.set "episode_count" (VInt n) result
    | None => result
    end
  else result.

(** [extract_embedded_data]: the [try] body is the chain of updates of
    [result]; the handler returns the empty dict. *)
Definition extract_embedded_data (html_content : string) : dict :=
  match BeautifulSoup L html_content with
  | Raise _ => []
  | Ok soup =>
      let result : dict := [] in
      let result := Embedded.classify html_content result in
      let result := Embedded.set_title soup result in
      let result := Embedded.set_description soup result in
      let result := Embedded.set_duration html_content result in
      let result := Embedded.scan_year Embedded.year_patterns html_content result in
      let result := Embedded.scan_language Embedded.lang_patterns html_content result in
      let result := Embedded.scan_genre Embedded.genre_patterns html_content result in
      let result := set_episode_count html_content result in
      let result := Embedded.set_poster "horizontalThumbnail" "horizontal"
                                        html_content result in
      let result := Embedded.set_poster "verticalThumbnail" "vertical"
                                        html_content result in
      result
  end.


(** [find_movie_data] *)

Definition content_types : list string := ["movie"; "individual"; "series"].

(** [isinstance(v, dict) and v.get("type") in ["movie", "individual", "series"]] *)
Definition as_content (v : pyval) : option dict :=
  match v with
  | VDict d => if Py.in_strs (Py.get "type" d) content_types then Some d else None
  | _ => None
  end.

Fixpoint first_content (items : list pyval) : option dict :=
  match items with
  | [] => None
  | item :: rest =>
      match as_content item with
      | Some d => Some d
      | None => first_content rest
      end
  end.

(** The loop over [data.items()]. *)
Fixpoint find_nested (items : dict) : dict :=
  match items with
  | [] => []
  | (_, value) :: rest =>
      match as_content value with
      | Some d => d
      | None =>
          match value with
          | VList l =>
              match first_content l with
              | Some d => d
              | None => find_nested rest
              end
          | _ => find_nested rest
          end
      end
  end.

Definition find_movie_data (data : pyval) : dict :=
  match data with
  | VDict d =>
      if Py.in_strs (Py.get "type" d) content_types then d else find_nested d
  | _ => []
  end.

(** ** Durations *)

(** [f"{hours}h {minutes}m"] when [hours > 0], else [f"{minutes}m"] *)
Definition hours_minutes_text (hours minutes : Z) : string :=
  if (0 <? hours)%Z then Str.of_Z hours ++ "h " ++ Str.of_Z minutes ++ "m"
  else Str.of_Z minutes ++ "m".

(** [convert_duration]: an empty argument gives [None]; whatever
    [isodate.parse_duration] refuses (a string it cannot parse, or an object
    that is not a string) is returned as it came. *)
Definition convert_duration (iso_duration : pyval) : pyval :=
  if negb (Py.truthy iso_duration) then VNone
  else
    match iso_duration with
    | VStr s =>
        match parse_duration L s with
        | Ok duration =>
            let total_minutes := whole_minutes L duration in
            let hours := (total_minutes / 60)%Z in
            let minutes := (total_minutes mod 60)%Z in
            VStr (hours_minutes_text hours minutes)
        | Raise _ => iso_duration
        end
    | _ => iso_duration
    end.

(** The text of a number of seconds held in an [int], lines 249-255,
    273-279 and 361-367:
    [minutes = seconds // 60], [hours = minutes // 60],
    [remaining_minutes = minutes % 60]. *)
Definition seconds_text (seconds : Z) : string :=
  let minutes := (seconds / 60)%Z in
  let hours := (minutes / 60)%Z in
  let remaining_minutes := (minutes mod 60)%Z in
  hours_minutes_text hours remaining_minutes.

(** The same lines on a float. *)
Definition float_seconds_text (seconds : float) : string :=
  let minutes := float_floordiv L seconds 60 in
  let hours := float_floordiv L minutes 60 in
  let remaining_minutes := float_mod L minutes 60 in
  if PrimFloat.ltb 0%float hours
  then float_str L hours ++ "h " ++ float_str L remaining_minutes ++ "m"
  else float_str L remaining_minutes ++ "m".

Definition int_of_bool (b : bool) : Z := if b then 1%Z else 0%Z.

(** Lines 273-279 on an arbitrary object: [//] is defined on numbers only. *)
Definition duration_text (duration_seconds : pyval) : exc string :=
  match duration_seconds with
  | VInt n => Ok (seconds_text n)
  | VBool b => Ok (seconds_text (int_of_bool b))
  | VFloat f => Ok (float_seconds_text f)
  | v => Raise ("unsupported operand type(s) for //: '" ++ Py.type_name v
                ++ "' and 'int'")
  end.

(** [str(v)] *)
Definition py_str (v : pyval) : string :=
  match v with
  | VNone => "None"
  | VBool true => "True"
  | VBool false => "False"
  | VInt n => Str.of_Z n
  | VFloat f => float_str L f
  | VStr s => s
  | v => container_str L v
  end.

(** ** [detect_posters] *)

(** [https://media\.stage\.in/[^Q']*<keyword>[^Q]*\.(webp|jpg|jpeg)], where
    [Q] stands for the double quote *)
Definition stage_image (keyword : string) : Re.regex :=
  (Re.Lit "https://media.stage.in/" +++ Re.star (Re.none_of [Str.dq; "'"%char])
   +++ Re.Lit keyword +++ Re.star (Re.none_of [Str.dq]) +++ Re.Lit "."
   +++ Embedded.image_ext 1)%re.

(** [Q<name>Q:Q([^Q]+)Q], where [Q] stands for the double quote *)
Definition json_string_field (name : string) : Re.regex :=
  (Re.Lit (Str.DQ ++ name ++ Str.DQ ++ ":" ++ Str.DQ)
   +++ Re.Grp 1 (Re.plus (Re.none_of [Str.dq])) +++ Re.Lit Str.DQ)%re.

Definition landscape_patterns : list Re.regex :=
  [ stage_image "horizontal"; stage_image "landscape"; stage_image "wide";
    json_string_field "horizontalThumbnail"; json_string_field "largeThumbnail" ].

Definition portrait_patterns : list Re.regex :=
  [ stage_image "vertical"; stage_image "portrait"; stage_image "tall";
    json_string_field "verticalThumbnail" ].

(** The loop over the patterns of one orientation.  Each pattern has one
    group, so [re.findall] lists the texts of that group and [matches[0]]
    is the group of the leftmost match. *)
Fixpoint first_poster (patterns : list Re.regex) (media : string) : pyval :=
  match patterns with
  | [] => VNone
  | pattern :: rest =>
      match Re.search false pattern media with
      | Some m => VStr (Re.group 1 m)
      | None => first_poster rest media
      end
  end.

(** [posters[key].strip(Q)] when [posters[key]] starts with a quote *)
Definition unquote (poster : pyval) : pyval :=
  match poster with
  | VStr s =>
      if (negb (Str.is_empty s) && Str.startswith Str.DQ s)%bool
      then VStr (Str.strip_char Str.dq s) else poster
  | _ => poster
  end.

Definition detect_posters (next_json : pyval) : dict :=
  let media := json_dumps L next_json in
  [ ("landscape", unquote (first_poster landscape_patterns media));
    ("portrait", unquote (first_poster portrait_patterns media)) ].

(** ** [detect_content_type] and [extract_episode_count] *)

Definition url_patterns : list string :=
  ["/show/"; "/series/"; "/web-series/"; "/tv-show/"].

Definition series_indicators : list string :=
  ["episode"; "episodes"; "season"; "seasons"; "series"; "web series"].

Definition searches (ic : bool) (r : Re.regex) (text : string) : bool :=
  match Re.search ic r text with Some _ => true | None => false end.

Definition detect_content_type (next_json ld_data : pyval) : string :=
  let json_text := json_dumps L next_json ++ json_dumps L ld_data in
  if existsb (fun pattern => searches true (Re.Lit pattern) json_text) url_patterns
  then "Series"
  else if searches true (Re.Lit "/movie/") json_text then "Movie"
  else
    let series_count :=
      List.length (filter (fun indicator =>
                        Str.contains (Str.lower indicator) (Str.lower json_text))
                     series_indicators) in
    if Nat.leb 3 series_count then "Series" else "Movie".

(** The four patterns of [extract_episode_count]; the third and the fourth
    are [Q episodeCount Q:\s*(\d+)] and [Q numberOfEpisodes Q:\s*(\d+)],
    where [Q] stands for the double quote. *)
Definition episode_patterns : list Re.regex :=
  [ (* (\d+)\s*episodes? *)
    (Re.Grp 1 (Re.plus Re.digit) +++ Re.star Re.space
     +++ Embedded.episodes_word)%re;
    (* episode\s*(\d+) *)
    (Re.Lit "episode" +++ Re.star Re.space +++ Re.Grp 1 (Re.plus Re.digit))%re;
    (Re.Lit (Str.DQ ++ "episodeCount" ++ Str.DQ ++ ":") +++ Re.star Re.space
     +++ Re.Grp 1 (Re.plus Re.digit))%re;
    (Re.Lit (Str.DQ ++ "numberOfEpisodes" ++ Str.DQ ++ ":") +++ Re.star Re.space
     +++ Re.Grp 1 (Re.plus Re.digit))%re ].

Definition extract_episode_count (next_json ld_data : pyval) : pyval :=
  let json_text := json_dumps L next_json ++ json_dumps L ld_data in
  match scan_episodes episode_patterns json_text with
  | Some n => VInt n
  | None => VNone
  end.

(** ** Layer B: [extract_from_next_data] *)

(** How far a [try] body got: it ran to its end, or an exception stopped
    it; either way the handler's function returns the dict filled so far. *)
Inductive progress : Type :=
| Running (extracted : dict)
| Stopped (extracted : dict).

Definition and_then (p : progress) (f : dict -> progress) : progress :=
  match p with
  | Running extracted => f extracted
  | Stopped extracted => Stopped extracted
  end.

Definition extracted_of (p : progress) : dict :=
  match p with Running d => d | Stopped d => d end.

(** [isinstance(item, dict) and item.get('type') == 'movie'] for the first
    such item of the list *)
Fixpoint first_movie_item (items : list pyval) : option pyval :=
  match items with
  | [] => None
  | item :: rest =>
      match item with
      | VDict d =>
          if Py.eq_str (Py.get "type" d) "movie" then Some item
          else first_movie_item rest
      | _ => first_movie_item rest
      end
  end.

(** The loop over [data_sources], lines 209-221. *)
Fixpoint scan_sources (sources : list pyval) (content_data : pyval) : pyval :=
  match sources with
  | [] => content_data
  | source :: rest =>
      match source with
      | VDict d =>
          let content_data :=
            match Py.lookup "content" d with
            | Some (VList items) =>
                match first_movie_item items with
                | Some item => item
                | None => content_data
                end
            | _ => content_data
            end in
          if (Py.eq_str (Py.get "type" d) "movie"
              || Py.eq_str (Py.get "type" d) "show")%bool
          then source
          else scan_sources rest content_data
      | _ => scan_sources rest content_data
      end
  end.

(** The five [movie_patterns], each as the program writes it (the text that
    [pattern.split] cuts) and as the expression it denotes:
    [Q type Q:Q movie Q[^}]*Q <field> Q:<value>]. *)
Definition movie_prefix (field : string) : string :=
  Str.DQ ++ "type" ++ Str.DQ ++ ":" ++ Str.DQ ++ "movie" ++ Str.DQ ++ "[^}]*"
  ++ Str.DQ ++ field ++ Str.DQ ++ ":".

Definition movie_regex (field : string) (value : Re.regex) : Re.regex :=
  (Re.Lit (Str.DQ ++ "type" ++ Str.DQ ++ ":" ++ Str.DQ ++ "movie" ++ Str.DQ)
   +++ Re.star (Re.none_of ["}"%char])
   +++ Re.Lit (Str.DQ ++ field ++ Str.DQ ++ ":") +++ value)%re.

Definition quoted_text : string := Str.DQ ++ "([^" ++ Str.DQ ++ "]+)" ++ Str.DQ.

Definition quoted_regex : Re.regex :=
  (Re.Lit Str.DQ +++ Re.Grp 1 (Re.plus (Re.none_of [Str.dq])) +++ Re.Lit Str.DQ)%re.

Definition movie_patterns : list (string * Re.regex) :=
  [ (movie_prefix "title" ++ quoted_text, movie_regex "title" quoted_regex);
    (movie_prefix "description" ++ quoted_text,
     movie_regex "description" quoted_regex);
    (movie_prefix "yearOfRelease" ++ "(\d+)",
     movie_regex "yearOfRelease" (Re.Grp 1 (Re.plus Re.digit)));
    (movie_prefix "duration" ++ "(\d+)",
     movie_regex "duration" (Re.Grp 1 (Re.plus Re.digit)));
    (movie_prefix "dialect" ++ quoted_text, movie_regex "dialect" quoted_regex) ].

(** [pattern.split(Q)[1]] *)
Definition field_name_of (pattern : string) : string :=
  nth 1 (Str.split Str.dq pattern) EmptyString.

(** The body of [if match:], lines 239-257. *)
Definition store_field (field_name : string) (m : Re.rematch) (extracted : dict)
  : progress :=
  if String.eqb field_name "title" then
    Running (Py.set "title" (VStr (Re.group 1 m)) extracted)
  else if String.eqb field_name "description" then
    Running (Py.set "description"
                    (VStr (Str.replace "\n" Str.NL (Re.group 1 m))) extracted)
  else if String.eqb field_name "yearOfRelease" then
    Running (Py.set "release_date" (VStr (Re.group 1 m)) extracted)
  else if String.eqb field_name "duration" then
    match py_int (Re.group 1 m) with
    | Ok seconds => Running (Py.set "duration" (VStr (seconds_text seconds)) extracted)
    | Raise _ => Stopped extracted
    end
  else if String.eqb field_name "dialect" then
    Running (Py.set "languages" (VStr (Str.title (Re.group 1 m))) extracted)
  else Running extracted.

Fixpoint scan_movie_patterns (patterns : list (string * Re.regex))
    (json_text : string) (extracted : dict) : progress :=
  match patterns with
  | [] => Running extracted
  | (text, pattern) :: rest =>
      match Re.search false pattern json_text with
      | Some m =>
          and_then (store_field (field_name_of text) m extracted)
                   (scan_movie_patterns rest json_text)
      | None => scan_movie_patterns rest json_text extracted
      end
  end.

Definition unless_set (key : string) (value : pyval) (extracted : dict) : dict :=
  if negb (Py.truthy (Py.get key extracted)) then Py.set key value extracted
  else extracted.

(** The body of [if content_data:], lines 261-286. *)
Definition fill_from_content (content_data : dict) (extracted : dict)
  : progress :=
  let extracted := unless_set "title" (Py.get "title" content_data) extracted in
  let extracted :=
    unless_set "description" (Py.get "description" content_data) extracted in
  let extracted :=
    unless_set "release_date"
      (VStr (py_str (Py.get_default "yearOfRelease" (VStr "") content_data)))
      extracted in
  and_then
    (if negb (Py.truthy (Py.get "duration" extracted)) then
       let duration_seconds := Py.get "duration" content_data in
       if Py.truthy duration_seconds then
         match duration_text duration_seconds with
         | Ok text => Running (Py.set "duration" (VStr text) extracted)
         | Raise _ => Stopped extracted
         end
       else Running extracted
     else Running extracted)
    (fun extracted =>
  and_then
    (if negb (Py.truthy (Py.get "languages" extracted)) then
       match Py.obj_title (Py.get_default "dialect" (VStr "") content_data) with
       | Ok languages => Running (Py.set "languages" languages extracted)
       | Raise _ => Stopped extracted
       end
     else Running extracted)
    (fun extracted =>
       Running (unless_set "genre" (Py.get "genre" content_data) extracted))).

Definition empty_dict : pyval := VDict [].

(** The candidate places of the content object, lines 191-206; an
    exception is raised when something on the way is not a dict. *)
Definition data_sources (next_json : pyval) : exc (list pyval) :=
  props <- Py.obj_get next_json "props" empty_dict ;;
  page_props <- Py.obj_get props "pageProps" empty_dict ;;
  data <- Py.obj_get page_props "data" empty_dict ;;
  content <- Py.obj_get page_props "content" empty_dict ;;
  movie <- Py.obj_get page_props "movie" empty_dict ;;
  series <- Py.obj_get page_props "series" empty_dict ;;
  episode <- Py.obj_get page_props "episode" empty_dict ;;
  query <- Py.obj_get next_json "query" empty_dict ;;
  Ok [data; content; movie; series; episode; query].

Definition extract_from_next_data (next_json : pyval) : dict :=
  let extracted : dict := [] in
  match data_sources next_json with
  | Raise _ => extracted
  | Ok sources =>
      let content_data := scan_sources sources VNone in
      extracted_of
        (and_then
           (if negb (Py.truthy content_data)
            then scan_movie_patterns movie_patterns (json_dumps L next_json)
                                     extracted
            else Running extracted)
           (fun extracted =>
              match content_data with
              | VDict d =>
                  if Py.truthy content_data then fill_from_content d extracted
                  else Running extracted
              | _ => Running extracted
              end))
  end.

(** ** Layer C: [extract_from_ld_json] *)

(** [v.split('T')[0]] on an arbitrary object *)
Definition date_part (v : pyval) : exc pyval :=
  match v with
  | VStr s => Ok (VStr (hd EmptyString (Str.split "T" s)))
  | _ => Py.attribute_error v "split"
  end.

Definition extract_from_ld_json (ld_data : pyval) : dict :=
  let extracted : dict := [] in
  let ld_data :=
    match ld_data with
    | VList [] => empty_dict
    | VList (first :: _) => first
    | _ => ld_data
    end in
  match ld_data with
  | VDict ld =>
      let extracted := Py.set "title" (Py.get "name" ld) extracted in
      let extracted := Py.set "description" (Py.get "description" ld) extracted in
      match (if Py.truthy (Py.get "uploadDate" ld)
             then date_part (Py.get_default "uploadDate" (VStr "") ld)
             else Ok VNone) with
      | Raise _ => extracted
      | Ok release_date =>
          let extracted := Py.set "release_date" release_date extracted in
          let extracted :=
            Py.set "duration" (convert_duration (Py.get "duration" ld)) extracted in
          let extracted := Py.set "genre" (Py.get "genre" ld) extracted in
          Py.set "languages" (Py.get "inLanguage" ld) extracted
      end
  | _ => extracted
  end.

(** ** The engine: [get_stage_identity] *)

Definition initial_result (stage_id : option string) (url : string) : dict :=
  [ ("stage_id", Py.of_option_str stage_id);
    ("type", VNone);
    ("title", VNone);
    ("description", VNone);
    ("release_date", VNone);
    ("duration", VNone);
    ("genre", VNone);
    ("languages", VNone);
    ("episode_count", VNone);
    ("landscape_poster", VNone);
    ("portrait_poster", VNone);
    ("url", VStr url);
    ("success", VBool false) ].

(** The record of the [except] clause, lines 447-462. *)
Definition failure_record (url : string) (error : string) : dict :=
  [ ("stage_id", VNone);
    ("type", VNone);
    ("title", VNone);
    ("description", VNone);
    ("release_date", VNone);
    ("duration", VNone);
    ("genre", VNone);
    ("languages", VNone);
    ("episode_count", VNone);
    ("landscape_poster", VNone);
    ("portrait_poster", VNone);
    ("url", VStr url);
    ("success", VBool false);
    ("error", VStr error) ].

(** Lines 358-370: the duration of the embedded data. *)
Definition set_embedded_duration (movie_data : dict) (result : dict) : dict :=
  let duration_seconds := Py.get "duration" movie_data in
  if Py.truthy duration_seconds then
    match duration_seconds with
    | VInt n => Py.set "duration" (VStr (seconds_text n)) result
    | VBool b => Py.set "duration" (VStr (seconds_text (int_of_bool b))) result
    | _ => Py.set "duration" duration_seconds result
    end
  else result.

(** Lines 350-378: the fields taken from Layer A. *)
Definition apply_movie_data (embedded_data movie_data : dict) (result : dict)
  : exc dict :=
  let result := Py.set "title" (Py.get "title" movie_data) result in
  description <-
    Py.obj_unescape_newlines (Py.get_default "description" (VStr "") movie_data) ;;
  let result := Py.set "description" description result in
  let result :=
    Py.set "release_date"
           (VStr (py_str (Py.get_default "yearOfRelease" (VStr "") movie_data)))
           result in
  languages <- Py.obj_title (Py.get_default "dialect" (VStr "") movie_data) ;;
  let result := Py.set "languages" languages result in
  let result := set_embedded_duration movie_data result in
  let result :=
    Py.set "landscape_poster" (Py.get "horizontalThumbnail" movie_data) result in
  let result :=
    Py.set "portrait_poster" (Py.get "verticalThumbnail" movie_data) result in
  if Py.mem "type" embedded_data then
    type <- Py.obj_title (Py.get "type" embedded_data) ;;
    Ok (Py.set "type" type result)
  else Ok result.

(** Lines 344-378. *)
Definition layer_a (html_content : string) (result : dict) : exc dict :=
  let embedded_data := extract_embedded_data html_content in
  if Py.truthy (VDict embedded_data) then
    let movie_data := find_movie_data (VDict embedded_data) in
    if Py.truthy (VDict movie_data)
    then apply_movie_data embedded_data movie_data result
    else Ok result
  else Ok result.

(** [json.loads(script.string)] *)
Definition script_json (script : Tag) : exc pyval :=
  match tag_string script with
  | Some text => json_loads L text
  | None => Raise "the JSON object must be str, bytes or bytearray, not NoneType"
  end.

(** Lines 415-417: every non-empty value of Layer B is written. *)
Definition merge_next (next_extracted : dict) (result : dict) : dict :=
  fold_left (fun result kv =>
               if Py.truthy (snd kv) then Py.set (fst kv) (snd kv) result
               else result)
            next_extracted result.

(** Lines 419-421: a non-empty value of Layer C is written where the
    result has none. *)
Definition merge_ld (ld_extracted : dict) (result : dict) : dict :=
  fold_left (fun result kv =>
               if (Py.truthy (snd kv) && negb (Py.truthy (Py.get (fst kv) result)))%bool
               then Py.set (fst kv) (snd kv) result
               else result)
            ld_extracted result.

(** Lines 389-400: the [try] around the __NEXT_DATA__ script gives the
    parsed tree, what Layer B extracted, and the result with the posters. *)
Definition next_layer (soup : Soup) (result : dict) : pyval * dict * dict :=
  match find_script_by_id soup "__NEXT_DATA__" with
  | Some next_script =>
      match script_json next_script with
      | Ok next_data =>
          let next_extracted := extract_from_next_data next_data in
          let posters := detect_posters next_data in
          let result := Py.set "landscape_poster" (Py.get "landscape" posters) result in
          let result := Py.set "portrait_poster" (Py.get "portrait" posters) result in
          (next_data, next_extracted, result)
      | Raise _ => (empty_dict, [], result)
      end
  | None => (empty_dict, [], result)
  end.

(** Lines 403-412. *)
Definition ld_layer (soup : Soup) : pyval * dict :=
  match find_script_by_type soup "application/ld+json" with
  | Some ld_script =>
      match script_json ld_script with
      | Ok ld_data => (ld_data, extract_from_ld_json ld_data)
      | Raise _ => (empty_dict, [])
      end
  | None => (empty_dict, [])
  end.

(** Lines 385-429, on the parsed document: Layers B and C, their merge,
    the classifier and the episode count. *)
Definition merge_layers (soup : Soup) (result : dict) : dict :=
  let '(next_data, next_extracted, result) := next_layer soup result in
  let '(ld_data, ld_extracted) := ld_layer soup in
  let result := merge_next next_extracted result in
  let result := merge_ld ld_extracted result in
  let result :=
    if negb (Py.truthy (Py.get "type" result))
    then Py.set "type" (VStr (detect_content_type next_data ld_data)) result
    else result in
  let result :=
    if Py.eq_str (Py.get "type" result) "Series"
    then Py.set "episode_count" (extract_episode_count next_data ld_data) result
    else result in
  result.

(** Lines 382-429: the branch taken when Layer A left no title. *)
Definition fallback (html_content : string) (result : dict) : exc dict :=
  soup <- BeautifulSoup L html_content ;;
  Ok (merge_layers soup result).

(** Lines 431-433. *)
Definition default_type (result : dict) : dict :=
  if negb (Py.mem "type" result) then Py.set "type" (VStr "Movie") result
  else result.

(** Lines 436-438. *)
Definition clean_duration (result : dict) : dict :=
  match Py.get "duration" result with
  | VStr duration =>
      if (negb (Str.is_empty duration) && negb (Str.endswith "m" duration)
          && negb (Str.endswith "h" duration))%bool
      then Py.set "duration" (convert_duration (VStr duration)) result
      else result
  | _ => result
  end.

(** Lines 441-442. *)
Definition mark_success (result : dict) : dict :=
  if (Py.truthy (Py.get "title" result) || Py.truthy (Py.get "stage_id" result))%bool
  then Py.set "success" (VBool true) result
  else result.

(** The [try] body of [get_stage_identity], lines 320-444. *)
Definition get_stage_identity_body (url : string) : exc dict :=
  html_content <- http_get L url ;;
  let stage_id := extract_stage_id url in
  let result := initial_result stage_id url in
  result <- layer_a html_content result ;;
  result <-
    (if negb (Py.truthy (Py.get "title" result))
     then fallback html_content result
     else Ok (default_type result)) ;;
  let result := clean_duration result in
  let result := mark_success result in
  Ok result.

(** [get_stage_identity]: the body, and the [except Exception] clause. *)
Definition get_stage_identity (url : string) : dict :=
  match get_stage_identity_body url with
  | Ok result => result
  | Raise error => failure_record url error
  end.

End Engine.

(* ================================================================== *)
(** * The helpers of the bot *)
(* ================================================================== *)

(** [[
    return "stage.in" in url.lower() and ("movie" in url.lower()
        or "series" in url.lower() or "-" in url)
    ]]
    The [try] around it has nothing to catch on a string. *)
Definition validate_stage_url (url : string) : bool :=
  (Str.contains "stage.in" (Str.lower url)
   && (Str.contains "movie" (Str.lower url)
       || Str.contains "series" (Str.lower url)
       || Str.contains "-" url))%bool.

(** The class of [url_pattern]: any character but white space and
    [< > Q { } | \ ^ ` [ ]], where [Q] stands for the double quote. *)
Definition url_body : Re.cset :=
  {| Re.negated := true;
     Re.items :=
       Re.ISpace
       :: map Re.ILit
            [ "<"; ">"; Str.dq; "{"; "}"; "|"; "092"; "^"; "096"; "["; "]" ]%char |}.

(** [https?://] and one or more characters of [url_body] *)
Definition url_pattern : Re.regex :=
  (Re.Lit "http" +++ Re.opt (Re.chr "s") +++ Re.Lit "://" +++ Re.plus url_body)%re.

(** [re.findall(pattern, s)] for a pattern without groups: the texts of the
    successive matches. *)
Definition findall (ic : bool) (r : Re.regex) (s : string) : list string :=
  map (fun m => Str.slice (Re.start m) (Re.stop m) s) (Re.finditer ic r s).

Definition extract_urls_from_text (text : string) : list string :=
  findall false url_pattern text.

(** The condition under which [handle_text] answers: the message holds
    "stage.in" and one of its addresses is valid. *)
Definition stage_url_detected (text : string) : bool :=
  (Str.contains "stage.in" text
   && match filter validate_stage_url (extract_urls_from_text text) with
      | [] => false
      | _ :: _ => true
      end)%bool.

(* ================================================================== *)
(** * Concrete pages

    A page is served by a [Libraries] whose [http_get] returns its text,
    whose [BeautifulSoup] returns its elements and whose [json_loads] reads
    its scripts. *)
(* ================================================================== *)

Module Pages.

(** [json.dumps] for trees without floats and strings of printable ASCII:
    [", "] between items, [": "] after a key, the quote and the backslash
    escaped. *)
Fixpoint escape (s : string) : string :=
  match s with
  | EmptyString => EmptyString
  | String c s' =>
      if (Str.eqb_char c Str.dq || Str.eqb_char c "\"%char)%bool
      then String "\"%char (String c (escape s'))
      else String c (escape s')
  end.

Definition quoted (s : string) : string := Str.DQ ++ escape s ++ Str.DQ.

Definition join (parts : list string) : string := String.concat ", " parts.

Fixpoint dumps (v : pyval) : string :=
  match v with
  | VNone => "null"
  | VBool true => "true"
  | VBool false => "false"
  | VInt n => Str.of_Z n
  | VFloat _ => "0.0"
  | VStr s => quoted s
  | VList l => "[" ++ join (map dumps l) ++ "]"
  | VDict d =>
      "{" ++ join (map (fun kv => quoted (fst kv) ++ ": " ++ dumps (snd kv)) d)
      ++ "}"
  end.

(** The whole minutes of a [timedelta], taken exactly; the double that
    Python goes through gives the same integer for every duration below
    2^34 seconds. *)
Definition exact_minutes (td : timedelta) : Z :=
  (((td_days td * 86400 + td_seconds td) * 1000000 + td_microseconds td)
   / 60000000)%Z.

Definition element (text : string) (content : option string) : Tag :=
  {| get_text_strip := text; attr_content := content; tag_string := None |}.

Definition script (text : string) : Tag :=
  {| get_text_strip := text; attr_content := None; tag_string := Some text |}.

Fixpoint assoc {A : Type} (k : string) (l : list (string * A)) : option A :=
  match l with
  | [] => None
  | (k', a) :: l' => if String.eqb k k' then Some a else assoc k l'
  end.

(** A document given by the elements its selectors find. *)
Definition soup_of (selected by_id by_type : list (string * Tag)) : Soup :=
  {| select_one := fun selector => assoc selector selected;
     find_script_by_id := fun id => assoc id by_id;
     find_script_by_type := fun type => assoc type by_type |}.

(** The libraries in front of one page: [html] is what the server sends
    for any address, [soup] its parse, [trees] the JSON texts it embeds.
    No float occurs in these pages, so the float operations are never
    called; [isodate] is given by the durations it parses. *)
Definition serving (html : string) (soup : Soup)
    (trees : list (string * pyval)) (durations : list (string * timedelta))
  : Libraries :=
  {| http_get := fun _ => Ok html;
     BeautifulSoup := fun _ => Ok soup;
     json_loads := fun text =>
       match assoc text trees with
       | Some v => Ok v
       | None => Raise "Expecting value"
       end;
     json_dumps := dumps;
     parse_duration := fun text =>
       match assoc text durations with
       | Some td => Ok td
       | None => Raise "Unable to parse duration string"
       end;
     whole_minutes := exact_minutes;
     float_floordiv := fun x _ => x;
     float_mod := fun x _ => x;
     float_str := fun _ => "0.0";
     container_str := dumps;
     int_max_str_digits := Some 4300 |}.

(** A server that does not answer. *)
Definition unreachable (error : string) : Libraries :=
  {| http_get := fun _ => Raise error;
     BeautifulSoup := fun _ => Raise "no document";
     json_loads := fun _ => Raise "Expecting value";
     json_dumps := dumps;
     parse_duration := fun _ => Raise "Unable to parse duration string";
     whole_minutes := exact_minutes;
     float_floordiv := fun x _ => x;
     float_mod := fun x _ => x;
     float_str := fun _ => "0.0";
     container_str := dumps;
     int_max_str_digits := Some 4300 |}.

(** ** The page of the movie Kayantar *)

Definition kayantar_url : string :=
  "https://www.stage.in/en/haryanvi/movie/kayantar-14145".

Definition kayantar_html : string :=
  "<html><head><title>STAGE</title>"
  ++ "<meta property=" ++ Str.DQ ++ "og:title" ++ Str.DQ
  ++ " content=" ++ Str.DQ ++ "Kayantar" ++ Str.DQ ++ "/>"
  ++ "<link rel=" ++ Str.DQ ++ "canonical" ++ Str.DQ
  ++ " href=" ++ Str.DQ ++ kayantar_url ++ Str.DQ ++ "/>"
  ++ "</head><body></body></html>".

Definition kayantar_soup : Soup :=
  soup_of [ ("title", element "STAGE" None);
            ("meta[property='og:title']", element "" (Some "Kayantar")) ]
          [] [].

Definition kayantar : Libraries := serving kayantar_html kayantar_soup [] [].

(** ** A page that names the series Videshi Bahu in its heading *)

Definition videshi_html : string :=
  "<html><body><h1>Videshi Bahu</h1></body></html>".

Definition videshi_soup : Soup :=
  soup_of [ ("h1", element "Videshi Bahu" None) ] [] [].

Definition videshi : Libraries := serving videshi_html videshi_soup [] [].

Definition videshi_url : string :=
  "https://www.stage.in/en/haryanvi/show/videshi-bahu-77".

(** ** A series page with no title and no episode count anywhere *)

Definition show_url : string := "https://www.stage.in/en/haryanvi/show/x-1".

Definition show_html : string :=
  "<html><body><a href=" ++ Str.DQ ++ "/en/haryanvi/show/x-1" ++ Str.DQ
  ++ ">x</a></body></html>".

Definition show : Libraries := serving show_html (soup_of [] [] []) [] [].

(** ** A series page whose __NEXT_DATA__ script holds an episode count *)

Definition episodes_text : string :=
  "{" ++ Str.DQ ++ "props" ++ Str.DQ ++ ": {" ++ Str.DQ ++ "pageProps" ++ Str.DQ
  ++ ": {" ++ Str.DQ ++ "series" ++ Str.DQ ++ ": {" ++ Str.DQ ++ "type" ++ Str.DQ
  ++ ": " ++ Str.DQ ++ "show" ++ Str.DQ ++ ", " ++ Str.DQ ++ "episodeCount"
  ++ Str.DQ ++ ": 8}}}}".

Definition episodes_tree : pyval :=
  VDict [("props",
          VDict [("pageProps",
                  VDict [("series",
                          VDict [("type", VStr "show");
                                 ("episodeCount", VInt 8)])])])].

Definition episodes_html : string :=
  "<html><body><a href=" ++ Str.DQ ++ "/en/haryanvi/show/x-1" ++ Str.DQ
  ++ ">x</a><script id=" ++ Str.DQ ++ "__NEXT_DATA__" ++ Str.DQ ++ " type="
  ++ Str.DQ ++ "application/json" ++ Str.DQ ++ ">" ++ episodes_text
  ++ "</script></body></html>".

Definition episodes : Libraries :=
  serving episodes_html
          (soup_of [] [("__NEXT_DATA__", script episodes_text)] [])
          [(episodes_text, episodes_tree)] [].

(** ** A page whose text and whose __NEXT_DATA__ script name two release
    years, and which has no title *)

Definition years_text : string :=
  "{" ++ Str.DQ ++ "props" ++ Str.DQ ++ ": {" ++ Str.DQ ++ "pageProps" ++ Str.DQ
  ++ ": {" ++ Str.DQ ++ "movie" ++ Str.DQ ++ ": {" ++ Str.DQ ++ "type" ++ Str.DQ
  ++ ": " ++ Str.DQ ++ "movie" ++ Str.DQ ++ ", " ++ Str.DQ ++ "yearOfRelease"
  ++ Str.DQ ++ ": 2021}}}}".

Definition years_tree : pyval :=
  VDict [("props",
          VDict [("pageProps",
                  VDict [("movie",
                          VDict [("type", VStr "movie");
                                 ("yearOfRelease", VInt 2021)])])])].

Definition years_html : string :=
  "<html><body><p>released in 2020</p><script id=" ++ Str.DQ ++ "__NEXT_DATA__"
  ++ Str.DQ ++ " type=" ++ Str.DQ ++ "application/json" ++ Str.DQ ++ ">"
  ++ years_text ++ "</script></body></html>".

Definition years_url : string := "https://www.stage.in/en/haryanvi/movie/x-2".

Definition years_soup : Soup :=
  soup_of [("p", element "released in 2020" None)]
          [("__NEXT_DATA__", script years_text)] [].

Definition years : Libraries :=
  serving years_html years_soup [(years_text, years_tree)] [].

(** The record lines 344-378 leave on that page. *)
Definition years_layer_a : dict :=
  Eval vm_compute in
    match layer_a years years_html
                  (initial_result (extract_stage_id years_url) years_url) with
    | Ok result => result
    | Raise _ => []
    end.

(** ** A page that gives a running time as hours, minutes and seconds *)

Definition clock_html : string :=
  "<html><body><h1>Kayantar</h1><p>1:27:30</p></body></html>".

Definition clock : Libraries :=
  serving clock_html
          (soup_of [("h1", element "Kayantar" None); ("p", element "1:27:30" None)]
                   [] [])
          [] [].

(** ** [isodate] reading PT1H27M, on any page *)

Definition iso : Libraries :=
  serving kayantar_html kayantar_soup []
          [("PT1H27M",
            {| td_days := 0; td_seconds := 5220; td_microseconds := 0 |})].

End Pages.

(* ================================================================== *)
(** * More pages and messages *)
(* ================================================================== *)

Module Samples.

Import Pages.

(** ** A page with no title element, a release year in its text and a
    JSON-LD script *)

Definition ld_text : string :=
  "{" ++ Str.DQ ++ "name" ++ Str.DQ ++ ": " ++ Str.DQ ++ "Kayantar" ++ Str.DQ
  ++ ", " ++ Str.DQ ++ "uploadDate" ++ Str.DQ ++ ": " ++ Str.DQ
  ++ "2021-05-01T10:00:00Z" ++ Str.DQ ++ "}".

Definition ld_tree : pyval :=
  VDict [("name", VStr "Kayantar"); ("uploadDate", VStr "2021-05-01T10:00:00Z")].

Definition ld_html : string :=
  "<html><body><p>released in 2020</p><script type=" ++ Str.DQ
  ++ "application/ld+json" ++ Str.DQ ++ ">" ++ ld_text
  ++ "</script></body></html>".

Definition ld_soup : Soup :=
  soup_of [("p", element "released in 2020" None)] []
          [("application/ld+json", script ld_text)].

Definition ld_page : Libraries :=
  serving ld_html ld_soup [(ld_text, ld_tree)] [].

(** The record lines 344-378 leave on that page. *)
Definition ld_layer_a : dict :=
  Eval vm_compute in
    match layer_a ld_page ld_html
                  (initial_result (extract_stage_id kayantar_url) kayantar_url) with
    | Ok result => result
    | Raise _ => []
    end.

(** ** A document the parser refuses *)

Definition unparsed : Libraries :=
  {| http_get := fun _ => Ok "<html>";
     BeautifulSoup := fun _ => Raise "no document";
     json_loads := fun _ => Raise "Expecting value";
     json_dumps := dumps;
     parse_duration := fun _ => Raise "Unable to parse duration string";
     whole_minutes := exact_minutes;
     float_floordiv := fun x _ => x;
     float_mod := fun x _ => x;
     float_str := fun _ => "0.0";
     container_str := dumps;
     int_max_str_digits := Some 4300 |}.

(** ** The address of a poster, in a tree and in the text of a page *)

Definition poster_url : string :=
  "https://media.stage.in/episode/horizontal/kayantar.webp".

Definition poster_tree : pyval := VDict [("image", VStr poster_url)].

Definition poster_html : string :=
  "<html><body><img src=" ++ Str.DQ ++ poster_url ++ Str.DQ
  ++ "/></body></html>".

Definition poster_page : Libraries :=
  serving poster_html (soup_of [] [] []) [] [].

(** ** The page of the scenario with nothing but its two titles, and the
    same page with a paragraph that names a season and an episode *)

Definition bare_html : string :=
  "<html><head><title>STAGE</title>"
  ++ "<meta property=" ++ Str.DQ ++ "og:title" ++ Str.DQ
  ++ " content=" ++ Str.DQ ++ "Kayantar" ++ Str.DQ ++ "/>"
  ++ "</head><body></body></html>".

Definition bare : Libraries := serving bare_html kayantar_soup [] [].

Definition serial_html : string :=
  "<html><head><title>STAGE</title>"
  ++ "<meta property=" ++ Str.DQ ++ "og:title" ++ Str.DQ
  ++ " content=" ++ Str.DQ ++ "Kayantar" ++ Str.DQ ++ "/>"
  ++ "</head><body><p>Season 1, episode 3</p></body></html>".

Definition serial_soup : Soup :=
  soup_of [ ("title", element "STAGE" None);
            ("meta[property='og:title']", element "" (Some "Kayantar"));
            ("p", element "Season 1, episode 3" None) ]
          [] [].

Definition serial : Libraries := serving serial_html serial_soup [] [].

(** ** A page whose text gives a running time in minutes and whose
    __NEXT_DATA__ script gives one in seconds, and which has no title *)

Definition runtime_text : string :=
  "{" ++ Str.DQ ++ "props" ++ Str.DQ ++ ": {" ++ Str.DQ ++ "pageProps" ++ Str.DQ
  ++ ": {" ++ Str.DQ ++ "movie" ++ Str.DQ ++ ": {" ++ Str.DQ ++ "type" ++ Str.DQ
  ++ ": " ++ Str.DQ ++ "movie" ++ Str.DQ ++ ", " ++ Str.DQ ++ "duration"
  ++ Str.DQ ++ ": 5400}}}}".

Definition runtime_tree : pyval :=
  VDict [("props",
          VDict [("pageProps",
                  VDict [("movie",
                          VDict [("type", VStr "movie");
                                 ("duration", VInt 5400)])])])].

Definition runtime_html : string :=
  "<html><body><p>45 minutes</p><script id=" ++ Str.DQ ++ "__NEXT_DATA__"
  ++ Str.DQ ++ " type=" ++ Str.DQ ++ "application/json" ++ Str.DQ ++ ">"
  ++ runtime_text ++ "</script></body></html>".

Definition runtime_soup : Soup :=
  soup_of [("p", element "45 minutes" None)]
          [("__NEXT_DATA__", script runtime_text)] [].

Definition runtime : Libraries :=
  serving runtime_html runtime_soup [(runtime_text, runtime_tree)] [].

(** The record lines 344-378 leave on that page. *)
Definition runtime_layer_a : dict :=
  Eval vm_compute in
    match layer_a runtime runtime_html
                  (initial_result (extract_stage_id years_url) years_url) with
    | Ok result => result
    | Raise _ => []
    end.

(** ** A message that holds an address *)

Definition message : string := "see " ++ kayantar_url ++ " tonight".

End Samples.

(* ================================================================== *)
(** * The identifier, read without the matcher

    [find_id] reads the identifier of an address by plain recursion on the
    text; [extract_stage_id] is shown below to compute the same thing. *)
(* ================================================================== *)

(** The longest prefix of digits of a string, and what follows it. *)
Fixpoint span_digits (s : string) : string * string :=
  match s with
  | EmptyString => (EmptyString, EmptyString)
  | String c s' =>
      if Str.is_digit c
      then let '(d, tail) := span_digits s' in (String c d, tail)
      else (EmptyString, s)
  end.

(** Nothing, or one line feed. *)
Definition is_line_end (s : string) : bool :=
  match s with
  | EmptyString => true
  | String c EmptyString => Str.eqb_char c Str.nl
  | _ => false
  end.

(** A hyphen, digits, and the end of the text: the identifier read at the
    head of [s]. *)
Definition id_here (s : string) : option string :=
  match s with
  | String c s' =>
      if Str.eqb_char "-" c then
        let '(d, tail) := span_digits s' in
        if (negb (Str.is_empty d) && is_line_end tail)%bool then Some d else None
      else None
  | EmptyString => None
  end.

Fixpoint find_id (s : string) : option string :=
  match id_here s with
  | Some d => Some d
  | None =>
      match s with
      | EmptyString => None
      | String _ s' => find_id s'
      end
  end.

Definition next_is_digit (s : string) : bool :=
  match s with String c _ => Str.is_digit c | EmptyString => false end.

(** The digits an address ends in. *)
Definition trailing_digits (url : string) : string :=
  Str.rev (fst (span_digits (Str.rev url))).

(* ================================================================== *)
(** * The grammar of durations *)
(* ================================================================== *)

(** [re.match(r, s)] finds a match. *)
Definition re_match (r : Re.regex) (s : string) : bool :=
  match Re.match_here false r None 0 s with Some _ => true | None => false end.

(** [^\d+h \d+m$], [^\d+m$] and [^\d+m \d+s$] *)
Definition claimed_patterns : list Re.regex :=
  [ (Re.plus Re.digit +++ Re.Lit "h " +++ Re.plus Re.digit +++ Re.Lit "m"
     +++ Re.EndS)%re;
    (Re.plus Re.digit +++ Re.Lit "m" +++ Re.EndS)%re;
    (Re.plus Re.digit +++ Re.Lit "m " +++ Re.plus Re.digit +++ Re.Lit "s"
     +++ Re.EndS)%re ].

Definition duration_grammar (s : string) : bool :=
  existsb (fun r => re_match r s) claimed_patterns.

(** [^\d+h \d+m \d+s$] *)
Definition hms_pattern : Re.regex :=
  (Re.plus Re.digit +++ Re.Lit "h " +++ Re.plus Re.digit +++ Re.Lit "m "
   +++ Re.plus Re.digit +++ Re.Lit "s" +++ Re.EndS)%re.

Definition engine_duration_grammar (s : string) : bool :=
  (duration_grammar s || re_match hms_pattern s)%bool.

(* ================================================================== *)
(** * Records and the keys of their fields *)
(* ================================================================== *)

(** The keys of a dict all belong to [keys]. *)
Definition keys_in (keys : list string) (d : dict) : Prop :=
  Forall (fun kv => In (fst kv) keys) d.

(** A dict whose keys belong to [keys], each of them once. *)
Definition tidy (keys : list string) (d : dict) : Prop :=
  keys_in keys d /\ NoDup (map fst d).

(** A function on dicts that leaves every key outside [keys] as it was. *)
Definition preserves (keys : list string) (f : dict -> dict) : Prop :=
  forall k d, ~ In k keys -> Py.lookup k (f d) = Py.lookup k d.

(** The keys of the partial records of Layers B and C. *)
Definition layer_keys : list string :=
  ["title"; "description"; "release_date"; "duration"; "languages"; "genre"].

(** The keys lines 385-429 may write. *)
Definition merge_keys : list string :=
  ["landscape_poster"; "portrait_poster"; "type"; "episode_count"] ++ layer_keys.

(** The content fields of a record. *)
Definition content_fields : list string :=
  ["stage_id"; "type"; "title"; "description"; "release_date"; "duration";
   "genre"; "languages"; "episode_count"; "landscape_poster"; "portrait_poster"].

(** A step of [extract_embedded_data]: it leaves the dict as it is, or
    stores under [key] a value of which [P] holds. *)
Definition writes (key : string) (P : pyval -> Prop) (f : dict -> dict) : Prop :=
  forall d, f d = d \/ exists v, P v /\ f d = Py.set key v d.

Definition is_str (v : pyval) : Prop := exists s, v = VStr s.

Definition any_value (v : pyval) : Prop := True.

Definition number (s : string) : Prop :=
  Str.all_digits s = true /\ Str.is_empty s = false.

(** A text that ends in "m", as every duration written from a number of
    seconds does. *)
Definition ends_in_m (v : pyval) : Prop :=
  exists t, v = VStr t /\ Str.endswith "m" t = true.

(** The duration of a dict, when it has one, is such a text. *)
Definition minutes_duration (d : dict) : Prop :=
  forall v, Py.lookup "duration" d = Some v -> ends_in_m v.

Section Stages.

Variable L : Libraries.

(** The steps after the classification, as [extract_embedded_data] chains
    them. *)
Definition after_classify (html_content : string) (soup : Soup) (result : dict)
  : dict :=
  Embedded.set_poster "verticalThumbnail" "vertical" html_content
    (Embedded.set_poster "horizontalThumbnail" "horizontal" html_content
       (set_episode_count L html_content
          (Embedded.scan_genre Embedded.genre_patterns html_content
             (Embedded.scan_language Embedded.lang_patterns html_content
                (Embedded.scan_year Embedded.year_patterns html_content
                   (Embedded.set_duration html_content
                      (Embedded.set_description soup
                         (Embedded.set_title soup result)))))))).

(** What is known of the record once lines 344-378 have run on a page that
    parses. *)
Definition after_layer_a (url html_content : string) (soup : Soup)
    (result : dict) : Prop :=
  Py.get "stage_id" result = Py.of_option_str (extract_stage_id url)
  /\ Py.get "title" result
     = Py.of_option_str (Embedded.find_title soup Embedded.title_selectors)
  /\ (Py.get "type" result = VStr "Movie" \/ Py.get "type" result = VStr "Series")
  /\ Py.get "episode_count" result = VNone
  /\ Py.get "success" result = VBool false
  /\ Py.get "url" result = VStr url
  /\ Py.mem "error" result = false
  /\ ((Py.lookup "type" (Embedded.classify html_content []) = Some (VStr "movie")
       /\ Py.get "type" result = VStr "Movie")
      \/ (Py.lookup "type" (Embedded.classify html_content []) = Some (VStr "series")
          /\ Py.get "type" result = VStr "Series")).

(** The record of a run that reached line 436, before the last two steps. *)
Definition merged_record (soup : Soup) (result : dict) : dict :=
  if negb (Py.truthy (Py.get "title" result))
  then merge_layers L soup result
  else result.

End Stages.

(* ================================================================== *)
(** * The texts a pattern can take *)
(* ================================================================== *)

(** [w] is the literal [p], up to case when [ic] is set. *)
Fixpoint lit_agree (ic : bool) (p w : string) : Prop :=
  match p, w with
  | EmptyString, EmptyString => True
  | String a p', String c w' => Re.lit_eq ic a c = true /\ lit_agree ic p' w'
  | _, _ => False
  end.

(** Every character of [w] belongs to the class. *)
Fixpoint all_in (ic : bool) (cs : Re.cset) (w : string) : bool :=
  match w with
  | EmptyString => true
  | String c w' => (Re.cset_mem ic cs c && all_in ic cs w')%bool
  end.

Definition at_most (hi : option nat) (n : nat) : Prop :=
  match hi with Some h => n <= h | None => True end.

(** The texts of the language of a pattern; the two assertions take no
    text. *)
Fixpoint takes (ic : bool) (r : Re.regex) (w : string) : Prop :=
  match r with
  | Re.Lit p => lit_agree ic p w
  | Re.Cls cs lo hi _ =>
      all_in ic cs w = true /\ lo <= String.length w /\ at_most hi (String.length w)
  | Re.Cat r1 r2 => exists w1 w2, w = w1 ++ w2 /\ takes ic r1 w1 /\ takes ic r2 w2
  | Re.Alt r1 r2 => takes ic r1 w \/ takes ic r2 w
  | Re.Grp _ r1 => takes ic r1 w
  | Re.WordB => w = EmptyString
  | Re.EndS => w = EmptyString
  end.

(** The matcher went from [st] to [st'] over the text [w]. *)
Definition advances (w : string) (st st' : Re.mstate) : Prop :=
  Re.m_rest st = w ++ Re.m_rest st'
  /\ Re.m_pos st' = Re.m_pos st + String.length w.

(** The keys of a record, in the order [get_stage_identity] writes them. *)
Definition record_keys : list string :=
  ["stage_id"; "type"; "title"; "description"; "release_date"; "duration";
   "genre"; "languages"; "episode_count"; "landscape_poster"; "portrait_poster";
   "url"; "success"].

(** The file extensions the poster patterns end in. *)
Definition image_extensions : list string := ["webp"; "jpg"; "jpeg"].

(** The group [n] is bound somewhere in the pattern. *)
Fixpoint binds (n : nat) (r : Re.regex) : bool :=
  match r with
  | Re.Grp m r1 => (Nat.eqb n m || binds n r1)%bool
  | Re.Cat r1 r2 => (binds n r1 || binds n r2)%bool
  | Re.Alt r1 r2 => (binds n r1 || binds n r2)%bool
  | _ => false
  end.

(** The pattern inside the group [n], when every match binds that group
    and binds it last there: the group stands on the path of
    concatenations, not under an alternative. *)
Fixpoint group_pattern (n : nat) (r : Re.regex) : option Re.regex :=
  match r with
  | Re.Grp m r1 => if Nat.eqb n m then Some r1 else group_pattern n r1
  | Re.Cat r1 r2 =>
      match group_pattern n r2 with
      | Some g => Some g
      | None => if binds n r2 then None else group_pattern n r1
      end
  | _ => None
  end.

(** The groups a pattern does not bind are left as they were. *)
Definition frame (r : Re.regex) (st st' : Re.mstate) : Prop :=
  forall n, binds n r = false ->
            Re.assoc_nat n (Re.m_groups st') = Re.assoc_nat n (Re.m_groups st).

(** Each group a pattern always binds holds a text of its own pattern. *)
Definition groups_bound (ic : bool) (r : Re.regex) (st' : Re.mstate) : Prop :=
  forall n g, group_pattern n r = Some g ->
    exists p w, Re.assoc_nat n (Re.m_groups st') = Some (p, w) /\ takes ic g w.

(** The shape of the address a poster pattern of Layer A takes. *)
Definition poster_address (dir : string) (v : pyval) : Prop :=
  exists body ext,
    v = VStr ("https://media.stage.in/episode/" ++ dir ++ "/" ++ body ++ "." ++ ext)
    /\ all_in false (Re.none_of [Str.dq]) body = true
    /\ In ext image_extensions.

(** A dict that is a content object for [find_movie_data]. *)
Definition is_content (d : dict) : Prop :=
  Py.in_strs (Py.get "type" d) content_types = true.

(** [d] is [data] itself, a value of [data], or an item of a list that is a
    value of [data]. *)
Definition one_level_down (data : pyval) (d : dict) : Prop :=
  data = VDict d
  \/ exists top k,
       data = VDict top
       /\ (In (k, VDict d) top
           \/ exists items, In (k, VList items) top /\ In (VDict d) items).

(** The content object [extract_from_next_data] reads: a dict whose type
    is "movie" or "show". *)
Definition is_content_data (v : pyval) : Prop :=
  exists d,
    v = VDict d
    /\ (Py.get "type" d = VStr "movie" \/ Py.get "type" d = VStr "show").

(** The values [extract_embedded_data] accepts for its fields. *)
Definition acceptable_title (v : pyval) : Prop :=
  exists title, v = VStr title /\ title <> "" /\ title <> "STAGE".

Definition long_description (v : pyval) : Prop :=
  exists desc, v = VStr desc /\ 50 < String.length desc.

Definition year_in_range (v : pyval) : Prop :=
  exists year, v = VInt year /\ (1900 <= year <= 2030)%Z.

Definition lowered_word (v : pyval) : Prop :=
  exists lang,
    v = VStr (Str.lower lang)
    /\ 2 < String.length lang
    /\ all_in false Re.alpha lang = true.

(* ================================================================== *)
(** * Dictionaries: reading after writing *)
(* ================================================================== *)

Module PyFacts.

Lemma lookup_set_same (k : string) (v : pyval) (d : dict) :
  Py.lookup k (Py.set k v d) = Some v.
Proof.
  induction d as [|[k' v'] d IH]; simpl.
  - now rewrite String.eqb_refl.
  - destruct (String.eqb k k') eqn:E; simpl; rewrite ?String.eqb_refl, ?E; auto.
Qed.

Lemma lookup_set_other (k k' : string) (v : pyval) (d : dict) :
  k <> k' -> Py.lookup k (Py.set k' v d) = Py.lookup k d.
Proof.
  intros Hne. induction d as [|[k0 v0] d IH]; simpl.
  - destruct (String.eqb k k') eqn:E; auto.
    apply String.eqb_eq in E. contradiction.
  - destruct (String.eqb k' k0) eqn:E; simpl.
    + apply String.eqb_eq in E. subst k0.
      destruct (String.eqb k k') eqn:E'; auto.
      apply String.eqb_eq in E'. contradiction.
    + destruct (String.eqb k k0); auto.
Qed.

Lemma get_set_same (k : string) (v : pyval) (d : dict) :
  Py.get k (Py.set k v d) = v.
Proof. unfold Py.get, Py.get_default. now rewrite lookup_set_same. Qed.

Lemma get_set_other (k k' : string) (v : pyval) (d : dict) :
  k <> k' -> Py.get k (Py.set k' v d) = Py.get k d.
Proof.
  intros. unfold Py.get, Py.get_default. now rewrite lookup_set_other.
Qed.

Lemma mem_set_other (k k' : string) (v : pyval) (d : dict) :
  k <> k' -> Py.mem k (Py.set k' v d) = Py.mem k d.
Proof. intros. unfold Py.mem. now rewrite lookup_set_other. Qed.

Lemma keys_in_nil (keys : list string) : keys_in keys [].
Proof. constructor. Qed.

Lemma keys_in_set (keys : list string) (k : string) (v : pyval) (d : dict) :
  In k keys -> keys_in keys d -> keys_in keys (Py.set k v d).
Proof.
  intros Hk Hd. induction Hd as [|[k' v'] d Hkv Hd IH]; simpl.
  - repeat constructor. exact Hk.
  - destruct (String.eqb k k'); constructor; auto.
Qed.

Lemma keys_in_lookup (keys : list string) (k : string) (d : dict) :
  keys_in keys d -> ~ In k keys -> Py.lookup k d = None.
Proof.
  intros Hd Hk. induction Hd as [|[k' v'] d Hkv Hd IH]; simpl; auto.
  destruct (String.eqb k k') eqn:E; auto.
  apply String.eqb_eq in E. subst. contradiction.
Qed.

Lemma in_keys_set (x k : string) (v : pyval) (d : dict) :
  In x (map fst (Py.set k v d)) -> x = k \/ In x (map fst d).
Proof.
  induction d as [|[k' v'] d IH]; simpl.
  - intros [<- | []]. now left.
  - destruct (String.eqb k k') eqn:E; simpl.
    + apply String.eqb_eq in E. subst k'. tauto.
    + intros [<- | H]; [tauto|]. destruct (IH H); tauto.
Qed.

Lemma nodup_set (k : string) (v : pyval) (d : dict) :
  NoDup (map fst d) -> NoDup (map fst (Py.set k v d)).
Proof.
  induction d as [|[k' v'] d IH]; simpl; intros H.
  - repeat constructor. intros [].
  - inversion H as [|? ? Hnotin Hd]. subst.
    destruct (String.eqb k k') eqn:E; simpl.
    + apply String.eqb_eq in E. subst k'. now constructor.
    + constructor; auto. intros Hin.
      destruct (in_keys_set _ _ _ _ Hin) as [-> | Hin']; [|contradiction].
      now rewrite String.eqb_refl in E.
Qed.

Lemma tidy_nil (keys : list string) : tidy keys [].
Proof. split; constructor. Qed.

Lemma tidy_set (keys : list string) (k : string) (v : pyval) (d : dict) :
  In k keys -> tidy keys d -> tidy keys (Py.set k v d).
Proof.
  intros Hk [H1 H2]. split; [now apply keys_in_set | now apply nodup_set].
Qed.

Lemma lookup_not_in (k : string) (d : dict) :
  ~ In k (map fst d) -> Py.lookup k d = None.
Proof.
  induction d as [|[k' v'] d IH]; simpl; auto.
  intros H. destruct (String.eqb k k') eqn:E.
  - apply String.eqb_eq in E. subst. tauto.
  - apply IH. tauto.
Qed.

Lemma preserves_set (keys : list string) (k : string) (v : pyval) :
  In k keys -> preserves keys (Py.set k v).
Proof.
  intros Hk k' d Hk'. apply lookup_set_other. intros ->. contradiction.
Qed.

Lemma preserves_id (keys : list string) : preserves keys (fun d => d).
Proof. intros k d _. reflexivity. Qed.

Lemma preserves_compose (keys : list string) (f g : dict -> dict) :
  preserves keys f -> preserves keys g -> preserves keys (fun d => g (f d)).
Proof. intros Hf Hg k d Hk. now rewrite Hg, Hf. Qed.

Lemma preserves_get (keys : list string) (f : dict -> dict) (k : string) (d : dict) :
  preserves keys f -> ~ In k keys -> Py.get k (f d) = Py.get k d.
Proof. intros Hf Hk. unfold Py.get, Py.get_default. now rewrite Hf. Qed.

Lemma preserves_mem (keys : list string) (f : dict -> dict) (k : string) (d : dict) :
  preserves keys f -> ~ In k keys -> Py.mem k (f d) = Py.mem k d.
Proof. intros Hf Hk. unfold Py.mem. now rewrite Hf. Qed.

End PyFacts.

(* ================================================================== *)
(** * The keys each layer writes *)
(* ================================================================== *)

Section Keys.

Variable L : Libraries.

Import PyFacts.

Ltac in_keys := simpl; tauto.

Ltac keys_step :=
  match goal with
  | |- tidy _ (Py.set _ _ _) => apply tidy_set; [in_keys|]
  | |- tidy _ [] => apply tidy_nil
  | |- tidy _ (unless_set _ _ _) =>
      unfold unless_set;
      match goal with |- context [if ?b then _ else _] => destruct b end
  | |- tidy _ (extracted_of (Running _)) => simpl extracted_of
  | |- tidy _ (extracted_of (Stopped _)) => simpl extracted_of
  | H : tidy _ ?d |- tidy _ ?d => exact H
  end.

Lemma store_field_keys (field_name : string) (m : Re.rematch) (extracted : dict) :
  tidy layer_keys extracted ->
  tidy layer_keys (extracted_of (store_field L field_name m extracted)).
Proof.
  intros H. unfold store_field.
  repeat match goal with
         | |- context [if ?b then _ else _] => destruct b
         | |- context [match py_int ?l ?s with _ => _ end] => destruct (py_int l s)
         end; repeat keys_step.
Qed.

Lemma and_then_keys (p : progress) (f : dict -> progress) :
  tidy layer_keys (extracted_of p) ->
  (forall d, tidy layer_keys d -> tidy layer_keys (extracted_of (f d))) ->
  tidy layer_keys (extracted_of (and_then p f)).
Proof. destruct p; simpl; auto. Qed.

Lemma scan_movie_patterns_keys (patterns : list (string * Re.regex))
    (json_text : string) (extracted : dict) :
  tidy layer_keys extracted ->
  tidy layer_keys
    (extracted_of (scan_movie_patterns L patterns json_text extracted)).
Proof.
  revert extracted. induction patterns as [|[text pattern] rest IH]; intros extracted H.
  - exact H.
  - simpl. destruct (Re.search false pattern json_text) as [m|].
    + apply and_then_keys; [now apply store_field_keys | exact IH].
    + now apply IH.
Qed.

Lemma unless_set_keys (key : string) (value : pyval) (extracted : dict) :
  In key layer_keys -> tidy layer_keys extracted ->
  tidy layer_keys (unless_set key value extracted).
Proof.
  intros Hk H. unfold unless_set.
  destruct (negb (Py.truthy (Py.get key extracted))); auto using tidy_set.
Qed.

Lemma fill_from_content_keys (content_data extracted : dict) :
  tidy layer_keys extracted ->
  tidy layer_keys (extracted_of (fill_from_content L content_data extracted)).
Proof.
  intros H. unfold fill_from_content. cbv zeta.
  set (e1 := unless_set "title" _ extracted).
  assert (H1 : tidy layer_keys e1) by (apply unless_set_keys; [in_keys|exact H]).
  clearbody e1.
  set (e2 := unless_set "description" _ e1).
  assert (H2 : tidy layer_keys e2) by (apply unless_set_keys; [in_keys|exact H1]).
  clearbody e2.
  set (e3 := unless_set "release_date" _ e2).
  assert (H3 : tidy layer_keys e3) by (apply unless_set_keys; [in_keys|exact H2]).
  clearbody e3.
  apply and_then_keys.
  - destruct (negb (Py.truthy (Py.get "duration" e3))); [|exact H3].
    destruct (Py.truthy (Py.get "duration" content_data)); [|exact H3].
    destruct (duration_text L (Py.get "duration" content_data)); simpl;
      auto using tidy_set.
    apply tidy_set; [in_keys|exact H3].
  - intros d Hd. apply and_then_keys.
    + destruct (negb (Py.truthy (Py.get "languages" d))); [|exact Hd].
      destruct (Py.obj_title _); simpl; [apply tidy_set; [in_keys|]|]; exact Hd.
    + intros d' Hd'. simpl. apply unless_set_keys; [in_keys|exact Hd'].
Qed.

(** Layer B writes the six keys of [layer_keys] and no other. *)
Lemma extract_from_next_data_keys (next_json : pyval) :
  tidy layer_keys (extract_from_next_data L next_json).
Proof.
  unfold extract_from_next_data.
  destruct (data_sources next_json) as [sources|msg]; [|apply tidy_nil].
  apply and_then_keys.
  - destruct (negb (Py.truthy (scan_sources sources VNone))).
    + apply scan_movie_patterns_keys, tidy_nil.
    + apply tidy_nil.
  - intros d Hd. destruct (scan_sources sources VNone); try exact Hd.
    destruct (Py.truthy (VDict d0)); [now apply fill_from_content_keys | exact Hd].
Qed.

(** Layer C writes the six keys of [layer_keys] and no other. *)
Lemma extract_from_ld_json_keys (ld_data : pyval) :
  tidy layer_keys (extract_from_ld_json L ld_data).
Proof.
  unfold extract_from_ld_json.
  match goal with
  | |- context [match ?v with VDict ld => _ | _ => _ end] => destruct v
  end; try apply tidy_nil.
  match goal with
  | |- context [match ?e with Ok _ => _ | Raise _ => _ end] => destruct e
  end; repeat keys_step.
Qed.

Lemma merge_next_preserves (keys : list string) (next_extracted : dict) :
  keys_in keys next_extracted -> preserves keys (merge_next next_extracted).
Proof.
  intros H. induction H as [|[k v] d Hk Hd IH]; intros k' r Hk'.
  - reflexivity.
  - unfold merge_next in *. simpl. rewrite IH by assumption.
    destruct (Py.truthy v); auto.
    apply lookup_set_other. intros ->. contradiction.
Qed.

Lemma merge_ld_preserves (keys : list string) (ld_extracted : dict) :
  keys_in keys ld_extracted -> preserves keys (merge_ld ld_extracted).
Proof.
  intros H. induction H as [|[k v] d Hk Hd IH]; intros k' r Hk'.
  - reflexivity.
  - unfold merge_ld in *. simpl. rewrite IH by assumption.
    match goal with |- context [if ?b then _ else _] => destruct b end; auto.
    apply lookup_set_other. intros ->. contradiction.
Qed.

End Keys.

(* ================================================================== *)
(** * What Layer A returns *)
(* ================================================================== *)

Section LayerA.

Variable L : Libraries.

Import PyFacts.

Lemma writes_other (key : string) (P : pyval -> Prop) (f : dict -> dict)
    (k : string) (d : dict) :
  writes key P f -> k <> key -> Py.lookup k (f d) = Py.lookup k d.
Proof.
  intros Hw Hk. destruct (Hw d) as [->|[v [_ ->]]]; auto.
  now apply lookup_set_other.
Qed.

Lemma writes_same (key : string) (P : pyval -> Prop) (f : dict -> dict) (d : dict) :
  writes key P f ->
  Py.lookup key (f d) = Py.lookup key d
  \/ exists v, P v /\ Py.lookup key (f d) = Some v.
Proof.
  intros Hw. destruct (Hw d) as [->|[v [Hv ->]]]; auto.
  right. exists v. split; auto. apply lookup_set_same.
Qed.

Ltac wrote := right; eexists; split; [|reflexivity]; unfold is_str, any_value; eauto.

Lemma set_title_writes (soup : Soup) : writes "title" is_str (Embedded.set_title soup).
Proof.
  intros d. unfold Embedded.set_title.
  destruct (Embedded.find_title soup Embedded.title_selectors); [wrote | now left].
Qed.

Lemma set_description_writes (soup : Soup) :
  writes "description" is_str (Embedded.set_description soup).
Proof.
  intros d. unfold Embedded.set_description.
  destruct (Embedded.find_description soup Embedded.desc_selectors); [wrote | now left].
Qed.

Lemma normalize_writes (duration : string) :
  writes "duration" is_str (Embedded.normalize duration).
Proof.
  intros d. unfold Embedded.normalize.
  destruct (Str.contains ":" duration); [|wrote].
  destruct (Str.split ":" duration) as [|p0 [|p1 [|p2 [|p3 rest]]]];
    try (now left); wrote.
Qed.

Lemma scan_duration_writes (patterns : list Re.regex) (html_content : string) :
  writes "duration" is_str (Embedded.scan_duration patterns html_content).
Proof.
  induction patterns as [|pattern rest IH]; intros d; simpl.
  - now left.
  - destruct (Re.search true pattern html_content) as [m|]; [|apply IH].
    destruct (negb (Embedded.unrealistic (Re.group 1 m))); [|apply IH].
    apply normalize_writes.
Qed.

Lemma set_duration_writes (html_content : string) :
  writes "duration" is_str (Embedded.set_duration html_content).
Proof.
  intros d. unfold Embedded.set_duration.
  match goal with |- context [if ?b then _ else _] => destruct b end;
    [wrote | apply scan_duration_writes].
Qed.

Lemma scan_year_writes (patterns : list Re.regex) (html_content : string) :
  writes "yearOfRelease" any_value (Embedded.scan_year patterns html_content).
Proof.
  induction patterns as [|pattern rest IH]; intros d; simpl.
  - now left.
  - destruct (Re.search false pattern html_content) as [m|]; [|apply IH].
    match goal with |- context [if ?b then _ else _] => destruct b end;
      [wrote | apply IH].
Qed.

Lemma scan_language_writes (patterns : list Re.regex) (html_content : string) :
  writes "dialect" is_str (Embedded.scan_language patterns html_content).
Proof.
  induction patterns as [|pattern rest IH]; intros d; simpl.
  - now left.
  - destruct (Re.search false pattern html_content) as [m|]; [|apply IH].
    match goal with |- context [if ?b then _ else _] => destruct b end;
      [wrote | apply IH].
Qed.

Lemma scan_genre_writes (patterns : list (Re.regex * nat)) (html_content : string) :
  writes "genre" any_value (Embedded.scan_genre patterns html_content).
Proof.
  induction patterns as [|[pattern n] rest IH]; intros d; simpl.
  - now left.
  - destruct (Re.search false pattern html_content) as [m|]; [|apply IH].
    destruct (Nat.eqb n 2); wrote.
Qed.

Lemma set_episode_count_writes (html_content : string) :
  writes "episode_count" any_value (set_episode_count L html_content).
Proof.
  intros d. unfold set_episode_count.
  destruct (Py.eq_str (Py.get "type" d) "series"); [|now left].
  destruct (scan_episodes L Embedded.episode_patterns html_content);
    [wrote | now left].
Qed.

Lemma set_poster_writes (key dir html_content : string) :
  writes key any_value (Embedded.set_poster key dir html_content).
Proof.
  intros d. unfold Embedded.set_poster.
  destruct (Re.search false (Embedded.poster_pattern dir) html_content);
    [wrote | now left].
Qed.

(** The type is the first thing stored, and it is "movie" or "series". *)
Lemma classify_cases (html_content : string) :
  let d := Embedded.classify html_content [] in
  d = [("type", VStr "series")]
  \/ d = [("type", VStr "series"); ("episode_count", VInt 12)]
  \/ d = [("type", VStr "movie")].
Proof.
  unfold Embedded.classify.
  repeat match goal with |- context [if ?b then _ else _] => destruct b end;
    simpl; auto.
Qed.

Lemma find_title_acceptable (soup : Soup) (selectors : list string) (title : string) :
  Embedded.find_title soup selectors = Some title ->
  Str.is_empty title = false /\ title <> "STAGE".
Proof.
  induction selectors as [|selector rest IH]; simpl; [discriminate|].
  destruct (select_one soup selector) as [element|]; auto.
  destruct (negb (Str.is_empty (Embedded.title_of_element element))
            && negb (String.eqb (Embedded.title_of_element element) "STAGE"))%bool
    eqn:E; auto.
  intros [= <-]. apply andb_true_iff in E. destruct E as [E1 E2].
  apply negb_true_iff in E1, E2. split; auto.
  now apply String.eqb_neq.
Qed.

Lemma extract_embedded_data_steps (html_content : string) (soup : Soup) :
  BeautifulSoup L html_content = Ok soup ->
  extract_embedded_data L html_content
  = after_classify L html_content soup (Embedded.classify html_content []).
Proof. intros H. unfold extract_embedded_data. now rewrite H. Qed.

Ltac skip_step lemma :=
  rewrite (writes_other _ lemma) by discriminate.

Lemma after_classify_type (html_content : string) (soup : Soup) (result : dict) :
  Py.lookup "type" (after_classify L html_content soup result)
  = Py.lookup "type" result.
Proof.
  unfold after_classify.
  skip_step (set_poster_writes "verticalThumbnail" "vertical" html_content).
  skip_step (set_poster_writes "horizontalThumbnail" "horizontal" html_content).
  skip_step (set_episode_count_writes html_content).
  skip_step (scan_genre_writes Embedded.genre_patterns html_content).
  skip_step (scan_language_writes Embedded.lang_patterns html_content).
  skip_step (scan_year_writes Embedded.year_patterns html_content).
  skip_step (set_duration_writes html_content).
  skip_step (set_description_writes soup).
  skip_step (set_title_writes soup).
  reflexivity.
Qed.

Lemma after_classify_title (html_content : string) (soup : Soup) (result : dict) :
  Py.lookup "title" (after_classify L html_content soup result)
  = Py.lookup "title" (Embedded.set_title soup result).
Proof.
  unfold after_classify.
  skip_step (set_poster_writes "verticalThumbnail" "vertical" html_content).
  skip_step (set_poster_writes "horizontalThumbnail" "horizontal" html_content).
  skip_step (set_episode_count_writes html_content).
  skip_step (scan_genre_writes Embedded.genre_patterns html_content).
  skip_step (scan_language_writes Embedded.lang_patterns html_content).
  skip_step (scan_year_writes Embedded.year_patterns html_content).
  skip_step (set_duration_writes html_content).
  skip_step (set_description_writes soup).
  reflexivity.
Qed.

Lemma after_classify_description (html_content : string) (soup : Soup)
    (result : dict) :
  Py.lookup "description" result = None ->
  Py.lookup "description" (after_classify L html_content soup result) = None
  \/ exists s, Py.lookup "description" (after_classify L html_content soup result)
               = Some (VStr s).
Proof.
  intros H. unfold after_classify.
  skip_step (set_poster_writes "verticalThumbnail" "vertical" html_content).
  skip_step (set_poster_writes "horizontalThumbnail" "horizontal" html_content).
  skip_step (set_episode_count_writes html_content).
  skip_step (scan_genre_writes Embedded.genre_patterns html_content).
  skip_step (scan_language_writes Embedded.lang_patterns html_content).
  skip_step (scan_year_writes Embedded.year_patterns html_content).
  skip_step (set_duration_writes html_content).
  destruct (writes_same (Embedded.set_title soup result) (set_description_writes soup))
    as [E|[v [[s ->] E]]]; rewrite E; eauto.
  skip_step (set_title_writes soup). auto.
Qed.

Lemma after_classify_dialect (html_content : string) (soup : Soup) (result : dict) :
  Py.lookup "dialect" result = None ->
  Py.lookup "dialect" (after_classify L html_content soup result) = None
  \/ exists s, Py.lookup "dialect" (after_classify L html_content soup result)
               = Some (VStr s).
Proof.
  intros H. unfold after_classify.
  skip_step (set_poster_writes "verticalThumbnail" "vertical" html_content).
  skip_step (set_poster_writes "horizontalThumbnail" "horizontal" html_content).
  skip_step (set_episode_count_writes html_content).
  skip_step (scan_genre_writes Embedded.genre_patterns html_content).
  match goal with
  | |- context [Embedded.scan_language ?p ?h ?d] =>
      destruct (writes_same d (scan_language_writes p h)) as [E|[v [[s ->] E]]];
        rewrite E; eauto
  end.
  skip_step (scan_year_writes Embedded.year_patterns html_content).
  skip_step (set_duration_writes html_content).
  skip_step (set_description_writes soup).
  skip_step (set_title_writes soup). auto.
Qed.

(** The type Layer A stores. *)
Lemma extract_embedded_data_type (html_content : string) (soup : Soup) :
  BeautifulSoup L html_content = Ok soup ->
  Py.lookup "type" (extract_embedded_data L html_content)
  = Py.lookup "type" (Embedded.classify html_content [])
  /\ (Py.lookup "type" (Embedded.classify html_content []) = Some (VStr "movie")
      \/ Py.lookup "type" (Embedded.classify html_content []) = Some (VStr "series")).
Proof.
  intros H. rewrite (extract_embedded_data_steps _ H), after_classify_type.
  split; auto.
  destruct (classify_cases html_content) as [E|[E|E]]; rewrite E; simpl; auto.
Qed.

(** The title Layer A stores: the first acceptable one in selector order. *)
Lemma extract_embedded_data_title (html_content : string) (soup : Soup) :
  BeautifulSoup L html_content = Ok soup ->
  Py.get "title" (extract_embedded_data L html_content)
  = Py.of_option_str (Embedded.find_title soup Embedded.title_selectors).
Proof.
  intros H. unfold Py.get, Py.get_default.
  rewrite (extract_embedded_data_steps _ H), after_classify_title.
  unfold Embedded.set_title.
  destruct (Embedded.find_title soup Embedded.title_selectors) as [title|].
  - now rewrite lookup_set_same.
  - destruct (classify_cases html_content) as [E|[E|E]]; rewrite E; reflexivity.
Qed.

Lemma classify_no_key (html_content k : string) :
  k <> "type" -> k <> "episode_count" ->
  Py.lookup k (Embedded.classify html_content []) = None.
Proof.
  intros H1 H2.
  destruct (classify_cases html_content) as [E|[E|E]]; rewrite E; simpl;
    repeat match goal with
           | |- context [String.eqb ?a ?b] =>
               destruct (String.eqb_spec a b); try contradiction
           end; reflexivity.
Qed.

(** The record after lines 344-378, for a page that parses. *)
Lemma layer_a_ok (html_content : string) (soup : Soup)
    (stage_id : option string) (url : string) :
  BeautifulSoup L html_content = Ok soup ->
  let d := extract_embedded_data L html_content in
  exists ty desc lang dur,
    layer_a L html_content (initial_result stage_id url)
    = Ok [ ("stage_id", Py.of_option_str stage_id);
           ("type", VStr ty);
           ("title", Py.get "title" d);
           ("description", VStr desc);
           ("release_date",
            VStr (py_str L (Py.get_default "yearOfRelease" (VStr "") d)));
           ("duration", dur);
           ("genre", VNone);
           ("languages", VStr lang);
           ("episode_count", VNone);
           ("landscape_poster", Py.get "horizontalThumbnail" d);
           ("portrait_poster", Py.get "verticalThumbnail" d);
           ("url", VStr url);
           ("success", VBool false) ]
    /\ ((Py.get "type" d = VStr "movie" /\ ty = "Movie")
        \/ (Py.get "type" d = VStr "series" /\ ty = "Series"))
    /\ (dur = VNone \/ Py.get "duration" d = dur
        \/ exists n, dur = VStr (seconds_text n)).
Proof.
  intros H d.
  destruct (extract_embedded_data_type _ H) as [Ht Hc].
  fold d in Ht.
  assert (Hty : exists raw, Py.lookup "type" d = Some (VStr raw)
                            /\ (raw = "movie" \/ raw = "series")).
  { rewrite Ht. destruct Hc as [-> | ->]; eauto. }
  destruct Hty as [raw [Hraw Hr]].
  assert (Hdesc : Py.lookup "description" d = None
                  \/ exists s, Py.lookup "description" d = Some (VStr s)).
  { unfold d. rewrite (extract_embedded_data_steps _ H).
    apply after_classify_description, classify_no_key; discriminate. }
  assert (Hlang : Py.lookup "dialect" d = None
                  \/ exists s, Py.lookup "dialect" d = Some (VStr s)).
  { unfold d. rewrite (extract_embedded_data_steps _ H).
    apply after_classify_dialect, classify_no_key; discriminate. }
  assert (Hne : Py.truthy (VDict d) = true).
  { destruct d; [discriminate Hraw | reflexivity]. }
  assert (Hfind : find_movie_data (VDict d) = d).
  { unfold find_movie_data, Py.get, Py.get_default. rewrite Hraw.
    destruct Hr as [-> | ->]; reflexivity. }
  unfold layer_a. fold d. rewrite Hne, Hfind, Hne.
  unfold apply_movie_data, Py.mem, Py.get, Py.get_default. rewrite Hraw.
  assert (Ed : exists desc,
             Py.obj_unescape_newlines
               match Py.lookup "description" d with
               | Some v => v
               | None => VStr ""
               end = Ok (VStr desc)).
  { destruct Hdesc as [-> | [s ->]]; simpl; eauto. }
  destruct Ed as [desc ->].
  assert (El : exists lang,
             Py.obj_title
               match Py.lookup "dialect" d with
               | Some v => v
               | None => VStr ""
               end = Ok (VStr lang)).
  { destruct Hlang as [-> | [s ->]]; simpl; eauto. }
  destruct El as [lang ->].
  unfold set_embedded_duration, Py.get, Py.get_default.
  exists (Str.title raw), desc, lang.
  destruct (Py.lookup "duration" d) as [v|] eqn:Ev.
  - destruct (Py.truthy v) eqn:Etv.
    + destruct v; simpl;
        (eexists; split; [reflexivity|]; split;
         [destruct Hr as [-> | ->]; auto | eauto]).
    + exists VNone. simpl. split; [reflexivity|]. split; auto.
      destruct Hr as [-> | ->]; auto.
  - exists VNone. simpl. split; [reflexivity|]. split; auto.
    destruct Hr as [-> | ->]; auto.
Qed.

(** When the page does not parse, Layer A leaves the record as it was. *)
Lemma layer_a_unparsed (html_content : string) (msg : string) (result : dict) :
  BeautifulSoup L html_content = Raise msg ->
  layer_a L html_content result = Ok result.
Proof.
  intros H. unfold layer_a, extract_embedded_data. now rewrite H.
Qed.

End LayerA.

(* ================================================================== *)
(** * The merge of the layers and the last steps *)
(* ================================================================== *)

Section Merge.

Variable L : Libraries.

Import PyFacts.

Lemma next_layer_spec (soup : Soup) (result : dict) :
  exists next_data next_extracted result',
    next_layer L soup result = (next_data, next_extracted, result')
    /\ keys_in layer_keys next_extracted
    /\ (forall k, k <> "landscape_poster" -> k <> "portrait_poster" ->
                  Py.lookup k result' = Py.lookup k result).
Proof.
  unfold next_layer.
  destruct (find_script_by_id soup "__NEXT_DATA__") as [next_script|].
  - destruct (script_json L next_script) as [next_data|msg].
    + do 3 eexists. split; [reflexivity|]. split.
      * apply extract_from_next_data_keys.
      * intros k H1 H2. now rewrite !lookup_set_other.
    + do 3 eexists. split; [reflexivity|]. split; [apply keys_in_nil | auto].
  - do 3 eexists. split; [reflexivity|]. split; [apply keys_in_nil | auto].
Qed.

Lemma ld_layer_spec (soup : Soup) :
  exists ld_data ld_extracted,
    ld_layer L soup = (ld_data, ld_extracted)
    /\ keys_in layer_keys ld_extracted.
Proof.
  unfold ld_layer.
  destruct (find_script_by_type soup "application/ld+json") as [ld_script|].
  - destruct (script_json L ld_script) as [ld_data|msg].
    + do 2 eexists. split; [reflexivity | apply extract_from_ld_json_keys].
    + do 2 eexists. split; [reflexivity | apply keys_in_nil].
  - do 2 eexists. split; [reflexivity | apply keys_in_nil].
Qed.

Lemma eq_str_true (v : pyval) (s : string) :
  Py.eq_str v s = true -> v = VStr s.
Proof.
  destruct v; simpl; try discriminate. intros H.
  apply String.eqb_eq in H. now subst.
Qed.

(** Lines 385-429 leave every key outside [merge_keys] as it was. *)
Lemma merge_layers_preserves (soup : Soup) :
  preserves merge_keys (merge_layers L soup).
Proof.
  intros k result Hk. unfold merge_layers.
  destruct (next_layer_spec soup result) as (nd & ne & r' & -> & Hne & Hr').
  destruct (ld_layer_spec soup) as (ld & le & -> & Hle).
  assert (Hk' : ~ In k layer_keys).
  { intros H. apply Hk. unfold merge_keys. apply in_or_app. now right. }
  assert (H1 : k <> "landscape_poster") by (intros ->; apply Hk; simpl; tauto).
  assert (H2 : k <> "portrait_poster") by (intros ->; apply Hk; simpl; tauto).
  assert (H3 : k <> "type") by (intros ->; apply Hk; simpl; tauto).
  assert (H4 : k <> "episode_count") by (intros ->; apply Hk; simpl; tauto).
  repeat match goal with
         | |- context [if ?b then _ else _] => destruct b
         end;
    rewrite ?lookup_set_other by assumption;
    rewrite (merge_ld_preserves Hle) by assumption;
    rewrite (merge_next_preserves Hne) by assumption;
    now apply Hr'.
Qed.

(** A type that Layer A stored is the type of the merged record. *)
Lemma merge_layers_type (soup : Soup) (result : dict) :
  Py.truthy (Py.get "type" result) = true ->
  Py.get "type" (merge_layers L soup result) = Py.get "type" result.
Proof.
  intros Ht. unfold merge_layers.
  destruct (next_layer_spec soup result) as (nd & ne & r' & -> & Hne & Hr').
  destruct (ld_layer_spec soup) as (ld & le & -> & Hle).
  assert (Hm : Py.get "type" (merge_ld le (merge_next ne r')) = Py.get "type" result).
  { unfold Py.get, Py.get_default.
    rewrite (merge_ld_preserves Hle), (merge_next_preserves Hne), Hr';
      try discriminate; auto; simpl; intuition discriminate. }
  rewrite Hm, Ht. simpl.
  destruct (Py.eq_str (Py.get "type" (merge_ld le (merge_next ne r'))) "Series");
    [rewrite get_set_other by discriminate|]; exact Hm.
Qed.

(** The merged record has a type. *)
Lemma merge_layers_typed (soup : Soup) (result : dict) :
  Py.truthy (Py.get "type" (merge_layers L soup result)) = true.
Proof.
  unfold merge_layers.
  destruct (next_layer L soup result) as [[nd ne] r'].
  destruct (ld_layer L soup) as [ld le].
  set (merged := merge_ld le (merge_next ne r')).
  assert (Ht : Py.truthy
                 (Py.get "type"
                    (if negb (Py.truthy (Py.get "type" merged))
                     then Py.set "type" (VStr (detect_content_type L nd ld)) merged
                     else merged)) = true).
  { destruct (Py.truthy (Py.get "type" merged)) eqn:E; simpl; auto.
    rewrite get_set_same. unfold detect_content_type.
    repeat match goal with |- context [if ?b then _ else _] => destruct b end;
      reflexivity. }
  match goal with
  | |- context [if Py.eq_str ?v "Series" then _ else _] =>
      destruct (Py.eq_str v "Series")
  end; [rewrite get_set_other by discriminate|]; exact Ht.
Qed.

(** An episode count is written only into a record of type "Series". *)
Lemma merge_layers_episode (soup : Soup) (result : dict) :
  Py.get "episode_count" result = VNone ->
  Py.get "episode_count" (merge_layers L soup result) <> VNone ->
  Py.get "type" (merge_layers L soup result) = VStr "Series".
Proof.
  intros He. unfold merge_layers.
  destruct (next_layer_spec soup result) as (nd & ne & r' & -> & Hne & Hr').
  destruct (ld_layer_spec soup) as (ld & le & -> & Hle).
  set (merged := merge_ld le (merge_next ne r')).
  assert (Hm : forall typed,
             (typed = merged \/ exists v, typed = Py.set "type" v merged) ->
             Py.get "episode_count" typed = VNone).
  { intros typed [-> | [v ->]]; [|rewrite get_set_other by discriminate];
      unfold merged, Py.get, Py.get_default;
      rewrite (merge_ld_preserves Hle), (merge_next_preserves Hne), Hr';
      try discriminate; try exact He; simpl; intuition discriminate. }
  match goal with
  | |- context [if Py.eq_str (Py.get "type" ?typed) "Series" then _ else _] =>
      assert (Ht : Py.get "episode_count" typed = VNone)
        by (apply Hm; destruct (negb (Py.truthy (Py.get "type" merged))); eauto);
      destruct (Py.eq_str (Py.get "type" typed) "Series") eqn:E
  end.
  - intros _. rewrite get_set_other by discriminate. now apply eq_str_true.
  - intros H. now elim H.
Qed.

Lemma default_type_typed (result : dict) :
  Py.mem "type" result = true -> default_type result = result.
Proof. intros H. unfold default_type. now rewrite H. Qed.

Lemma clean_duration_preserves : preserves ["duration"] (clean_duration L).
Proof.
  intros k result Hk. unfold clean_duration.
  destruct (Py.get "duration" result); auto.
  match goal with |- context [if ?b then _ else _] => destruct b end; auto.
  apply lookup_set_other. intros ->. apply Hk. simpl. auto.
Qed.

Lemma mark_success_preserves : preserves ["success"] mark_success.
Proof.
  intros k result Hk. unfold mark_success.
  match goal with |- context [if ?b then _ else _] => destruct b end; auto.
  apply lookup_set_other. intros ->. apply Hk. simpl. auto.
Qed.

(** The last two steps leave every key but "duration" and "success" as it
    was. *)
Lemma finish_get (k : string) (result : dict) :
  k <> "duration" -> k <> "success" ->
  Py.get k (mark_success (clean_duration L result)) = Py.get k result.
Proof.
  intros H1 H2.
  rewrite (@preserves_get _ _ _ _ mark_success_preserves)
    by (simpl; intuition congruence).
  apply (@preserves_get _ _ _ _ clean_duration_preserves). simpl. intuition congruence.
Qed.

Lemma finish_mem (k : string) (result : dict) :
  k <> "duration" -> k <> "success" ->
  Py.mem k (mark_success (clean_duration L result)) = Py.mem k result.
Proof.
  intros H1 H2.
  rewrite (@preserves_mem _ _ _ _ mark_success_preserves)
    by (simpl; intuition congruence).
  apply (@preserves_mem _ _ _ _ clean_duration_preserves). simpl. intuition congruence.
Qed.

(** The success flag is the truth of "title or stage_id". *)
Lemma finish_success (result : dict) :
  Py.get "success" result = VBool false ->
  Py.get "success" (mark_success (clean_duration L result))
  = VBool (Py.truthy (Py.get "title" result)
           || Py.truthy (Py.get "stage_id" result)).
Proof.
  intros Hs. unfold mark_success.
  rewrite !(@preserves_get _ _ _ _ clean_duration_preserves)
    by (simpl; intuition discriminate).
  destruct (Py.truthy (Py.get "title" result)
            || Py.truthy (Py.get "stage_id" result))%bool.
  - apply get_set_same.
  - now rewrite (@preserves_get _ _ _ _ clean_duration_preserves)
      by (simpl; intuition discriminate).
Qed.

End Merge.

(* ================================================================== *)
(** * The runs of [get_stage_identity] *)
(* ================================================================== *)

Section Runs.

Variable L : Libraries.

Import PyFacts.

(** The three ways a call can go: the fetch fails, the page does not parse,
    or the body runs to its end. *)
Lemma get_stage_identity_body_cases (url : string) :
  (exists e, http_get L url = Raise e
             /\ get_stage_identity_body L url = Raise e)
  \/ (exists html e, http_get L url = Ok html
                     /\ BeautifulSoup L html = Raise e
                     /\ get_stage_identity_body L url = Raise e)
  \/ (exists html soup result,
         http_get L url = Ok html
         /\ BeautifulSoup L html = Ok soup
         /\ layer_a L html (initial_result (extract_stage_id url) url) = Ok result
         /\ after_layer_a url html soup result
         /\ get_stage_identity_body L url
            = Ok (mark_success (clean_duration L (merged_record L soup result)))).
Proof.
  unfold get_stage_identity_body.
  destruct (http_get L url) as [html|e] eqn:Hget; [|left; eauto].
  right. cbn [bind].
  destruct (BeautifulSoup L html) as [soup|e] eqn:Hsoup.
  - right. exists html, soup.
    destruct (@layer_a_ok L html soup (extract_stage_id url) url Hsoup)
      as (ty & desc & lang & dur & Ha & Hty & _).
    rewrite (@extract_embedded_data_title L html soup Hsoup) in Ha.
    match type of Ha with _ = Ok ?r => set (result := r) in * end.
    exists result. split; [reflexivity|]. split; [exact Hsoup|].
    split; [exact Ha|].
    assert (Hshape : after_layer_a url html soup result).
    { destruct (extract_embedded_data_type L _ Hsoup) as [Ht _].
      unfold after_layer_a, Py.get, Py.get_default in *. rewrite Ht in Hty.
      repeat split; try reflexivity.
      - destruct Hty as [[_ ->] | [_ ->]]; [left | right]; reflexivity.
      - destruct Hty as [[Hc ->] | [Hc ->]]; [left | right];
          (split; [|reflexivity]);
          destruct (Py.lookup "type" (Embedded.classify html [])); congruence. }
    split; [exact Hshape|].
    rewrite Ha. cbn [bind]. unfold merged_record.
    destruct (negb (Py.truthy (Py.get "title" result))) eqn:Et.
    + unfold fallback. rewrite Hsoup. reflexivity.
    + rewrite default_type_typed; reflexivity.
  - left. exists html, e. split; [reflexivity|]. split; [exact Hsoup|].
    rewrite (@layer_a_unparsed L html e _ Hsoup). cbn [bind].
    unfold fallback. rewrite Hsoup. reflexivity.
Qed.

(** The record before the last two steps keeps what Layer A left in the
    keys no later layer writes, and it has a type. *)
Lemma merged_record_facts (url html_content : string) (soup : Soup)
    (result : dict) :
  after_layer_a url html_content soup result ->
  let merged := merged_record L soup result in
  Py.get "stage_id" merged = Py.of_option_str (extract_stage_id url)
  /\ Py.get "success" merged = VBool false
  /\ Py.get "url" merged = VStr url
  /\ Py.mem "error" merged = false
  /\ Py.truthy (Py.get "type" merged) = true
  /\ (Py.get "episode_count" merged <> VNone ->
      Py.get "type" merged = VStr "Series").
Proof.
  intros (Hid & Htitle & Hty & Hep & Hs & Hu & He & _). unfold merged_record.
  destruct (negb (Py.truthy (Py.get "title" result))).
  - pose proof (@merge_layers_preserves L soup) as Hp.
    rewrite !(@preserves_get _ _ _ _ Hp), (@preserves_mem _ _ _ _ Hp)
      by (unfold merge_keys, layer_keys; simpl; intuition discriminate).
    repeat split; auto.
    + apply merge_layers_typed.
    + now apply merge_layers_episode.
  - repeat split; auto.
    + destruct Hty as [-> | ->]; reflexivity.
    + intros H. now elim H.
Qed.

End Runs.

(* ================================================================== *)
(** * What every record satisfies *)
(* ================================================================== *)

Section Records.

Variable L : Libraries.

Import PyFacts.

Lemma find_movie_data_embedded (html_content : string) (soup : Soup) :
  BeautifulSoup L html_content = Ok soup ->
  let d := extract_embedded_data L html_content in
  (Py.get "type" d = VStr "movie" \/ Py.get "type" d = VStr "series")
  /\ find_movie_data (VDict d) = d
  /\ d <> [].
Proof.
  intros H d.
  destruct (extract_embedded_data_type L _ H) as [Ht Hc]. fold d in Ht.
  rewrite <- Ht in Hc.
  assert (Hty : Py.get "type" d = VStr "movie" \/ Py.get "type" d = VStr "series").
  { unfold Py.get, Py.get_default. destruct Hc as [-> | ->]; auto. }
  split; [exact Hty|]. split.
  - unfold find_movie_data. destruct Hty as [-> | ->]; reflexivity.
  - intros E. rewrite E in Hc. destruct Hc; discriminate.
Qed.

(** C3 (amended): in every record [get_stage_identity] returns, an
    episode count that is set (not [None]) comes with the type "Series".
    The converse does not hold: a record of type "Series" has no episode
    count when none was found. *)
Theorem episode_count_only_for_series (url : string) :
  Py.get "episode_count" (get_stage_identity L url) <> VNone ->
  Py.get "type" (get_stage_identity L url) = VStr "Series".
Proof.
  unfold get_stage_identity.
  destruct (get_stage_identity_body_cases L url)
    as [(e & _ & ->) | [(html & e & _ & _ & ->)
                       | (html & soup & result & _ & _ & _ & Hs & ->)]].
  - intros H. now elim H.
  - intros H. now elim H.
  - rewrite !finish_get by discriminate.
    apply (merged_record_facts L Hs).
Qed.

(** C7: [get_stage_identity] returns a record on every input.  When the
    fetch raises, and whenever anything raises inside the body, the record
    is the failure record: success false, the error text, every content
    field [None], the url of the call.  The key "error" is in the record
    exactly in that case; a record without it has a type.  The url of
    the call is in every record. *)
Theorem failure_is_a_record (url : string) :
  let r := get_stage_identity L url in
  (forall e, http_get L url = Raise e -> r = failure_record url e)
  /\ (forall e, get_stage_identity_body L url = Raise e ->
                r = failure_record url e)
  /\ (forall e, r = failure_record url e ->
                Py.get "success" r = VBool false
                /\ Py.get "error" r = VStr e
                /\ Forall (fun k => Py.get k r = VNone) content_fields)
  /\ (Py.mem "error" r = true <->
      exists e, get_stage_identity_body L url = Raise e)
  /\ (Py.mem "error" r = false -> Py.truthy (Py.get "type" r) = true)
  /\ Py.get "url" r = VStr url.
Proof.
  cbv zeta. unfold get_stage_identity.
  split; [|split; [|split; [|split; [|split]]]].
  - intros e He. unfold get_stage_identity_body. now rewrite He.
  - intros e ->. reflexivity.
  - intros e ->. repeat split. repeat constructor.
  - destruct (get_stage_identity_body_cases L url)
      as [(e & _ & ->) | [(html & e & _ & _ & ->)
                         | (html & soup & result & _ & _ & _ & Hs & ->)]].
    + split; eauto.
    + split; eauto.
    + rewrite finish_mem by discriminate.
      destruct (merged_record_facts L Hs) as (_ & _ & _ & -> & _).
      split; [discriminate | intros [e He]; discriminate He].
  - destruct (get_stage_identity_body_cases L url)
      as [(e & _ & ->) | [(html & e & _ & _ & ->)
                         | (html & soup & result & _ & _ & _ & Hs & ->)]];
      try discriminate.
    intros _. rewrite finish_get by discriminate.
    apply (merged_record_facts L Hs).
  - destruct (get_stage_identity_body_cases L url)
      as [(e & _ & ->) | [(html & e & _ & _ & ->)
                         | (html & soup & result & _ & _ & _ & Hs & ->)]];
      try reflexivity.
    rewrite finish_get by discriminate.
    apply (merged_record_facts L Hs).
Qed.

(** C8: in every record [get_stage_identity] returns, the success flag is
    a boolean, and it is true if and only if the title or the stage_id of
    the record is non-empty (true as Python tests it). *)
Theorem success_iff_title_or_stage_id (url : string) :
  let r := get_stage_identity L url in
  Py.get "success" r
  = VBool (Py.truthy (Py.get "title" r) || Py.truthy (Py.get "stage_id" r))
  /\ (Py.get "success" r = VBool true <->
      Py.truthy (Py.get "title" r) = true
      \/ Py.truthy (Py.get "stage_id" r) = true).
Proof.
  cbv zeta.
  assert (E : Py.get "success" (get_stage_identity L url)
              = VBool (Py.truthy (Py.get "title" (get_stage_identity L url))
                       || Py.truthy (Py.get "stage_id" (get_stage_identity L url)))).
  { unfold get_stage_identity.
    destruct (get_stage_identity_body_cases L url)
      as [(e & _ & ->) | [(html & e & _ & _ & ->)
                         | (html & soup & result & _ & _ & _ & Hs & ->)]];
      try reflexivity.
    rewrite (@finish_get L "title"), (@finish_get L "stage_id") by discriminate.
    apply finish_success. apply (merged_record_facts L Hs). }
  split; [exact E|]. rewrite E. split.
  - intros [= H]. now apply orb_true_iff.
  - intros H. apply orb_true_iff in H. now rewrite H.
Qed.

(** C10: on a page that [BeautifulSoup] parses, so that
    [extract_embedded_data] does not reach its handler, the dict it returns
    has a "type" that is "movie" or "series", [find_movie_data] returns
    that very dict, and it is not empty.  When the dict holds a title,
    [get_stage_identity] is the record of Layer A with the last two steps
    applied: Layers B and C are not run.  When it holds none, they are. *)
Theorem embedded_type_always_set (html_content : string) (soup : Soup) :
  BeautifulSoup L html_content = Ok soup ->
  let d := extract_embedded_data L html_content in
  (Py.get "type" d = VStr "movie" \/ Py.get "type" d = VStr "series")
  /\ find_movie_data (VDict d) = d
  /\ d <> []
  /\ forall url, http_get L url = Ok html_content ->
       exists result,
         layer_a L html_content (initial_result (extract_stage_id url) url)
         = Ok result
         /\ Py.get "title" result = Py.get "title" d
         /\ (Py.truthy (Py.get "title" d) = true ->
             get_stage_identity L url
             = mark_success (clean_duration L result))
         /\ (Py.truthy (Py.get "title" d) = false ->
             get_stage_identity L url
             = mark_success (clean_duration L (merge_layers L soup result))).
Proof.
  intros H d.
  destruct (find_movie_data_embedded _ H) as (Hty & Hfind & Hne).
  repeat split; auto.
  intros url Hget. unfold get_stage_identity.
  destruct (get_stage_identity_body_cases L url)
    as [(e & He & _) | [(html & e & He & Hs & _)
                       | (html & soup' & result & He & Hs' & Ha & Hs & ->)]];
    try congruence.
  assert (html = html_content) by congruence. subst html.
  assert (soup' = soup) by congruence. subst soup'.
  exists result. split; [exact Ha|].
  assert (Et : Py.get "title" result = Py.get "title" d).
  { destruct Hs as (_ & -> & _). unfold d.
    now rewrite (@extract_embedded_data_title L html_content soup H). }
  split; [exact Et|].
  unfold merged_record. rewrite Et.
  split; intros ->; reflexivity.
Qed.

End Records.

(* ================================================================== *)
(** * [extract_stage_id] *)
(* ================================================================== *)

Section StageId.

Lemma digit_mem (c : ascii) : Re.cset_mem false Re.digit c = Str.is_digit c.
Proof. unfold Re.cset_mem. simpl. now rewrite !orb_false_r. Qed.

Lemma span_digits_take (s : string) :
  Str.take (String.length (fst (span_digits s))) s = fst (span_digits s).
Proof.
  induction s as [|c s IH]; simpl; auto.
  destruct (Str.is_digit c); simpl; auto.
  destruct (span_digits s) as [d tail]. simpl in *. now rewrite IH.
Qed.

(** A greedy run of digits in front of a continuation that refuses every
    position followed by a digit: the run is taken whole. *)
Lemma greedy_digits (k : Re.kont) (s : string) :
  (forall st, next_is_digit (Re.m_rest st) = true -> k st = None) ->
  forall lo prev pos gs,
    exists prev',
    Re.cls_rep false Re.digit true lo None k prev pos s gs
    = if Nat.leb lo (String.length (fst (span_digits s)))
      then k {| Re.m_prev := prev';
                Re.m_pos := pos + String.length (fst (span_digits s));
                Re.m_rest := snd (span_digits s);
                Re.m_groups := gs |}
      else None.
Proof.
  intros Hk. induction s as [|c s IH]; intros lo prev pos gs.
  - exists prev. simpl. rewrite Nat.add_0_r. destruct lo; reflexivity.
  - simpl Re.cls_rep. rewrite digit_mem. simpl span_digits.
    destruct (Str.is_digit c) eqn:Ec.
    + cbn [Re.hi_open andb Re.hi_pred].
      destruct (IH (pred lo) (Some c) (S pos) gs) as [prev' ->].
      exists prev'.
      destruct (span_digits s) as [d tail]. cbn [fst snd String.length].
      replace (pos + S (String.length d)) with (S pos + String.length d) by lia.
      destruct lo as [|lo]; cbn [pred Nat.leb].
      * match goal with |- context [k ?st] => destruct (k st) end;
          [reflexivity | apply Hk; exact Ec].
      * destruct (Nat.leb lo (String.length d)); auto.
        match goal with |- context [k ?st] => destruct (k st) end; auto.
    + exists prev. cbn [Re.hi_open andb fst snd String.length].
      rewrite Nat.add_0_r. destruct lo; reflexivity.
Qed.

Lemma is_line_end_at_end (prev : option ascii) (pos : nat) (rest : string)
    (gs : list (nat * (nat * string))) :
  Re.at_end {| Re.m_prev := prev; Re.m_pos := pos; Re.m_rest := rest;
               Re.m_groups := gs |} = is_line_end rest.
Proof. reflexivity. Qed.

Lemma next_digit_not_end (s : string) :
  next_is_digit s = true -> is_line_end s = false.
Proof.
  destruct s as [|c [|c' s]]; simpl; try discriminate; auto.
  intros H. destruct (Str.eqb_char c Str.nl) eqn:E; auto.
  apply Ascii.eqb_eq in E. subst c. discriminate H.
Qed.

(** What the pattern of the identifier matches at one position. *)
Lemma stage_id_match_here (prev : option ascii) (pos : nat) (rest : string) :
  option_map (Re.group 1) (Re.match_here false stage_id_pattern prev pos rest)
  = id_here rest.
Proof.
  unfold Re.match_here, stage_id_pattern. cbn [Re.rmatch Re.m_prev Re.m_pos Re.m_rest Re.m_groups].
  destruct rest as [|c rest]; [reflexivity|].
  cbn [Re.lit_match id_here]. unfold Re.lit_eq.
  destruct (Str.eqb_char "-" c) eqn:Ec; [|reflexivity].
  cbn [Re.lit_match Re.plus Re.rmatch Re.m_prev Re.m_pos Re.m_rest Re.m_groups].
  match goal with
  | |- context [Re.cls_rep false Re.digit true 1 None ?k ?p ?n ?s ?g] =>
      destruct (@greedy_digits k s) with (lo := 1) (prev := p) (pos := n) (gs := g)
        as [prev' ->]
  end.
  - intros st Hst. unfold Re.bind_group.
    cbn [Re.m_prev Re.m_pos Re.m_rest Re.m_groups].
    rewrite is_line_end_at_end, (@next_digit_not_end _ Hst). reflexivity.
  - pose proof (span_digits_take rest) as Htake.
    destruct (span_digits rest) as [d tail]. cbn [fst snd] in *.
    unfold Re.bind_group. cbn [Re.m_prev Re.m_pos Re.m_rest Re.m_groups].
    rewrite is_line_end_at_end.
    replace (S pos + String.length d - S pos) with (String.length d) by lia.
    rewrite Htake.
    destruct d as [|c' d]; cbn [String.length Nat.leb Str.is_empty negb andb];
      [reflexivity|].
    destruct (is_line_end tail); [|reflexivity].
    unfold Re.group. simpl. reflexivity.
Qed.

Lemma search_from_find_id (prev : option ascii) (pos : nat) (rest : string) :
  option_map (Re.group 1) (Re.search_from false stage_id_pattern prev pos rest)
  = find_id rest.
Proof.
  revert prev pos. induction rest as [|c rest IH]; intros prev pos.
  - cbn [Re.search_from find_id]. rewrite <- (stage_id_match_here prev pos "").
    destruct (Re.match_here false stage_id_pattern prev pos ""); reflexivity.
  - cbn [Re.search_from find_id].
    rewrite <- (stage_id_match_here prev pos (String c rest)).
    destruct (Re.match_here false stage_id_pattern prev pos (String c rest));
      [reflexivity|].
    cbn [option_map]. apply IH.
Qed.

Lemma extract_stage_id_find_id (url : string) :
  extract_stage_id url = find_id url.
Proof.
  unfold extract_stage_id, Re.search.
  rewrite <- (search_from_find_id None 0 url).
  destruct (Re.search_from false stage_id_pattern None 0 url); reflexivity.
Qed.

Lemma append_nil_r (s : string) : s ++ "" = s.
Proof. induction s; simpl; congruence. Qed.

Lemma append_assoc (a b c : string) : (a ++ b) ++ c = a ++ b ++ c.
Proof. induction a; simpl; congruence. Qed.

Lemma span_digits_spec (s : string) :
  s = fst (span_digits s) ++ snd (span_digits s)
  /\ Str.all_digits (fst (span_digits s)) = true
  /\ next_is_digit (snd (span_digits s)) = false.
Proof.
  induction s as [|c s (IH1 & IH2 & IH3)]; simpl; auto.
  destruct (Str.is_digit c) eqn:Ec.
  - destruct (span_digits s) as [d tail]. simpl in *.
    rewrite Ec, IH2. repeat split; auto. congruence.
  - simpl. rewrite Ec. auto.
Qed.

Lemma span_digits_app (d tail : string) :
  Str.all_digits d = true -> next_is_digit tail = false ->
  span_digits (d ++ tail) = (d, tail).
Proof.
  intros Hd Ht. induction d as [|c d IH]; simpl in *.
  - destruct tail as [|c tail]; simpl in *; auto. now rewrite Ht.
  - apply andb_true_iff in Hd. destruct Hd as [Hc Hd].
    rewrite Hc, IH; auto.
Qed.

Lemma length_app (a b : string) :
  String.length (a ++ b) = String.length a + String.length b.
Proof. induction a; simpl; congruence. Qed.

Lemma span_digits_tail_length (x y : string) :
  next_is_digit y = false ->
  String.length y <= String.length (snd (span_digits (x ++ y))).
Proof.
  intros Hy. induction x as [|c x IH]; simpl.
  - destruct y as [|c y]; simpl in *; auto. rewrite Hy. simpl. lia.
  - destruct (Str.is_digit c).
    + destruct (span_digits (x ++ y)); simpl in *. exact IH.
    + simpl. rewrite length_app. lia.
Qed.

Lemma is_line_end_cases (s : string) :
  is_line_end s = true <-> s = "" \/ s = Str.NL.
Proof.
  destruct s as [|c [|c' s]]; simpl.
  - tauto.
  - split.
    + intros H. apply Ascii.eqb_eq in H. subst. now right.
    + intros [H|H]; [discriminate|]. unfold Str.NL in H. injection H as ->.
      reflexivity.
  - split; [discriminate|]. intros [H|H]; discriminate.
Qed.

Lemma id_here_sound (s d : string) :
  id_here s = Some d ->
  Str.is_empty d = false /\ Str.all_digits d = true
  /\ (s = "-" ++ d \/ s = "-" ++ d ++ Str.NL).
Proof.
  destruct s as [|c s]; cbn [id_here]; [discriminate|].
  destruct (Str.eqb_char "-" c) eqn:Ec; [|discriminate].
  unfold Str.eqb_char in Ec. apply Ascii.eqb_eq in Ec. subst c.
  destruct (span_digits_spec s) as (Hs & Hd & _).
  destruct (span_digits s) as [d' tail]. cbn [fst snd] in *.
  destruct (negb (Str.is_empty d') && is_line_end tail)%bool eqn:E; [|discriminate].
  intros [= <-]. apply andb_true_iff in E. destruct E as [E1 E2].
  apply negb_true_iff in E1. apply is_line_end_cases in E2.
  repeat split; auto.
  destruct E2 as [-> | ->]; [left | right]; rewrite Hs at 1;
    rewrite ?append_nil_r; reflexivity.
Qed.

Lemma id_here_complete (d tail : string) :
  Str.is_empty d = false -> Str.all_digits d = true -> is_line_end tail = true ->
  id_here ("-" ++ d ++ tail) = Some d.
Proof.
  intros Hne Hd Ht. simpl.
  rewrite span_digits_app; auto.
  - now rewrite Hne, Ht.
  - destruct (next_is_digit tail) eqn:E; auto.
    apply next_digit_not_end in E. congruence.
Qed.

Lemma find_id_sound (s d : string) :
  find_id s = Some d ->
  Str.is_empty d = false /\ Str.all_digits d = true
  /\ exists p, s = p ++ "-" ++ d \/ s = p ++ "-" ++ d ++ Str.NL.
Proof.
  induction s as [|c s IH].
  - cbn. discriminate.
  - cbn [find_id]. destruct (id_here (String c s)) as [d'|] eqn:E.
    + intros [= <-]. destruct (@id_here_sound _ _ E) as (H1 & H2 & H3).
      repeat split; auto. exists "". exact H3.
    + intros H. destruct (IH H) as (H1 & H2 & p & H3).
      repeat split; auto. exists (String c p).
      destruct H3 as [-> | ->]; [left | right]; reflexivity.
Qed.

Lemma find_id_complete (p d tail : string) :
  Str.is_empty d = false -> Str.all_digits d = true -> is_line_end tail = true ->
  find_id (p ++ "-" ++ d ++ tail) = Some d.
Proof.
  intros Hne Hd Ht. induction p as [|c p IH].
  - pose proof (@id_here_complete d tail Hne Hd Ht) as E.
    cbn [append] in *. cbn [find_id]. now rewrite E.
  - cbn [append find_id] in *.
    destruct (id_here (String c (p ++ String "-" (d ++ tail)))) as [d'|] eqn:E;
      [exfalso | exact IH].
    cbn [id_here] in E.
    destruct (Str.eqb_char "-" c); [|discriminate].
    pose proof (@span_digits_tail_length p (String "-" (d ++ tail)) eq_refl) as Hlen.
    destruct (span_digits (p ++ String "-" (d ++ tail))) as [d0 tail0].
    cbn [snd] in Hlen.
    destruct (negb (Str.is_empty d0) && is_line_end tail0)%bool eqn:E'; [|discriminate].
    apply andb_true_iff in E'. destruct E' as [_ E'].
    apply is_line_end_cases in E'.
    destruct d as [|c' d]; [discriminate|].
    cbn [append String.length] in Hlen.
    destruct E' as [-> | ->]; simpl in Hlen; lia.
Qed.

(** An address that ends in a hyphen and digits has those digits as its
    identifier. *)
Lemma extract_stage_id_hyphen (p d : string) :
  Str.is_empty d = false -> Str.all_digits d = true ->
  extract_stage_id (p ++ "-" ++ d) = Some d.
Proof.
  intros Hne Hd. rewrite extract_stage_id_find_id.
  rewrite <- (append_nil_r d) at 1. now apply find_id_complete.
Qed.

(** C4 (amended): [extract_stage_id] returns the digits [d] exactly when
    [d] is a non-empty run of digits that ends the address (a final line
    feed apart) and a hyphen stands right before it.  In every other case,
    an address that ends in digits without a hyphen before them included,
    it returns [None]. *)
Theorem extract_stage_id_needs_hyphen (url d : string) :
  extract_stage_id url = Some d <->
  Str.is_empty d = false /\ Str.all_digits d = true
  /\ exists p, url = p ++ "-" ++ d \/ url = p ++ "-" ++ d ++ Str.NL.
Proof.
  rewrite extract_stage_id_find_id. split.
  - apply find_id_sound.
  - intros (Hne & Hd & p & [-> | ->]).
    + rewrite <- (append_nil_r d) at 1. now apply find_id_complete.
    + now apply find_id_complete.
Qed.

(** C4, as stated, fails: this address ends in the digits 14145, no hyphen
    stands before them, and no identifier is returned. *)
Lemma extract_stage_id_without_hyphen :
  trailing_digits "https://www.stage.in/en/haryanvi/movie/14145" = "14145"
  /\ extract_stage_id "https://www.stage.in/en/haryanvi/movie/14145" = None.
Proof. split; vm_compute; reflexivity. Qed.

End StageId.

(* ================================================================== *)
(** * Durations and scenarios *)
(* ================================================================== *)

Section Scenarios.

Variable L : Libraries.

Import PyFacts.

(** C6: for a non-empty string that [isodate] parses, [convert_duration]
    returns "<hours>h <minutes>m" when hours > 0 and "<minutes>m"
    otherwise, with hours the quotient and minutes the remainder of the
    total minutes by 60; for a non-empty string that [isodate] refuses, it
    returns the string itself.  It returns a value in both cases: no
    exception leaves it. *)
Theorem convert_duration_spec (s : string) :
  s <> "" ->
  (forall td, parse_duration L s = Ok td ->
     let hours := (whole_minutes L td / 60)%Z in
     let minutes := (whole_minutes L td mod 60)%Z in
     convert_duration L (VStr s)
     = VStr (if (0 <? hours)%Z
             then Str.of_Z hours ++ "h " ++ Str.of_Z minutes ++ "m"
             else Str.of_Z minutes ++ "m")
     /\ whole_minutes L td = (60 * hours + minutes)%Z
     /\ (0 <= minutes < 60)%Z)
  /\ (forall msg, parse_duration L s = Raise msg ->
        convert_duration L (VStr s) = VStr s).
Proof.
  intros Hs.
  assert (Ht : Py.truthy (VStr s) = true) by (destruct s; [contradiction | reflexivity]).
  unfold convert_duration. rewrite Ht. cbn [negb]. split.
  - intros td ->. cbv zeta. split; [reflexivity|]. split.
    + apply Z.div_mod. discriminate.
    + apply Z.mod_pos_bound. reflexivity.
  - intros msg ->. reflexivity.
Qed.

(** C9 (amended): a page whose <title> is the bare site name "STAGE",
    whose Open-Graph title is "Kayantar", with no heading and no
    movie-title element, fetched from an address that ends in
    /movie/kayantar-14145: the record has stage_id "14145" and title
    "Kayantar".  Its type is read in the text of the page, not in the
    address: it is "Movie" when that text, in lower case, holds no series
    route and no known series, and either holds the movie route or does not
    hold two occurrences of the series words with at most one of the movie
    words. *)
Theorem kayantar_scenario (site html : string) (soup : Soup)
    (title_tag og_tag : Tag) :
  let url := site ++ "/movie/kayantar-14145" in
  http_get L url = Ok html ->
  BeautifulSoup L html = Ok soup ->
  select_one soup "h1" = None ->
  select_one soup "title" = Some title_tag ->
  get_text_strip title_tag = "STAGE" ->
  select_one soup "[data-testid='movie-title']" = None ->
  select_one soup ".movie-title" = None ->
  select_one soup "meta[property='og:title']" = Some og_tag ->
  get_text_strip og_tag = "" ->
  attr_content og_tag = Some "Kayantar" ->
  let r := get_stage_identity L url in
  Py.get "stage_id" r = VStr "14145"
  /\ Py.get "title" r = VStr "Kayantar"
  /\ (existsb (fun indicator => Str.contains indicator (Str.lower html))
              Embedded.url_path_indicators = false ->
      Embedded.is_known_series (Str.lower html) = false ->
      Str.contains "/movie/" (Str.lower html) = true
      \/ (Nat.leb 2 (Embedded.series_count (Str.lower html))
          && Nat.leb (Embedded.movie_count (Str.lower html)) 1)%bool = false ->
      Py.get "type" r = VStr "Movie").
Proof.
  intros url Hget Hsoup Hh1 Htitle Htext Htestid Hclass Hog Hogtext Hogcontent r.
  assert (Hid : extract_stage_id url = Some "14145").
  { unfold url.
    change "/movie/kayantar-14145" with ("/movie/kayantar" ++ "-" ++ "14145").
    rewrite <- append_assoc. now apply extract_stage_id_hyphen. }
  assert (Hfind : Embedded.find_title soup Embedded.title_selectors
                  = Some "Kayantar").
  { unfold Embedded.title_selectors. cbn [Embedded.find_title].
    rewrite Hh1, Htitle, Htestid, Hclass, Hog.
    unfold Embedded.title_of_element, Embedded.attr_content_or_empty.
    rewrite Htext, Hogtext, Hogcontent. reflexivity. }
  unfold r, get_stage_identity.
  destruct (get_stage_identity_body_cases L url)
    as [(e & He & _) | [(html' & e & He & Hs & _)
                       | (html' & soup' & result & He & Hs' & _ & Hs & ->)]];
    try congruence.
  assert (html' = html) by congruence. subst html'.
  assert (soup' = soup) by congruence. subst soup'.
  destruct Hs as (Hsid & Ht & _ & _ & _ & _ & _ & Hty).
  rewrite Hfind in Ht. rewrite Hid in Hsid.
  rewrite !finish_get by discriminate.
  unfold merged_record. rewrite Ht. cbn [Py.of_option_str Py.truthy negb Str.is_empty].
  split; [exact Hsid|]. split; [exact Ht|].
  intros Hroute Hknown Hmovie.
  assert (Hcl : Embedded.classify html [] = [("type", VStr "movie")]).
  { unfold Embedded.classify. rewrite Hroute, Hknown.
    destruct (Str.contains "/movie/" (Str.lower html)); [reflexivity|].
    destruct Hmovie as [Hmovie | Hmovie]; [discriminate Hmovie|].
    now rewrite Hmovie. }
  rewrite Hcl in Hty.
  destruct Hty as [[_ H] | [H _]]; [exact H | discriminate H].
Qed.

End Scenarios.

(* ================================================================== *)
(** * The shapes of a duration *)
(* ================================================================== *)

Section Grammar.

Lemma lit_match_app (sep rest : string) (k : Re.kont) :
  forall prev pos gs,
    exists prev',
      Re.lit_match false sep k prev pos (sep ++ rest) gs
      = k {| Re.m_prev := prev'; Re.m_pos := pos + String.length sep;
             Re.m_rest := rest; Re.m_groups := gs |}.
Proof.
  induction sep as [|c sep IH]; intros prev pos gs.
  - exists prev. simpl. now rewrite Nat.add_0_r.
  - cbn [append Re.lit_match]. unfold Re.lit_eq, Str.eqb_char.
    rewrite Ascii.eqb_refl.
    destruct (IH (Some c) (S pos) gs) as [prev' ->]. exists prev'.
    cbn [String.length]. now replace (pos + S (String.length sep))
      with (S pos + String.length sep) by lia.
Qed.

Lemma lit_match_digit (sep rest : string) (k : Re.kont) prev pos gs :
  next_is_digit sep = false -> sep <> "" -> next_is_digit rest = true ->
  Re.lit_match false sep k prev pos rest gs = None.
Proof.
  intros Hs Hne Hr. destruct sep as [|a sep]; [contradiction|].
  destruct rest as [|c rest]; [discriminate|].
  cbn in *. unfold Re.lit_eq, Str.eqb_char.
  destruct (Ascii.eqb a c) eqn:E; auto.
  apply Ascii.eqb_eq in E. subst. congruence.
Qed.

(** Digits, then a text that does not start with a digit: the pattern
    [\d+] followed by that text takes both. *)
Lemma digits_then_lit (d sep rest : string) (r : Re.regex) (k : Re.kont) :
  Str.all_digits d = true -> Str.is_empty d = false ->
  next_is_digit sep = false -> sep <> "" ->
  forall prev pos gs,
    exists prev',
      Re.rmatch false (Re.plus Re.digit +++ Re.Lit sep +++ r)%re k
        {| Re.m_prev := prev; Re.m_pos := pos; Re.m_rest := d ++ sep ++ rest;
           Re.m_groups := gs |}
      = Re.rmatch false r k
          {| Re.m_prev := prev';
             Re.m_pos := pos + String.length d + String.length sep;
             Re.m_rest := rest; Re.m_groups := gs |}.
Proof.
  intros Hd Hne Hs Hsne prev pos gs.
  cbn [Re.rmatch Re.plus Re.m_prev Re.m_pos Re.m_rest Re.m_groups].
  match goal with
  | |- context [Re.cls_rep false Re.digit true 1 None ?k' ?p ?n ?s ?g] =>
      destruct (@greedy_digits k' s) with (lo := 1) (prev := p) (pos := n) (gs := g)
        as [prev1 ->]
  end.
  - intros st Hst. cbn [Re.rmatch]. now apply lit_match_digit.
  - assert (Hn : next_is_digit (sep ++ rest) = false).
    { destruct sep; [contradiction | exact Hs]. }
    rewrite (span_digits_app d (sep ++ rest) Hd Hn). cbn [fst snd].
    destruct d as [|c d]; [discriminate|]. cbn [String.length Nat.leb].
    cbn [Re.rmatch Re.m_prev Re.m_pos Re.m_rest Re.m_groups].
    destruct (@lit_match_app sep rest
                (fun st' => Re.rmatch false r k st') prev1
                (pos + S (String.length d)) gs) as [prev' ->].
    exists prev'. reflexivity.
Qed.

Lemma ends_here (k : Re.kont) prev pos gs :
  Re.rmatch false Re.EndS k
    {| Re.m_prev := prev; Re.m_pos := pos; Re.m_rest := ""; Re.m_groups := gs |}
  = k {| Re.m_prev := prev; Re.m_pos := pos; Re.m_rest := ""; Re.m_groups := gs |}.
Proof. reflexivity. Qed.

Ltac take_number :=
  match goal with
  | Hd : number ?d |- context [Re.rmatch false (Re.plus Re.digit +++ Re.Lit ?sep +++ ?r)%re ?k
                       {| Re.m_prev := ?p; Re.m_pos := ?n;
                          Re.m_rest := ?d ++ ?sep ++ ?rest; Re.m_groups := ?g |}] =>
      let prev' := fresh "prev" in
      destruct (@digits_then_lit d sep rest r k (proj1 Hd) (proj2 Hd) eq_refl
                  ltac:(discriminate) p n g) as [prev' ->]
  end.

Lemma grammar_hm (a b : string) :
  number a -> number b -> duration_grammar (a ++ "h " ++ b ++ "m") = true.
Proof.
  intros Ha Hb. unfold duration_grammar, claimed_patterns. cbn [existsb].
  apply orb_true_iff. left. unfold re_match, Re.match_here.
  rewrite <- (append_nil_r (a ++ "h " ++ b ++ "m")), !append_assoc.
  take_number. take_number. reflexivity.
Qed.

Lemma grammar_m (a : string) :
  number a -> duration_grammar (a ++ "m") = true.
Proof.
  intros Ha. unfold duration_grammar, claimed_patterns. cbn [existsb].
  apply orb_true_iff. right. apply orb_true_iff. left.
  unfold re_match, Re.match_here.
  rewrite <- (append_nil_r (a ++ "m")), !append_assoc.
  take_number. reflexivity.
Qed.

Lemma grammar_ms (a b : string) :
  number a -> number b -> duration_grammar (a ++ "m " ++ b ++ "s") = true.
Proof.
  intros Ha Hb. unfold duration_grammar, claimed_patterns. cbn [existsb].
  apply orb_true_iff. right. apply orb_true_iff. right.
  apply orb_true_iff. left. unfold re_match, Re.match_here.
  rewrite <- (append_nil_r (a ++ "m " ++ b ++ "s")), !append_assoc.
  take_number. take_number. reflexivity.
Qed.

Lemma grammar_hms (a b c : string) :
  number a -> number b -> number c ->
  re_match hms_pattern (a ++ "h " ++ b ++ "m " ++ c ++ "s") = true.
Proof.
  intros Ha Hb Hc. unfold re_match, Re.match_here, hms_pattern.
  rewrite <- (append_nil_r (a ++ "h " ++ b ++ "m " ++ c ++ "s")), !append_assoc.
  take_number. take_number. take_number. reflexivity.
Qed.

Lemma uint_digits (d : uint) :
  Str.all_digits (NilEmpty.string_of_uint d) = true.
Proof. induction d; simpl; auto. Qed.

(** The decimal writing of a natural number is a number. *)
Lemma of_Z_number (n : Z) : (0 <= n)%Z -> number (Str.of_Z n).
Proof.
  intros Hn. unfold Str.of_Z, number. destruct n as [|p|p]; [| |lia].
  - split; reflexivity.
  - cbn [Z.to_int NilZero.string_of_int]. unfold NilZero.string_of_uint.
    pose proof (Unsigned.to_uint_nonnil p) as Hnil.
    pose proof (uint_digits (Pos.to_uint p)) as Hd.
    destruct (Pos.to_uint p); try contradiction; split;
      solve [exact Hd | reflexivity].
Qed.


Lemma hours_minutes_grammar (hours minutes : Z) :
  (0 <= minutes)%Z -> duration_grammar (hours_minutes_text hours minutes) = true.
Proof.
  intros Hm. unfold hours_minutes_text.
  destruct (0 <? hours)%Z eqn:E.
  - apply Z.ltb_lt in E. apply grammar_hm; apply of_Z_number; lia.
  - apply grammar_m. now apply of_Z_number.
Qed.

Lemma seconds_text_grammar (seconds : Z) :
  duration_grammar (seconds_text seconds) = true.
Proof.
  unfold seconds_text. apply hours_minutes_grammar.
  apply Z.mod_pos_bound. reflexivity.
Qed.

Lemma digits_value_nonneg (s : string) :
  Str.all_digits s = true -> forall acc, (0 <= acc)%Z -> (0 <= Str.digits_value acc s)%Z.
Proof.
  induction s as [|c s IH]; cbn [Str.digits_value Str.all_digits];
    intros Hd acc Hacc; auto.
  apply andb_true_iff in Hd. destruct Hd as [Hc Hd].
  apply IH; auto.
  unfold Str.is_digit, Str.between in Hc. apply andb_true_iff in Hc.
  destruct Hc as [Hl _]. apply N.leb_le in Hl.
  generalize dependent (Str.code c). intros code Hl. lia.
Qed.

Lemma clock_text_grammar (hours minutes seconds : Z) :
  (0 <= minutes)%Z -> (0 <= seconds)%Z ->
  engine_duration_grammar (Embedded.clock_text hours minutes seconds) = true.
Proof.
  intros Hm Hs. unfold engine_duration_grammar, Embedded.clock_text.
  destruct (0 <? hours)%Z eqn:E.
  - apply Z.ltb_lt in E. apply orb_true_iff. right.
    apply grammar_hms; apply of_Z_number; lia.
  - apply orb_true_iff. left. apply grammar_ms; now apply of_Z_number.
Qed.

(** ** Splitting at the colons *)

Lemma rev_onto_app (a b acc : string) :
  Str.rev_onto (a ++ b) acc = Str.rev_onto b (Str.rev_onto a acc).
Proof. revert acc. induction a as [|c a IH]; simpl; auto. Qed.

Lemma rev_onto_rev (a acc : string) :
  Str.rev_onto (Str.rev_onto a acc) "" = Str.rev_onto acc a.
Proof.
  revert acc. induction a as [|c a IH]; intros acc; simpl; auto.
Qed.

Lemma rev_rev (a : string) : Str.rev (Str.rev a) = a.
Proof. unfold Str.rev. now rewrite rev_onto_rev. Qed.

Lemma digit_not_colon (c : ascii) :
  Str.is_digit c = true -> Str.eqb_char c ":" = false.
Proof.
  intros H. unfold Str.eqb_char. destruct (Ascii.eqb c ":") eqn:E; auto.
  apply Ascii.eqb_eq in E. subst. discriminate.
Qed.

Lemma split_acc_digits (d rest cur : string) :
  Str.all_digits d = true ->
  Str.split_acc ":" cur (d ++ rest) = Str.split_acc ":" (Str.rev_onto d cur) rest.
Proof.
  revert cur. induction d as [|c d IH]; intros cur Hd; simpl; auto.
  simpl in Hd. apply andb_true_iff in Hd. destruct Hd as [Hc Hd].
  rewrite (digit_not_colon _ Hc). now apply IH.
Qed.

Lemma split_three (p0 p1 p2 : string) :
  Str.all_digits p0 = true -> Str.all_digits p1 = true -> Str.all_digits p2 = true ->
  Str.split ":" (p0 ++ ":" ++ p1 ++ ":" ++ p2) = [p0; p1; p2].
Proof.
  intros H0 H1 H2. unfold Str.split.
  rewrite split_acc_digits by assumption. cbn [append Str.split_acc Str.eqb_char Ascii.eqb Bool.eqb].
  rewrite split_acc_digits by assumption. cbn [append Str.split_acc Str.eqb_char Ascii.eqb Bool.eqb].
  rewrite <- (append_nil_r p2), split_acc_digits by assumption.
  cbn [Str.split_acc]. fold (Str.rev p0) (Str.rev p1) (Str.rev p2).
  now rewrite !rev_rev, append_nil_r.
Qed.

Lemma split_two (p0 p1 : string) :
  Str.all_digits p0 = true -> Str.all_digits p1 = true ->
  Str.split ":" (p0 ++ ":" ++ p1) = [p0; p1].
Proof.
  intros H0 H1. unfold Str.split.
  rewrite split_acc_digits by assumption. cbn [append Str.split_acc Str.eqb_char Ascii.eqb Bool.eqb].
  rewrite <- (append_nil_r p1), split_acc_digits by assumption.
  cbn [Str.split_acc]. fold (Str.rev p0) (Str.rev p1).
  now rewrite !rev_rev, append_nil_r.
Qed.

Lemma contains_colon (a b : string) : Str.contains ":" (a ++ ":" ++ b) = true.
Proof.
  induction a as [|c a IH]; [reflexivity|].
  change (Str.contains ":" (String c (a ++ ":" ++ b)) = true).
  cbn [Str.contains]. rewrite IH. apply orb_true_r.
Qed.

(** ** The end of a formatted duration *)

Lemma endswith_m (a : string) : Str.endswith "m" (a ++ "m") = true.
Proof.
  unfold Str.endswith, Str.rev. rewrite rev_onto_app. reflexivity.
Qed.

Lemma hours_minutes_endswith (hours minutes : Z) :
  Str.endswith "m" (hours_minutes_text hours minutes) = true.
Proof.
  unfold hours_minutes_text. destruct (0 <? hours)%Z.
  - rewrite <- !append_assoc. apply endswith_m.
  - apply endswith_m.
Qed.

End Grammar.

Section Durations.

Variable L : Libraries.

Import PyFacts.

Lemma normalize_clock (p0 p1 p2 : string) (result : dict) :
  Str.all_digits p0 = true -> Str.all_digits p1 = true -> Str.all_digits p2 = true ->
  Embedded.normalize (p0 ++ ":" ++ p1 ++ ":" ++ p2) result
  = Py.set "duration"
      (VStr (Embedded.clock_text (Embedded.int_of p0) (Embedded.int_of p1)
                                 (Embedded.int_of p2)))
      result.
Proof.
  intros H0 H1 H2. unfold Embedded.normalize.
  now rewrite contains_colon, split_three.
Qed.

Lemma normalize_minutes (p0 p1 : string) (result : dict) :
  Str.all_digits p0 = true -> Str.all_digits p1 = true ->
  Embedded.normalize (p0 ++ ":" ++ p1) result
  = Py.set "duration"
      (VStr (Str.of_Z (Embedded.int_of p0) ++ "m "
             ++ Str.of_Z (Embedded.int_of p1) ++ "s"))
      result.
Proof.
  intros H0 H1. unfold Embedded.normalize.
  now rewrite contains_colon, split_two.
Qed.

(** The duration of a returned record ends in "m" or in "h", or it is a
    text [isodate] does not parse. *)
Lemma final_duration_not_iso (url s : string) :
  Py.get "duration" (get_stage_identity L url) = VStr s ->
  s <> "" ->
  Str.endswith "m" s = true \/ Str.endswith "h" s = true
  \/ exists msg, parse_duration L s = Raise msg.
Proof.
  unfold get_stage_identity.
  destruct (get_stage_identity_body_cases L url)
    as [(e & _ & ->) | [(html & e & _ & _ & ->)
                       | (html & soup & result & _ & _ & _ & _ & ->)]];
    try discriminate.
  rewrite (@preserves_get _ _ _ _ mark_success_preserves)
    by (simpl; intuition discriminate).
  unfold clean_duration.
  destruct (Py.get "duration" (merged_record L soup result)) as [| | | |d| |] eqn:Ed;
    try (rewrite Ed; discriminate).
  destruct (negb (Str.is_empty d) && negb (Str.endswith "m" d)
            && negb (Str.endswith "h" d))%bool eqn:Ec.
  - rewrite get_set_same. unfold convert_duration.
    apply andb_true_iff in Ec. destruct Ec as [Ec _].
    apply andb_true_iff in Ec. destruct Ec as [Ec _].
    cbn [Py.truthy]. rewrite Ec. cbn [negb].
    destruct (parse_duration L d) as [td|msg] eqn:Ep.
    + intros [= <-] _. left. apply hours_minutes_endswith.
    + intros [= <-] _. right. right. eauto.
  - rewrite Ed. intros [= <-] Hne.
    assert (He : Str.is_empty d = false) by (destruct d; [contradiction | reflexivity]).
    rewrite He in Ec. cbn [negb andb] in Ec.
    destruct (Str.endswith "m" d); [now left|].
    destruct (Str.endswith "h" d); [right; now left | discriminate].
Qed.

(** C5 (amended): the duration of a returned record ends in "m" or "h",
    or else is a text that [isodate] does not parse: it is never an ISO
    duration left unconverted.  The texts the engine writes itself from
    numbers follow the grammar: a number of seconds and an ISO duration
    that parses give [\d+h \d+m] or [\d+m]; a match MM:SS gives
    [\d+m \d+s]; a match H:MM:SS gives [\d+m \d+s] or, when the hours are
    positive, [\d+h \d+m \d+s]. *)
Theorem duration_shapes :
  (forall url s,
      Py.get "duration" (get_stage_identity L url) = VStr s -> s <> "" ->
      Str.endswith "m" s = true \/ Str.endswith "h" s = true
      \/ exists msg, parse_duration L s = Raise msg)
  /\ (forall seconds, duration_grammar (seconds_text seconds) = true)
  /\ (forall s td, s <> "" -> parse_duration L s = Ok td ->
        exists t, convert_duration L (VStr s) = VStr t
                  /\ duration_grammar t = true)
  /\ (forall p0 p1 result,
        Str.all_digits p0 = true -> Str.all_digits p1 = true ->
        exists t, Py.get "duration" (Embedded.normalize (p0 ++ ":" ++ p1) result)
                  = VStr t
                  /\ duration_grammar t = true)
  /\ (forall p0 p1 p2 result,
        Str.all_digits p0 = true -> Str.all_digits p1 = true ->
        Str.all_digits p2 = true ->
        exists t, Py.get "duration"
                    (Embedded.normalize (p0 ++ ":" ++ p1 ++ ":" ++ p2) result)
                  = VStr t
                  /\ engine_duration_grammar t = true).
Proof.
  split; [exact final_duration_not_iso|].
  split; [exact seconds_text_grammar|].
  split; [|split].
  - intros s td Hs Hp. unfold convert_duration.
    assert (Ht : Py.truthy (VStr s) = true)
      by (destruct s; [contradiction | reflexivity]).
    rewrite Ht, Hp. cbn [negb]. eexists. split; [reflexivity|].
    apply hours_minutes_grammar. apply Z.mod_pos_bound. reflexivity.
  - intros p0 p1 result H0 H1. rewrite normalize_minutes by assumption.
    rewrite get_set_same. eexists. split; [reflexivity|].
    apply grammar_ms; apply of_Z_number; now apply digits_value_nonneg.
  - intros p0 p1 p2 result H0 H1 H2. rewrite normalize_clock by assumption.
    rewrite get_set_same. eexists. split; [reflexivity|].
    apply clock_text_grammar; now apply digits_value_nonneg.
Qed.

End Durations.

(* ================================================================== *)
(** * The priority of the layers *)
(* ================================================================== *)

Section Priority.

Variable L : Libraries.

Import PyFacts.

Lemma keys_in_own (d : dict) : keys_in (map fst d) d.
Proof.
  induction d as [|[k v] d IH]; constructor; simpl; auto.
  eapply Forall_impl; [|exact IH]. simpl. auto.
Qed.

(** A non-empty value of Layer B is the value of its key after line 417. *)
Lemma merge_next_writes (next_extracted : dict) (k : string) (v : pyval) :
  NoDup (map fst next_extracted) ->
  Py.lookup k next_extracted = Some v ->
  Py.truthy v = true ->
  forall result, Py.get k (merge_next next_extracted result) = v.
Proof.
  induction next_extracted as [|[k0 v0] d IH]; simpl; [discriminate|].
  intros Hnd Hl Hv result. inversion Hnd as [|? ? Hnotin Hd]. subst.
  unfold merge_next in *. simpl.
  destruct (String.eqb k k0) eqn:E.
  - apply String.eqb_eq in E. subst k0. injection Hl as ->. rewrite Hv.
    unfold Py.get, Py.get_default.
    rewrite (merge_next_preserves (keys_in_own d)) by assumption.
    now rewrite lookup_set_same.
  - now apply IH.
Qed.

(** Line 420: a key whose value is non-empty is not written by Layer C. *)
Lemma merge_ld_keeps (ld_extracted : dict) (k : string) :
  forall result,
    Py.truthy (Py.get k result) = true ->
    Py.get k (merge_ld ld_extracted result) = Py.get k result.
Proof.
  induction ld_extracted as [|[k0 v0] d IH]; intros result Ht; [reflexivity|].
  unfold merge_ld in *. simpl.
  destruct (String.eqb_spec k k0) as [<- | Hne].
  - rewrite Ht, andb_false_r. now apply IH.
  - destruct (Py.truthy v0 && negb (Py.truthy (Py.get k0 result)))%bool.
    + rewrite IH; rewrite get_set_other by assumption; auto.
    + now apply IH.
Qed.

(** ** The duration of Layer B *)

Lemma float_seconds_text_endswith (seconds : float) :
  Str.endswith "m" (float_seconds_text L seconds) = true.
Proof.
  unfold float_seconds_text. cbv zeta.
  match goal with |- context [if ?b then _ else _] => destruct b end.
  - rewrite <- !append_assoc. apply endswith_m.
  - apply endswith_m.
Qed.

Lemma duration_text_endswith (duration_seconds : pyval) (text : string) :
  duration_text L duration_seconds = Ok text -> Str.endswith "m" text = true.
Proof.
  destruct duration_seconds; cbn [duration_text]; try discriminate;
    intros [= <-]; try apply hours_minutes_endswith.
  apply float_seconds_text_endswith.
Qed.

Lemma minutes_duration_nil : minutes_duration [].
Proof. intros v H. discriminate H. Qed.

Lemma minutes_duration_other (k : string) (v : pyval) (d : dict) :
  k <> "duration" -> minutes_duration d -> minutes_duration (Py.set k v d).
Proof.
  intros Hk Hd v' H. apply Hd. rewrite <- H. symmetry.
  apply lookup_set_other. congruence.
Qed.

Lemma minutes_duration_set (t : string) (d : dict) :
  Str.endswith "m" t = true -> minutes_duration (Py.set "duration" (VStr t) d).
Proof.
  intros Ht v H. rewrite lookup_set_same in H. injection H as <-.
  exists t. auto.
Qed.

Lemma minutes_duration_unless (k : string) (v : pyval) (d : dict) :
  k <> "duration" -> minutes_duration d -> minutes_duration (unless_set k v d).
Proof.
  intros Hk Hd. unfold unless_set.
  destruct (negb (Py.truthy (Py.get k d))); [now apply minutes_duration_other | exact Hd].
Qed.

Lemma minutes_duration_then (p : progress) (f : dict -> progress) :
  minutes_duration (extracted_of p) ->
  (forall d, minutes_duration d -> minutes_duration (extracted_of (f d))) ->
  minutes_duration (extracted_of (and_then p f)).
Proof. destruct p; simpl; auto. Qed.

Lemma store_field_duration (field_name : string) (m : Re.rematch)
    (extracted : dict) :
  minutes_duration extracted ->
  minutes_duration (extracted_of (store_field L field_name m extracted)).
Proof.
  intros H. unfold store_field.
  repeat match goal with
         | |- context [if ?b then _ else _] => destruct b
         | |- context [match py_int ?l ?s with _ => _ end] => destruct (py_int l s)
         end; cbn [extracted_of]; auto;
    try (apply minutes_duration_other; [discriminate | exact H]).
  apply minutes_duration_set, hours_minutes_endswith.
Qed.

Lemma scan_movie_patterns_duration (patterns : list (string * Re.regex))
    (json_text : string) (extracted : dict) :
  minutes_duration extracted ->
  minutes_duration
    (extracted_of (scan_movie_patterns L patterns json_text extracted)).
Proof.
  revert extracted.
  induction patterns as [|[text pattern] rest IH]; intros extracted H.
  - exact H.
  - simpl. destruct (Re.search false pattern json_text) as [m|].
    + apply minutes_duration_then; [now apply store_field_duration | exact IH].
    + now apply IH.
Qed.

Lemma fill_from_content_duration (content_data extracted : dict) :
  minutes_duration extracted ->
  minutes_duration (extracted_of (fill_from_content L content_data extracted)).
Proof.
  intros H. unfold fill_from_content. cbv zeta.
  set (e1 := unless_set "release_date" _ _).
  assert (H1 : minutes_duration e1).
  { unfold e1. repeat (apply minutes_duration_unless; [discriminate|]). exact H. }
  clearbody e1.
  apply minutes_duration_then.
  - destruct (negb (Py.truthy (Py.get "duration" e1))); [|exact H1].
    destruct (Py.truthy (Py.get "duration" content_data)); [|exact H1].
    destruct (duration_text L (Py.get "duration" content_data)) as [text|msg] eqn:E;
      [|exact H1].
    cbn [extracted_of]. apply minutes_duration_set.
    now apply (duration_text_endswith _ E).
  - intros d Hd. apply minutes_duration_then.
    + destruct (negb (Py.truthy (Py.get "languages" d))); [|exact Hd].
      destruct (Py.obj_title (Py.get_default "dialect" (VStr "") content_data));
        [|exact Hd].
      cbn [extracted_of]. apply minutes_duration_other; [discriminate | exact Hd].
    + intros d' Hd'. cbn [extracted_of].
      apply minutes_duration_unless; [discriminate | exact Hd'].
Qed.

(** Every duration Layer B returns was written from a number of seconds:
    it ends in "m". *)
Lemma extract_from_next_data_duration (next_json : pyval) :
  minutes_duration (extract_from_next_data L next_json).
Proof.
  unfold extract_from_next_data.
  destruct (data_sources next_json) as [sources|msg];
    [|apply minutes_duration_nil].
  cbv zeta. apply minutes_duration_then.
  - destruct (negb (Py.truthy (scan_sources sources VNone)));
      [apply scan_movie_patterns_duration|]; apply minutes_duration_nil.
  - intros d Hd. destruct (scan_sources sources VNone); try exact Hd.
    destruct (Py.truthy (VDict d0)); [|exact Hd].
    now apply fill_from_content_duration.
Qed.

(** The last clean-up leaves a duration that ends in "m" as it is. *)
Lemma finish_duration_minutes (result : dict) (t : string) :
  Py.get "duration" result = VStr t ->
  Str.endswith "m" t = true ->
  Py.get "duration" (mark_success (clean_duration L result)) = VStr t.
Proof.
  intros Hd Ht.
  rewrite (@preserves_get _ _ _ _ mark_success_preserves)
    by (simpl; intuition discriminate).
  unfold clean_duration. rewrite Hd, Ht. cbn [negb].
  rewrite andb_false_r. cbn [andb]. exact Hd.
Qed.

(** C1 (amended): Layers B and C are consulted only when Layer A left no
    title.  When Layer A stored a title, every field of its record is
    returned as it is, the duration after the last clean-up.  When it left
    none, a non-empty value of Layer B takes the place of Layer A's value
    for that field, the duration included (the Next.js data is given
    priority; a duration of Layer B ends in "m", so the last clean-up
    leaves it as it is).  The type Layer A stored is returned in both
    cases. *)
Theorem layer_a_priority (url html : string) (soup : Soup) (result : dict) :
  http_get L url = Ok html ->
  BeautifulSoup L html = Ok soup ->
  layer_a L html (initial_result (extract_stage_id url) url) = Ok result ->
  let r := get_stage_identity L url in
  (Py.truthy (Py.get "title" result) = true ->
   (forall k, k <> "duration" -> k <> "success" -> Py.get k r = Py.get k result)
   /\ Py.get "duration" r = Py.get "duration" (clean_duration L result))
  /\ (Py.truthy (Py.get "title" result) = false ->
      forall next_script next_data k v,
        find_script_by_id soup "__NEXT_DATA__" = Some next_script ->
        script_json L next_script = Ok next_data ->
        Py.lookup k (extract_from_next_data L next_data) = Some v ->
        Py.truthy v = true ->
        Py.get k r = v)
  /\ Py.get "type" r = Py.get "type" result.
Proof.
  intros Hget Hsoup Ha r. unfold r, get_stage_identity.
  destruct (get_stage_identity_body_cases L url)
    as [(e & He & _) | [(html' & e & He & Hs & _)
                       | (html' & soup' & result' & He & Hs' & Ha' & Hs & ->)]];
    try congruence.
  assert (html' = html) by congruence. subst html'.
  assert (soup' = soup) by congruence. subst soup'.
  assert (result' = result) by congruence. subst result'.
  unfold merged_record. split; [|split].
  - intros ->. cbn [negb]. split.
    + intros k H1 H2. now apply finish_get.
    + apply (@preserves_get _ _ _ _ mark_success_preserves).
      simpl. intuition discriminate.
  - intros -> next_script next_data k v Hscript Hjson Hl Hv. cbn [negb].
    pose proof (extract_from_next_data_keys L next_data) as [Hkeys Hnd].
    assert (Hin : In k layer_keys).
    { destruct (in_dec string_dec k layer_keys) as [H|H]; auto.
      rewrite (@keys_in_lookup _ _ _ Hkeys H) in Hl. discriminate. }
    assert (Hks : k <> "success" /\ k <> "type" /\ k <> "episode_count").
    { simpl in Hin. intuition (subst; discriminate). }
    destruct Hks as (H1 & H2 & H3).
    assert (Hmerged : Py.get k (merge_layers L soup result) = v).
    { unfold merge_layers, next_layer. rewrite Hscript, Hjson.
      destruct (ld_layer L soup) as [ld_data ld_extracted].
      match goal with
      | |- Py.get k (if ?c then Py.set "episode_count" ?ev ?typed else ?typed') = v =>
          assert (Ht : Py.get k typed = v)
      end.
      { match goal with
        | |- Py.get k (if ?c then Py.set "type" ?tv ?m else _) = v =>
            assert (Hm : Py.get k m = v)
        end.
        { rewrite merge_ld_keeps; rewrite merge_next_writes with (v := v); auto. }
        match goal with |- context [if ?c then _ else _] => destruct c end;
          [rewrite get_set_other by assumption|]; exact Hm. }
      match goal with |- context [if ?c then _ else _] => destruct c end;
        [rewrite get_set_other by assumption|]; exact Ht. }
    destruct (String.eqb_spec k "duration") as [-> | Hd].
    + destruct (extract_from_next_data_duration next_data Hl) as (t & -> & Hm).
      now apply finish_duration_minutes.
    + rewrite finish_get by assumption. exact Hmerged.
  - rewrite finish_get by discriminate.
    destruct Hs as (_ & _ & Hty & _).
    destruct (negb (Py.truthy (Py.get "title" result))); auto.
    apply merge_layers_type. destruct Hty as [-> | ->]; reflexivity.
Qed.

End Priority.

(* ================================================================== *)
(** * The claims on concrete pages *)
(* ================================================================== *)

(** C6 on the page of [isodate] reading PT1H27M: the text is "1h 27m". *)
Lemma convert_duration_iso :
  "PT1H27M" <> ""
  /\ convert_duration Pages.iso (VStr "PT1H27M") = VStr "1h 27m"
  /\ convert_duration Pages.iso (VStr "1h 27") = VStr "1h 27".
Proof.
  assert (H : "PT1H27M" <> "") by discriminate.
  assert (H' : "1h 27" <> "") by discriminate.
  split; [exact H|]. split.
  - exact (proj1 (proj1 (convert_duration_spec Pages.iso H)
                    {| td_days := 0; td_seconds := 5220; td_microseconds := 0 |}
                    eq_refl)).
  - exact (proj2 (convert_duration_spec Pages.iso H')
                 "Unable to parse duration string" eq_refl).
Defined.

(** C9, as stated, fails: this page has the title element "STAGE" and
    the Open-Graph title "Kayantar" and is fetched from the address of the
    scenario; a paragraph of it names a season and an episode, and the
    type of the record is "Series". *)
Lemma kayantar_page_with_series_words :
  let r := get_stage_identity Samples.serial Pages.kayantar_url in
  http_get Samples.serial Pages.kayantar_url = Ok Samples.serial_html
  /\ select_one Samples.serial_soup "title" = Some (Pages.element "STAGE" None)
  /\ select_one Samples.serial_soup "meta[property='og:title']"
     = Some (Pages.element "" (Some "Kayantar"))
  /\ Py.get "stage_id" r = VStr "14145"
  /\ Py.get "title" r = VStr "Kayantar"
  /\ Py.get "type" r = VStr "Series".
Proof. repeat split; vm_compute; reflexivity. Qed.

(** C9 (amended) on the page that holds the two titles and nothing else:
    its text names no route and no series word. *)
Lemma kayantar_scenario_page :
  let r := get_stage_identity Samples.bare Pages.kayantar_url in
  Py.get "stage_id" r = VStr "14145"
  /\ Py.get "type" r = VStr "Movie"
  /\ Py.get "title" r = VStr "Kayantar".
Proof.
  destruct (@kayantar_scenario Samples.bare "https://www.stage.in/en/haryanvi"
              Samples.bare_html Pages.kayantar_soup
              (Pages.element "STAGE" None) (Pages.element "" (Some "Kayantar"))
              eq_refl eq_refl eq_refl eq_refl eq_refl eq_refl eq_refl eq_refl
              eq_refl eq_refl)
    as (Hid & Htitle & Htype).
  split; [exact Hid|]. split; [|exact Htitle].
  apply Htype; [vm_compute; reflexivity | vm_compute; reflexivity |].
  right. vm_compute. reflexivity.
Defined.

(** C3, as stated, fails: the record of this series page has the type
    "Series" and no episode count. *)
Lemma series_without_episode_count :
  let r := get_stage_identity Pages.show Pages.show_url in
  Py.get "type" r = VStr "Series" /\ Py.get "episode_count" r = VNone.
Proof. split; vm_compute; reflexivity. Qed.

(** C3 (amended) on a page whose script holds an episode count. *)
Lemma episode_count_only_for_series_page :
  Py.get "episode_count" (get_stage_identity Pages.episodes Pages.show_url)
  = VInt 8
  /\ Py.get "type" (get_stage_identity Pages.episodes Pages.show_url)
     = VStr "Series".
Proof.
  split; [vm_compute; reflexivity|].
  apply (@episode_count_only_for_series Pages.episodes Pages.show_url).
  vm_compute. discriminate.
Defined.

(** C10 on the page of Kayantar. *)
Lemma embedded_type_always_set_page :
  Py.get "type" (extract_embedded_data Pages.kayantar Pages.kayantar_html)
  = VStr "movie"
  \/ Py.get "type" (extract_embedded_data Pages.kayantar Pages.kayantar_html)
     = VStr "series".
Proof.
  exact (proj1 (@embedded_type_always_set Pages.kayantar Pages.kayantar_html
                  Pages.kayantar_soup eq_refl)).
Defined.

(** C7 on a server that does not answer. *)
Lemma failure_is_a_record_timeout :
  get_stage_identity (Pages.unreachable "Read timed out") Pages.kayantar_url
  = failure_record Pages.kayantar_url "Read timed out".
Proof.
  exact (proj1 (@failure_is_a_record (Pages.unreachable "Read timed out")
                  Pages.kayantar_url)
               "Read timed out" eq_refl).
Defined.

(** C2: the page names Videshi Bahu in its heading.  Layer A finds the
    series and the episode count 12 of the override table; the record has
    the type "Series", and its episode count is [None]. *)
Lemma videshi_bahu_episode_count_dropped :
  Py.get "episode_count" (extract_embedded_data Pages.videshi Pages.videshi_html)
  = VInt 12
  /\ Py.get "type" (get_stage_identity Pages.videshi Pages.videshi_url)
     = VStr "Series"
  /\ Py.get "episode_count" (get_stage_identity Pages.videshi Pages.videshi_url)
     = VNone.
Proof. repeat split; vm_compute; reflexivity. Qed.

(** C5, as stated, fails: the page gives the running time 1:27:30, and the
    duration of the record is "1h 27m 30s", which none of the three
    patterns matches. *)
Lemma duration_with_seconds_and_hours :
  Py.get "duration" (get_stage_identity Pages.clock Pages.kayantar_url)
  = VStr "1h 27m 30s"
  /\ duration_grammar "1h 27m 30s" = false.
Proof. split; vm_compute; reflexivity. Qed.

(** C1, as stated, fails: on this page Layer A sets the release date
    "2020", Layer B produces "2021" for the same field, and the record
    returned holds Layer B's value. *)
Lemma layer_b_overwrites_layer_a :
  layer_a Pages.years Pages.years_html
          (initial_result (extract_stage_id Pages.years_url) Pages.years_url)
  = Ok Pages.years_layer_a
  /\ Py.get "release_date" Pages.years_layer_a = VStr "2020"
  /\ Py.get "release_date" (extract_from_next_data Pages.years Pages.years_tree)
     = VStr "2021"
  /\ Py.get "release_date" (get_stage_identity Pages.years Pages.years_url)
     <> Py.get "release_date" Pages.years_layer_a.
Proof. repeat split; vm_compute; (reflexivity || discriminate). Qed.

(** C1 (amended) on the same page: Layer A left no title, so the release
    date of Layer B is returned, with the type of Layer A.  On a page whose
    text says "45 minutes" and whose script gives 5400 seconds, Layer A
    stores the duration "45" and the duration of Layer B, "1h 30m", is
    returned. *)
Lemma layer_a_priority_years :
  Py.get "release_date" (get_stage_identity Pages.years Pages.years_url)
  = VStr "2021"
  /\ Py.get "type" (get_stage_identity Pages.years Pages.years_url)
     = VStr "Movie"
  /\ Py.get "duration" Samples.runtime_layer_a = VStr "45"
  /\ Py.get "duration" (get_stage_identity Samples.runtime Pages.years_url)
     = VStr "1h 30m".
Proof.
  destruct (@layer_a_priority Pages.years Pages.years_url Pages.years_html
              Pages.years_soup Pages.years_layer_a eq_refl eq_refl
              ltac:(vm_compute; reflexivity))
    as (_ & HB & HT).
  destruct (@layer_a_priority Samples.runtime Pages.years_url Samples.runtime_html
              Samples.runtime_soup Samples.runtime_layer_a eq_refl eq_refl
              ltac:(vm_compute; reflexivity))
    as (_ & HD & _).
  split; [|split; [|split]].
  - apply (HB eq_refl (Pages.script Pages.years_text) Pages.years_tree);
      try reflexivity; vm_compute; reflexivity.
  - rewrite HT. vm_compute. reflexivity.
  - vm_compute. reflexivity.
  - apply (HD eq_refl (Pages.script Samples.runtime_text) Samples.runtime_tree);
      try reflexivity; vm_compute; reflexivity.
Defined.

(** C5 (amended) on the running time 1:27:30: the text written is
    "1h 27m 30s", in the grammar with the fourth shape. *)
Lemma duration_shapes_clock :
  exists t,
    Py.get "duration" (Embedded.normalize ("1" ++ ":" ++ "27" ++ ":" ++ "30") [])
    = VStr t
    /\ engine_duration_grammar t = true.
Proof.
  exact (proj2 (proj2 (proj2 (proj2 (duration_shapes Pages.clock))))
               "1" "27" "30" [] eq_refl eq_refl eq_refl).
Defined.

(* ================================================================== *)
(** * The shape of the records *)
(* ================================================================== *)

Section RecordShape.

Variable L : Libraries.

Import PyFacts.

Lemma set_keeps_keys (k : string) (v : pyval) (d : dict) :
  In k (map fst d) -> map fst (Py.set k v d) = map fst d.
Proof.
  induction d as [|[k' v'] d IH]; simpl; [tauto|].
  intros H. destruct (String.eqb k k') eqn:E; simpl.
  - apply String.eqb_eq in E. now subst.
  - f_equal. apply IH. destruct H as [H|H]; auto.
    subst. now rewrite String.eqb_refl in E.
Qed.

Lemma merge_next_keeps_keys (keys : list string) (next_extracted : dict) :
  keys_in keys next_extracted ->
  forall result, incl keys (map fst result) ->
    map fst (merge_next next_extracted result) = map fst result.
Proof.
  intros H. induction H as [|[k v] d Hk Hd IH]; intros result Hincl;
    [reflexivity|].
  unfold merge_next in *. simpl. destruct (Py.truthy v).
  - rewrite IH; rewrite set_keeps_keys; auto.
  - now apply IH.
Qed.

Lemma merge_ld_keeps_keys (keys : list string) (ld_extracted : dict) :
  keys_in keys ld_extracted ->
  forall result, incl keys (map fst result) ->
    map fst (merge_ld ld_extracted result) = map fst result.
Proof.
  intros H. induction H as [|[k v] d Hk Hd IH]; intros result Hincl;
    [reflexivity|].
  unfold merge_ld in *. simpl.
  destruct (Py.truthy v && negb (Py.truthy (Py.get k result)))%bool.
  - rewrite IH; rewrite set_keeps_keys; auto.
  - now apply IH.
Qed.

Lemma layer_keys_in_record : incl layer_keys record_keys.
Proof. intros k H. simpl in *. intuition (subst; auto 20). Qed.

Lemma merge_layers_keeps_keys (soup : Soup) (result : dict) :
  map fst result = record_keys ->
  map fst (merge_layers L soup result) = record_keys.
Proof.
  intros Hk. unfold merge_layers.
  assert (Hn : exists nd ne r', next_layer L soup result = (nd, ne, r')
                                /\ keys_in layer_keys ne
                                /\ map fst r' = record_keys).
  { unfold next_layer.
    destruct (find_script_by_id soup "__NEXT_DATA__") as [next_script|].
    - destruct (script_json L next_script) as [next_data|msg].
      + do 3 eexists. split; [reflexivity|]. split.
        * apply extract_from_next_data_keys.
        * rewrite !set_keeps_keys; rewrite ?set_keeps_keys; rewrite ?Hk;
            simpl; auto 20.
      + do 3 eexists. split; [reflexivity|]. split; [apply keys_in_nil | auto].
    - do 3 eexists. split; [reflexivity|]. split; [apply keys_in_nil | auto]. }
  destruct Hn as (nd & ne & r' & -> & Hne & Hr').
  destruct (ld_layer_spec L soup) as (ld & le & -> & Hle).
  assert (Hm : map fst (merge_ld le (merge_next ne r')) = record_keys).
  { rewrite (merge_ld_keeps_keys Hle), (merge_next_keeps_keys Hne);
      rewrite ?(merge_next_keeps_keys Hne); rewrite ?Hr'; auto;
      apply layer_keys_in_record. }
  repeat match goal with
         | |- context [if ?b then _ else _] => destruct b
         end;
    rewrite ?set_keeps_keys; rewrite ?set_keeps_keys; rewrite ?Hm;
    simpl; auto 20.
Qed.

Lemma finish_keeps_keys (result : dict) :
  map fst result = record_keys ->
  map fst (mark_success (clean_duration L result)) = record_keys.
Proof.
  intros Hk.
  assert (Hc : map fst (clean_duration L result) = record_keys).
  { unfold clean_duration. destruct (Py.get "duration" result); auto.
    match goal with |- context [if ?b then _ else _] => destruct b end; auto.
    rewrite set_keeps_keys; rewrite ?Hk; simpl; auto 20. }
  unfold mark_success.
  match goal with |- context [if ?b then _ else _] => destruct b end; auto.
  rewrite set_keeps_keys; rewrite ?Hc; simpl; auto 20.
Qed.

(** A run on a page that was fetched and parsed, with the record of
    Layer A written out. *)
Lemma run_on_parsed_page (url html : string) (soup : Soup) :
  http_get L url = Ok html ->
  BeautifulSoup L html = Ok soup ->
  exists result,
    layer_a L html (initial_result (extract_stage_id url) url) = Ok result
    /\ after_layer_a url html soup result
    /\ map fst result = record_keys
    /\ Py.get "genre" result = VNone
    /\ get_stage_identity L url
       = mark_success (clean_duration L (merged_record L soup result)).
Proof.
  intros Hget Hsoup. unfold get_stage_identity.
  destruct (get_stage_identity_body_cases L url)
    as [(e & He & _) | [(html' & e & He & Hs & _)
                       | (html' & soup' & result & He & Hs' & Ha & Hs & ->)]];
    try congruence.
  assert (html' = html) by congruence. subst html'.
  assert (soup' = soup) by congruence. subst soup'.
  exists result. split; [exact Ha|]. split; [exact Hs|].
  destruct (@layer_a_ok L html soup (extract_stage_id url) url Hsoup)
    as (ty & desc & lang & dur & Ha' & _).
  rewrite Ha in Ha'. injection Ha' as ->. repeat split.
Qed.

(** X1: the record [get_stage_identity] returns has the thirteen keys of
    [record_keys], in that order, and after them the key "error" when the
    call failed: no layer adds a key, removes one or moves one. *)
Theorem record_keys_fixed (url : string) :
  map fst (get_stage_identity L url)
  = if Py.mem "error" (get_stage_identity L url)
    then (record_keys ++ ["error"])%list
    else record_keys.
Proof.
  unfold get_stage_identity.
  destruct (get_stage_identity_body_cases L url)
    as [(e & _ & ->) | [(html & e & _ & _ & ->)
                       | (html & soup & result & Hget & Hsoup & Ha & Hs & ->)]];
    try reflexivity.
  destruct (run_on_parsed_page url Hget Hsoup) as (result' & Ha' & _ & Hk & _).
  assert (result' = result) by congruence. subst result'.
  assert (Hm : map fst (merged_record L soup result) = record_keys).
  { unfold merged_record.
    destruct (negb (Py.truthy (Py.get "title" result))); auto.
    now apply merge_layers_keeps_keys. }
  rewrite finish_mem by discriminate.
  destruct (merged_record_facts L Hs) as (_ & _ & _ & -> & _).
  now apply finish_keeps_keys.
Qed.

(** The type of the record of a parsed page is the classification of the
    page's text. *)
Lemma record_type_cases (url html : string) (soup : Soup) :
  http_get L url = Ok html ->
  BeautifulSoup L html = Ok soup ->
  let r := get_stage_identity L url in
  (Py.lookup "type" (Embedded.classify html []) = Some (VStr "movie")
   /\ Py.get "type" r = VStr "Movie")
  \/ (Py.lookup "type" (Embedded.classify html []) = Some (VStr "series")
      /\ Py.get "type" r = VStr "Series").
Proof.
  intros Hget Hsoup r. unfold r.
  destruct (run_on_parsed_page url Hget Hsoup) as (result & _ & Hs & _ & _ & ->).
  rewrite finish_get by discriminate.
  assert (Ht : Py.get "type" (merged_record L soup result) = Py.get "type" result).
  { unfold merged_record.
    destruct (negb (Py.truthy (Py.get "title" result))); auto.
    apply merge_layers_type.
    destruct Hs as (_ & _ & [-> | ->] & _); reflexivity. }
  rewrite Ht. apply Hs.
Qed.


(** X3: a page whose text, in lower case, holds one of the paths /show/,
    /series/, /web-series/, /tv-show/ anywhere (a link to another title is
    enough) gives a record of type "Series", whatever else it holds. *)
Theorem series_path_gives_series (url html : string) (soup : Soup) :
  http_get L url = Ok html ->
  BeautifulSoup L html = Ok soup ->
  existsb (fun indicator => Str.contains indicator (Str.lower html))
          Embedded.url_path_indicators = true ->
  Py.get "type" (get_stage_identity L url) = VStr "Series".
Proof.
  intros Hget Hsoup Hp.
  destruct (record_type_cases url Hget Hsoup) as [[Hc Ht] | [Hc Ht]]; auto.
  unfold Embedded.classify in Hc. rewrite Hp in Hc. discriminate Hc.
Qed.

(** X4: when Layer A found a title, the record has no genre and no
    episode count, whatever [extract_embedded_data] stored under those
    keys: lines 350-378 copy neither, and the later layers are not run. *)
Theorem layer_a_genre_and_episodes_dropped (url html : string) (soup : Soup)
    (title : string) :
  http_get L url = Ok html ->
  BeautifulSoup L html = Ok soup ->
  Embedded.find_title soup Embedded.title_selectors = Some title ->
  let r := get_stage_identity L url in
  Py.get "title" r = VStr title
  /\ Py.get "genre" r = VNone
  /\ Py.get "episode_count" r = VNone.
Proof.
  intros Hget Hsoup Ht r. unfold r.
  destruct (run_on_parsed_page url Hget Hsoup)
    as (result & _ & Hs & _ & Hg & ->).
  destruct Hs as (_ & Htitle & _ & Hep & _).
  rewrite Ht in Htitle. simpl in Htitle.
  destruct (find_title_acceptable _ _ Ht) as [Hne _].
  rewrite !finish_get by discriminate.
  unfold merged_record. rewrite Htitle. simpl. rewrite Hne. simpl. auto.
Qed.

(** X5: when the address ends in a hyphen and digits, every page that is
    fetched and parsed gives a record with those digits as "stage_id" and
    with "success" true, whatever the page holds. *)
Theorem identifier_gives_success (url html : string) (soup : Soup) (d : string) :
  http_get L url = Ok html ->
  BeautifulSoup L html = Ok soup ->
  extract_stage_id url = Some d ->
  Py.get "stage_id" (get_stage_identity L url) = VStr d
  /\ Py.get "success" (get_stage_identity L url) = VBool true.
Proof.
  intros Hget Hsoup Hid.
  destruct (run_on_parsed_page url Hget Hsoup) as (result & _ & Hs & _ & _ & ->).
  destruct (merged_record_facts L Hs) as (Hi & Hf & _).
  rewrite Hid in Hi. simpl in Hi.
  rewrite extract_stage_id_find_id in Hid.
  destruct (@find_id_sound _ _ Hid) as (Hne & _).
  rewrite finish_get by discriminate. split; [exact Hi|].
  rewrite finish_success by exact Hf. rewrite Hi. simpl. rewrite Hne.
  now rewrite orb_true_r.
Qed.

(** X6: a page that [BeautifulSoup] refuses gives the failure record with
    the parser's error: the handler inside [extract_embedded_data] catches
    the first refusal, and line 382 parses the page again outside any inner
    handler. *)
Theorem unparsed_page_fails (url html error : string) :
  http_get L url = Ok html ->
  BeautifulSoup L html = Raise error ->
  extract_embedded_data L html = []
  /\ get_stage_identity L url = failure_record url error.
Proof.
  intros Hget Hsoup. split.
  - unfold extract_embedded_data. now rewrite Hsoup.
  - unfold get_stage_identity.
    destruct (get_stage_identity_body_cases L url)
      as [(e & He & _) | [(html' & e & He & Hs & ->)
                         | (html' & soup' & result & He & Hs' & _)]];
      congruence.
Qed.

(** Line 416 passes over a key for which Layer B has no value or an empty
    one. *)
Lemma merge_next_skips (next_extracted : dict) (k : string) :
  NoDup (map fst next_extracted) ->
  Py.truthy (Py.get k next_extracted) = false ->
  forall result, Py.get k (merge_next next_extracted result) = Py.get k result.
Proof.
  induction next_extracted as [|[k0 v0] d IH]; [reflexivity|].
  intros Hnd Hv result. inversion Hnd as [|? ? Hnotin Hd]. subst.
  unfold merge_next in *. cbn [fold_left fst snd].
  unfold Py.get, Py.get_default in Hv. cbn [Py.lookup] in Hv.
  destruct (String.eqb_spec k k0) as [<- | Hne].
  - rewrite Hv. unfold Py.get, Py.get_default.
    now rewrite (merge_next_preserves (keys_in_own d)) by assumption.
  - rewrite IH by assumption.
    destruct (Py.truthy v0); [now apply get_set_other | reflexivity].
Qed.

(** X7: a non-empty value Layer A stored for the description, the release
    date or the languages is returned unless Layer B has a non-empty value
    for the same field: Layer C never replaces it. *)
Theorem layer_a_value_kept (url html : string) (soup : Soup) (result : dict)
    (k : string) :
  http_get L url = Ok html ->
  BeautifulSoup L html = Ok soup ->
  layer_a L html (initial_result (extract_stage_id url) url) = Ok result ->
  In k ["description"; "release_date"; "languages"] ->
  Py.truthy (Py.get k result) = true ->
  (forall next_script next_data,
     find_script_by_id soup "__NEXT_DATA__" = Some next_script ->
     script_json L next_script = Ok next_data ->
     Py.truthy (Py.get k (extract_from_next_data L next_data)) = false) ->
  Py.get k (get_stage_identity L url) = Py.get k result.
Proof.
  intros Hget Hsoup Ha Hk Hv Hb.
  destruct (run_on_parsed_page url Hget Hsoup) as (result' & Ha' & _ & _ & _ & ->).
  assert (result' = result) by congruence. subst result'.
  assert (Hks : k <> "duration" /\ k <> "success" /\ k <> "type"
                /\ k <> "episode_count" /\ k <> "landscape_poster"
                /\ k <> "portrait_poster").
  { simpl in Hk. intuition (subst; discriminate). }
  destruct Hks as (H1 & H2 & H3 & H4 & H5 & H6).
  rewrite finish_get by assumption.
  unfold merged_record.
  destruct (negb (Py.truthy (Py.get "title" result))); [|reflexivity].
  unfold merge_layers.
  assert (Hn : exists nd ne r', next_layer L soup result = (nd, ne, r')
                                /\ Py.get k (merge_next ne r') = Py.get k result).
  { unfold next_layer.
    destruct (find_script_by_id soup "__NEXT_DATA__") as [next_script|].
    - destruct (script_json L next_script) as [next_data|msg] eqn:Ej.
      + do 3 eexists. split; [reflexivity|].
        rewrite merge_next_skips.
        * now rewrite !get_set_other by assumption.
        * apply extract_from_next_data_keys.
        * now apply (Hb next_script).
      + do 3 eexists. split; reflexivity.
    - do 3 eexists. split; reflexivity. }
  destruct Hn as (nd & ne & r' & -> & Hn).
  destruct (ld_layer L soup) as [ld le].
  assert (Hm : Py.get k (merge_ld le (merge_next ne r')) = Py.get k result).
  { rewrite merge_ld_keeps; rewrite Hn; auto. }
  repeat match goal with
         | |- context [if ?b then _ else _] => destruct b
         end;
    rewrite ?get_set_other by assumption; exact Hm.
Qed.

(** X8: when Layer A left no title and the __NEXT_DATA__ script of the
    page parses, the two posters of the record are those [detect_posters]
    reads in the script: the posters Layer A found in the text of the page
    are replaced, by [None] too. *)
Theorem posters_from_next_data (url html : string) (soup : Soup)
    (next_script : Tag) (next_data : pyval) :
  http_get L url = Ok html ->
  BeautifulSoup L html = Ok soup ->
  Embedded.find_title soup Embedded.title_selectors = None ->
  find_script_by_id soup "__NEXT_DATA__" = Some next_script ->
  script_json L next_script = Ok next_data ->
  let r := get_stage_identity L url in
  Py.get "landscape_poster" r = Py.get "landscape" (detect_posters L next_data)
  /\ Py.get "portrait_poster" r = Py.get "portrait" (detect_posters L next_data).
Proof.
  intros Hget Hsoup Ht Hscript Hjson r. unfold r.
  destruct (run_on_parsed_page url Hget Hsoup) as (result & _ & Hs & _ & _ & ->).
  destruct Hs as (_ & Htitle & _).
  rewrite Ht in Htitle. simpl in Htitle.
  rewrite !finish_get by discriminate.
  unfold merged_record. rewrite Htitle. cbn [Py.truthy negb].
  unfold merge_layers, next_layer. rewrite Hscript, Hjson.
  destruct (ld_layer_spec L soup) as (ld & le & -> & Hle).
  pose proof (extract_from_next_data_keys L next_data) as [Hne _].
  set (posters := detect_posters L next_data).
  set (r0 := Py.set "portrait_poster" (Py.get "portrait" posters)
               (Py.set "landscape_poster" (Py.get "landscape" posters) result)).
  assert (Hm : forall k, k = "landscape_poster" \/ k = "portrait_poster" ->
                 Py.get k (merge_ld le (merge_next (extract_from_next_data L next_data) r0))
                 = Py.get k r0).
  { intros k Hk. unfold Py.get, Py.get_default.
    rewrite (merge_ld_preserves Hle), (merge_next_preserves Hne); auto;
      destruct Hk as [-> | ->]; simpl; intuition discriminate. }
  assert (H0 : Py.get "landscape_poster" r0 = Py.get "landscape" posters
               /\ Py.get "portrait_poster" r0 = Py.get "portrait" posters).
  { unfold r0. rewrite get_set_other by discriminate.
    now rewrite !get_set_same. }
  destruct H0 as [Hl Hp].
  split;
    repeat match goal with
           | |- context [if ?b then _ else _] => destruct b
           end;
    rewrite ?get_set_other by discriminate;
    rewrite Hm by auto; assumption.
Qed.

End RecordShape.

(* ================================================================== *)
(** * What a match of a pattern holds *)
(* ================================================================== *)

Section Matcher.

Variable ic : bool.

Lemma lit_match_sound (p : string) (k : Re.kont) :
  forall prev pos rest gs res,
    Re.lit_match ic p k prev pos rest gs = Some res ->
    exists w prev' rest',
      lit_agree ic p w /\ rest = w ++ rest'
      /\ k {| Re.m_prev := prev'; Re.m_pos := pos + String.length w;
              Re.m_rest := rest'; Re.m_groups := gs |} = Some res.
Proof.
  induction p as [|a p IH]; intros prev pos rest gs res H.
  - exists "", prev, rest. cbn in *. rewrite Nat.add_0_r. auto.
  - cbn [Re.lit_match] in H. destruct rest as [|c rest]; [discriminate|].
    destruct (Re.lit_eq ic a c) eqn:E; [|discriminate].
    apply IH in H as (w & prev' & rest' & Hw & -> & Hk).
    exists (String c w), prev', rest'. cbn [lit_agree String.length append].
    rewrite <- Nat.add_succ_comm. auto.
Qed.

Lemma at_most_zero (hi : option nat) : at_most hi 0.
Proof. destruct hi; simpl; lia. Qed.

Lemma at_most_succ (hi : option nat) (n : nat) :
  Re.hi_open hi = true -> at_most (Re.hi_pred hi) n -> at_most hi (S n).
Proof. destruct hi as [[|h]|]; simpl; try discriminate; intros; lia. Qed.

Lemma cls_rep_sound (cs : Re.cset) (greedy : bool) (k : Re.kont) :
  forall rest lo hi prev pos gs res,
    Re.cls_rep ic cs greedy lo hi k prev pos rest gs = Some res ->
    exists w prev' rest',
      (all_in ic cs w = true /\ lo <= String.length w
       /\ at_most hi (String.length w))
      /\ rest = w ++ rest'
      /\ k {| Re.m_prev := prev'; Re.m_pos := pos + String.length w;
              Re.m_rest := rest'; Re.m_groups := gs |} = Some res.
Proof.
  assert (Hstop : forall lo hi prev pos rest gs res,
             match lo with
             | O => k {| Re.m_prev := prev; Re.m_pos := pos; Re.m_rest := rest;
                         Re.m_groups := gs |}
             | S _ => None
             end = Some res ->
             exists w prev' rest',
               (all_in ic cs w = true /\ lo <= String.length w
                /\ at_most hi (String.length w))
               /\ rest = w ++ rest'
               /\ k {| Re.m_prev := prev'; Re.m_pos := pos + String.length w;
                       Re.m_rest := rest'; Re.m_groups := gs |} = Some res).
  { intros lo hi prev pos rest gs res H. destruct lo; [|discriminate].
    exists "", prev, rest. cbn. rewrite Nat.add_0_r.
    repeat split; auto. apply at_most_zero. }
  assert (Hmore : forall c rest lo hi pos gs res,
             (Re.hi_open hi && Re.cset_mem ic cs c)%bool = true ->
             (exists w prev' rest',
                 (all_in ic cs w = true /\ pred lo <= String.length w
                  /\ at_most (Re.hi_pred hi) (String.length w))
                 /\ rest = w ++ rest'
                 /\ k {| Re.m_prev := prev'; Re.m_pos := S pos + String.length w;
                         Re.m_rest := rest'; Re.m_groups := gs |} = Some res) ->
             exists w prev' rest',
               (all_in ic cs w = true /\ lo <= String.length w
                /\ at_most hi (String.length w))
               /\ String c rest = w ++ rest'
               /\ k {| Re.m_prev := prev'; Re.m_pos := pos + String.length w;
                       Re.m_rest := rest'; Re.m_groups := gs |} = Some res).
  { intros c rest lo hi pos gs res Hc (w & prev' & rest' & (H1 & H2 & H3) & -> & Hk).
    apply andb_true_iff in Hc. destruct Hc as [Ho Hm].
    exists (String c w), prev', rest'. cbn [all_in String.length append].
    rewrite Hm, H1, <- Nat.add_succ_comm. repeat split; auto; try lia.
    now apply at_most_succ. }
  induction rest as [|c rest IH]; intros lo hi prev pos gs res H.
  - cbn [Re.cls_rep] in H. eapply Hstop; exact H.
  - cbn [Re.cls_rep] in H.
    destruct (Re.hi_open hi && Re.cset_mem ic cs c)%bool eqn:Ec;
      [|eapply Hstop; exact H].
    destruct greedy.
    + destruct (Re.cls_rep ic cs true (pred lo) (Re.hi_pred hi) k (Some c)
                           (S pos) rest gs) as [r|] eqn:Er.
      * injection H as <-. apply Hmore; [exact Ec | eapply IH; exact Er].
      * eapply Hstop; exact H.
    + destruct (match lo with
                | O => k {| Re.m_prev := prev; Re.m_pos := pos;
                            Re.m_rest := String c rest; Re.m_groups := gs |}
                | S _ => None
                end) as [r|] eqn:Es.
      * injection H as <-. eapply Hstop; exact Es.
      * apply Hmore; [exact Ec | eapply IH; exact H].
Qed.

Lemma take_app (w rest : string) : Str.take (String.length w) (w ++ rest) = w.
Proof. induction w as [|c w IH]; simpl; [now destruct rest | now rewrite IH]. Qed.

(** A match of [r] in front of the continuation [k]: the matcher took a
    text of the language of [r], bound the groups of [r] to texts of their
    patterns, left the other groups as they were, and went on with [k]. *)
Lemma rmatch_sound (r : Re.regex) :
  forall k st res,
    Re.rmatch ic r k st = Some res ->
    exists w st',
      takes ic r w /\ advances w st st' /\ frame r st st'
      /\ groups_bound ic r st' /\ k st' = Some res.
Proof.
  induction r as [p|cs lo hi greedy|r1 IH1 r2 IH2|r1 IH1 r2 IH2|m r1 IH1| |];
    intros k st res H; cbn [Re.rmatch] in H.
  - apply lit_match_sound in H as (w & prev' & rest' & Hw & Hr & Hk).
    exists w, {| Re.m_prev := prev'; Re.m_pos := Re.m_pos st + String.length w;
                 Re.m_rest := rest'; Re.m_groups := Re.m_groups st |}.
    split; [exact Hw|]. split; [split; [exact Hr | reflexivity]|].
    split; [intros n _; reflexivity|]. split; [intros n g [=] | exact Hk].
  - apply cls_rep_sound in H as (w & prev' & rest' & Hw & Hr & Hk).
    exists w, {| Re.m_prev := prev'; Re.m_pos := Re.m_pos st + String.length w;
                 Re.m_rest := rest'; Re.m_groups := Re.m_groups st |}.
    split; [exact Hw|]. split; [split; [exact Hr | reflexivity]|].
    split; [intros n _; reflexivity|]. split; [intros n g [=] | exact Hk].
  - apply IH1 in H as (w1 & st1 & Hw1 & [Hr1 Hp1] & Hf1 & Hg1 & H1).
    apply IH2 in H1 as (w2 & st2 & Hw2 & [Hr2 Hp2] & Hf2 & Hg2 & H2).
    exists (w1 ++ w2), st2. split; [cbn; eauto|]. split.
    { split.
      - now rewrite Hr1, Hr2, append_assoc.
      - rewrite Hp2, Hp1, length_app. lia. }
    split.
    { intros n Hn. cbn in Hn. apply orb_false_iff in Hn. destruct Hn as [Hn1 Hn2].
      now rewrite (Hf2 n Hn2), (Hf1 n Hn1). }
    split; [|exact H2].
    intros n g Hg. cbn [group_pattern] in Hg.
    destruct (group_pattern n r2) as [g2|] eqn:E2.
    + injection Hg as <-. now apply Hg2.
    + destruct (binds n r2) eqn:Eb; [discriminate|].
      rewrite (Hf2 n Eb). now apply Hg1.
  - destruct (Re.rmatch ic r1 k st) as [res1|] eqn:E1.
    + injection H as <-.
      apply IH1 in E1 as (w & st' & Hw & Ha & Hf & _ & Hk).
      exists w, st'. split; [now left|]. split; [exact Ha|]. split.
      { intros n Hn. cbn in Hn. apply orb_false_iff in Hn. now apply Hf. }
      split; [intros n g [=] | exact Hk].
    + apply IH2 in H as (w & st' & Hw & Ha & Hf & _ & Hk).
      exists w, st'. split; [now right|]. split; [exact Ha|]. split.
      { intros n Hn. cbn in Hn. apply orb_false_iff in Hn. now apply Hf. }
      split; [intros n g [=] | exact Hk].
  - apply IH1 in H as (w & st1 & Hw & [Hr Hp] & Hf & Hg & Hk).
    exists w, (Re.bind_group m st st1). split; [exact Hw|].
    split; [split; [exact Hr | exact Hp]|]. split.
    { intros n Hn. cbn in Hn. apply orb_false_iff in Hn. destruct Hn as [Hn1 Hn2].
      cbn. rewrite Hn1. now apply Hf. }
    split; [|exact Hk].
    intros n g Hn. cbn [group_pattern] in Hn. cbn.
    destruct (Nat.eqb n m).
    + injection Hn as <-. do 2 eexists. split; [reflexivity|].
      rewrite Hr, Hp, Nat.add_comm, Nat.add_sub, take_app. exact Hw.
    + now apply Hg.
  - destruct (Re.at_word_boundary st); [|discriminate].
    exists "", st. split; [reflexivity|]. split; [split; cbn; auto|].
    split; [intros n _; reflexivity|]. split; [intros n g [=] | exact H].
  - destruct (Re.at_end st); [|discriminate].
    exists "", st. split; [reflexivity|]. split; [split; cbn; auto|].
    split; [intros n _; reflexivity|]. split; [intros n g [=] | exact H].
Qed.

(** A match at a position: its text belongs to the language of the
    pattern, and so does the text of each group to that of its pattern. *)
Lemma match_here_sound (r : Re.regex) (prev : option ascii) (pos : nat)
    (rest : string) (m : Re.rematch) :
  Re.match_here ic r prev pos rest = Some m ->
  exists w after,
    takes ic r w /\ rest = w ++ after
    /\ Re.start m = pos /\ Re.stop m = pos + String.length w
    /\ forall n g, group_pattern n r = Some g -> takes ic g (Re.group n m).
Proof.
  unfold Re.match_here.
  destruct (Re.rmatch ic r (fun st => Some st)
              {| Re.m_prev := prev; Re.m_pos := pos; Re.m_rest := rest;
                 Re.m_groups := [] |}) as [st|] eqn:E; [|discriminate].
  intros [= <-].
  apply rmatch_sound in E as (w & st' & Hw & [Hr Hp] & _ & Hg & [= ->]).
  exists w, (Re.m_rest st). cbn in *. repeat split; auto.
  intros n g Hn. destruct (Hg n g Hn) as (p & wg & Ha & Ht).
  unfold Re.group. cbn. now rewrite Ha.
Qed.

Lemma search_from_sound (r : Re.regex) (rest : string) :
  forall prev pos m,
    Re.search_from ic r prev pos rest = Some m ->
    exists prev' n,
      Re.match_here ic r prev' (pos + n) (Str.drop n rest) = Some m.
Proof.
  induction rest as [|c rest IH]; intros prev pos m H; cbn [Re.search_from] in H.
  - destruct (Re.match_here ic r prev pos "") as [m'|] eqn:E; [|discriminate].
    injection H as <-. exists prev, 0. now rewrite Nat.add_0_r.
  - destruct (Re.match_here ic r prev pos (String c rest)) as [m'|] eqn:E.
    + injection H as <-. exists prev, 0. now rewrite Nat.add_0_r.
    + apply IH in H as (prev' & n & Hm).
      exists prev', (S n). now rewrite <- Nat.add_succ_comm.
Qed.

(** [re.search]: the text of each group of the match found belongs to the
    language of the group's pattern. *)
Lemma search_group (r : Re.regex) (s : string) (m : Re.rematch)
    (n : nat) (g : Re.regex) :
  Re.search ic r s = Some m ->
  group_pattern n r = Some g ->
  takes ic g (Re.group n m).
Proof.
  intros H Hg. apply search_from_sound in H as (prev' & k & Hm).
  apply match_here_sound in Hm as (w & after & _ & _ & _ & _ & Hgs).
  now apply Hgs.
Qed.

Lemma finditer_from_sound (r : Re.regex) (rest : string) :
  forall skip prev pos m,
    In m (Re.finditer_from ic r skip prev pos rest) ->
    exists prev' n,
      Re.match_here ic r prev' (pos + n) (Str.drop n rest) = Some m.
Proof.
  induction rest as [|c rest IH]; intros skip prev pos m H.
  - destruct skip; cbn [Re.finditer_from] in H; [|contradiction].
    destruct (Re.match_here ic r prev pos "") as [m'|] eqn:E; [|contradiction].
    destruct H as [<- | []]. exists prev, 0. now rewrite Nat.add_0_r.
  - assert (Hnext : forall skip',
               In m (Re.finditer_from ic r skip' (Some c) (S pos) rest) ->
               exists prev' n,
                 Re.match_here ic r prev' (pos + n) (Str.drop n (String c rest))
                 = Some m).
    { intros skip' Hin. apply IH in Hin as (prev' & n & Hm).
      exists prev', (S n). now rewrite <- Nat.add_succ_comm. }
    destruct skip; cbn [Re.finditer_from] in H; [|now apply (Hnext skip)].
    destruct (Re.match_here ic r prev pos (String c rest)) as [m'|] eqn:E.
    + destruct H as [<- | H].
      * exists prev, 0. now rewrite Nat.add_0_r.
      * now apply (Hnext (pred (Re.stop m' - pos))).
    + now apply (Hnext 0).
Qed.

Lemma take_drop (n : nat) (s : string) : s = Str.take n s ++ Str.drop n s.
Proof.
  revert s. induction n as [|n IH]; intros [|c s]; cbn; auto.
  now rewrite <- IH.
Qed.

(** [re.findall] for a pattern without groups: each text returned belongs
    to the language of the pattern and stands in the subject. *)
Lemma findall_sound (r : Re.regex) (s u : string) :
  In u (findall ic r s) ->
  takes ic r u /\ exists before after, s = before ++ u ++ after.
Proof.
  unfold findall, Re.finditer. intros H. apply in_map_iff in H.
  destruct H as (m & <- & Hin).
  apply finditer_from_sound in Hin as (prev' & n & Hm).
  apply match_here_sound in Hm as (w & after & Hw & Hr & Hs & He & _).
  cbn in Hs, He. unfold Str.slice.
  rewrite Hs, He, Nat.add_comm, Nat.add_sub, Hr, take_app.
  split; [exact Hw|]. exists (Str.take n s), after.
  rewrite <- Hr. apply take_drop.
Qed.

End Matcher.

Lemma lit_agree_exact (p w : string) : lit_agree false p w -> w = p.
Proof.
  revert w. induction p as [|a p IH]; intros [|c w]; cbn; try tauto.
  intros [H1 H2]. unfold Str.eqb_char in H1. apply Ascii.eqb_eq in H1.
  subst. f_equal. now apply IH.
Qed.

(* ================================================================== *)
(** * The addresses the bot reads *)
(* ================================================================== *)

Section Addresses.

Lemma startswith_app (p s : string) : Str.startswith p (p ++ s) = true.
Proof.
  induction p as [|c p IH]; cbn; [now destruct s|].
  unfold Str.eqb_char. now rewrite Ascii.eqb_refl.
Qed.

Lemma contains_app (p before after : string) :
  Str.contains p (before ++ p ++ after) = true.
Proof.
  induction before as [|c before IH].
  - cbn [append]. destruct (p ++ after) eqn:E; cbn [Str.contains];
      rewrite <- E, startswith_app; reflexivity.
  - cbn [append Str.contains]. rewrite IH. apply orb_true_r.
Qed.

(** The texts of [url_pattern]. *)
Lemma takes_url (u : string) :
  takes false url_pattern u ->
  exists scheme body,
    u = scheme ++ "://" ++ body
    /\ (scheme = "http" \/ scheme = "https")
    /\ body <> ""
    /\ all_in false url_body body = true.
Proof.
  intros (w1 & x1 & -> & H1 & w2 & x2 & -> & H2 & w3 & w4 & -> & H3 & H4).
  apply lit_agree_exact in H1, H3. subst w1 w3.
  destruct H2 as (Hs & _ & Hlen). destruct H4 as (Hb & Hne & _).
  assert (Hw2 : w2 = "" \/ w2 = "s").
  { destruct w2 as [|c [|c' w2]]; [now left | right | cbn in Hlen; lia].
    cbn [all_in] in Hs. rewrite andb_true_r in Hs.
    unfold Re.cset_mem, Re.chr, Re.items_mem in Hs.
    cbn [Re.negated Re.items existsb Re.item_mem andb] in Hs.
    rewrite !orb_false_r in Hs.
    unfold Str.eqb_char in Hs. apply Ascii.eqb_eq in Hs. now subst. }
  exists ("http" ++ w2), w4. split; [now rewrite append_assoc|].
  split; [destruct Hw2 as [-> | ->]; auto|].
  split; [|exact Hb].
  intros ->. cbn in Hne. lia.
Qed.

(** X9: every address [extract_urls_from_text] returns stands in the
    message and is "http://" or "https://" followed by one or more
    characters of the class of the pattern: no white space, and none of
    the characters the pattern excludes. *)
Theorem extracted_urls_shape (text url : string) :
  In url (extract_urls_from_text text) ->
  (exists scheme body,
      url = scheme ++ "://" ++ body
      /\ (scheme = "http" \/ scheme = "https")
      /\ body <> ""
      /\ all_in false url_body body = true)
  /\ exists before after, text = before ++ url ++ after.
Proof.
  intros H. apply findall_sound in H as [Hu Hs].
  split; [now apply takes_url | exact Hs].
Qed.

(** X10: [handle_text] answers only a message that holds "stage.in" and an
    address with its scheme: an address written without "http://" or
    "https://" is never detected. *)
Theorem detection_needs_scheme (text : string) :
  stage_url_detected text = true ->
  Str.contains "stage.in" text = true
  /\ (Str.contains "http://" text = true \/ Str.contains "https://" text = true).
Proof.
  unfold stage_url_detected. intros H. apply andb_true_iff in H.
  destruct H as [Hs Hf]. split; [exact Hs|].
  destruct (filter validate_stage_url (extract_urls_from_text text))
    as [|url rest] eqn:E; [discriminate|].
  assert (Hin : In url (extract_urls_from_text text)).
  { apply (proj1 (filter_In validate_stage_url url (extract_urls_from_text text))).
    rewrite E. now left. }
  apply findall_sound in Hin as [Hu (before & after & ->)].
  apply takes_url in Hu as (scheme & body & -> & [-> | ->] & _); [left | right].
  - change (("http" ++ "://" ++ body) ++ after)
      with ("http://" ++ body ++ after).
    apply contains_app.
  - change (("https" ++ "://" ++ body) ++ after)
      with ("https://" ++ body ++ after).
    apply contains_app.
Qed.

(** X11: an address that holds "stage.in" (in any case) and from which
    [extract_stage_id] reads an identifier is valid for
    [validate_stage_url]: the hyphen before the identifier is enough. *)
Theorem identified_url_is_valid (url d : string) :
  Str.contains "stage.in" (Str.lower url) = true ->
  extract_stage_id url = Some d ->
  validate_stage_url url = true.
Proof.
  intros Hs Hid. unfold validate_stage_url. rewrite Hs. cbn [andb].
  rewrite extract_stage_id_find_id in Hid.
  apply find_id_sound in Hid as (_ & _ & p & [-> | ->]);
    rewrite contains_app; now rewrite orb_true_r.
Qed.

End Addresses.

(* ================================================================== *)
(** * Posters and episode counts *)
(* ================================================================== *)

Section Posters.

Variable L : Libraries.

Import PyFacts.

Lemma takes_extension (w : string) :
  takes false (Re.Alt (Re.Lit "webp") (Re.Alt (Re.Lit "jpg") (Re.Lit "jpeg"))) w ->
  In w image_extensions.
Proof.
  intros [H | [H | H]]; apply lit_agree_exact in H; subst; simpl; auto.
Qed.

Lemma unquote_extension (ext : string) :
  In ext image_extensions -> unquote (VStr ext) = VStr ext.
Proof. intros [<- | [<- | [<- | []]]]; reflexivity. Qed.

Lemma first_poster_extension (keywords : list string) (others : list Re.regex)
    (media : string) :
  existsb (fun keyword => searches false (stage_image keyword) media) keywords
  = true ->
  exists ext,
    In ext image_extensions
    /\ first_poster (map stage_image keywords ++ others) media = VStr ext.
Proof.
  induction keywords as [|keyword keywords IH]; [discriminate|].
  cbn [existsb map List.app first_poster]. unfold searches at 1.
  destruct (Re.search false (stage_image keyword) media) as [m|] eqn:E.
  - intros _. exists (Re.group 1 m). split; [|reflexivity].
    apply takes_extension.
    exact (@search_group false _ _ _ 1 _ E eq_refl).
  - exact IH.
Qed.

(** X12: when one of the three address-shaped patterns of an orientation
    matches the serialized tree, the poster [detect_posters] returns for
    that orientation is the text of the pattern's only group, the file
    extension "webp", "jpg" or "jpeg", not the address of the image. *)
Theorem url_poster_is_extension (next_json : pyval) :
  let media := json_dumps L next_json in
  let posters := detect_posters L next_json in
  (existsb (fun keyword => searches false (stage_image keyword) media)
           ["horizontal"; "landscape"; "wide"] = true ->
   exists ext, In ext image_extensions /\ Py.get "landscape" posters = VStr ext)
  /\ (existsb (fun keyword => searches false (stage_image keyword) media)
              ["vertical"; "portrait"; "tall"] = true ->
      exists ext, In ext image_extensions /\ Py.get "portrait" posters = VStr ext).
Proof.
  cbv zeta. unfold detect_posters. split; intros H.
  - destruct (first_poster_extension _
                [json_string_field "horizontalThumbnail";
                 json_string_field "largeThumbnail"] _ H) as (ext & Hin & He).
    exists ext. split; [exact Hin|].
    change (Py.get "landscape" _) with (unquote (first_poster landscape_patterns
                                                   (json_dumps L next_json))).
    change landscape_patterns
      with (map stage_image ["horizontal"; "landscape"; "wide"]
            ++ [json_string_field "horizontalThumbnail";
                json_string_field "largeThumbnail"])%list.
    rewrite He. now apply unquote_extension.
  - destruct (first_poster_extension _
                [json_string_field "verticalThumbnail"] _ H) as (ext & Hin & He).
    exists ext. split; [exact Hin|].
    change (Py.get "portrait" _) with (unquote (first_poster portrait_patterns
                                                  (json_dumps L next_json))).
    change portrait_patterns
      with (map stage_image ["vertical"; "portrait"; "tall"]
            ++ [json_string_field "verticalThumbnail"])%list.
    rewrite He. now apply unquote_extension.
Qed.

End Posters.

Section Counts.

Variable L : Libraries.

Import PyFacts.

Lemma digit_mem_ignorecase (c : ascii) :
  Re.cset_mem true Re.digit c = Str.is_digit c.
Proof. destruct c as [[] [] [] [] [] [] [] []]; reflexivity. Qed.

Lemma all_in_digits (ic : bool) (w : string) :
  all_in ic Re.digit w = true -> Str.all_digits w = true.
Proof.
  induction w as [|c w IH]; cbn [all_in Str.all_digits]; auto.
  intros H. apply andb_true_iff in H. destruct H as [Hc Hw].
  rewrite IH by assumption.
  destruct ic; [rewrite digit_mem_ignorecase in Hc | rewrite digit_mem in Hc];
    now rewrite Hc.
Qed.

Lemma py_int_nonneg (s : string) (n : Z) :
  Str.all_digits s = true -> py_int L s = Ok n -> (0 <= n)%Z.
Proof.
  intros Hd. unfold py_int.
  destruct (int_max_str_digits L) as [limit|];
    [destruct (Nat.ltb limit (String.length s)); [discriminate|]|];
    intros [= <-]; apply digits_value_nonneg; auto; lia.
Qed.

(** The number read by a list of patterns whose group 1 is [(\d+)]. *)
Lemma scan_episodes_nonneg (patterns : list Re.regex) (text : string) (n : Z) :
  Forall (fun pattern => group_pattern 1 pattern = Some (Re.plus Re.digit))
         patterns ->
  scan_episodes L patterns text = Some n -> (0 <= n)%Z.
Proof.
  induction 1 as [|pattern rest Hp Hrest IH]; cbn [scan_episodes];
    [discriminate|].
  destruct (Re.search true pattern text) as [m|] eqn:E; [|exact IH].
  destruct (py_int L (Re.group 1 m)) as [k|msg] eqn:Ek; [|exact IH].
  intros [= <-]. eapply py_int_nonneg; [|exact Ek].
  eapply search_group in E; [|exact Hp].
  eapply all_in_digits. apply E.
Qed.

Lemma extract_episode_count_nonneg (next_json ld_data : pyval) :
  extract_episode_count L next_json ld_data = VNone
  \/ exists n, extract_episode_count L next_json ld_data = VInt n /\ (0 <= n)%Z.
Proof.
  unfold extract_episode_count.
  destruct (scan_episodes L (episode_patterns)
              (json_dumps L next_json ++ json_dumps L ld_data)) as [n|] eqn:E;
    [right | now left].
  exists n. split; [reflexivity|].
  eapply scan_episodes_nonneg; [|exact E].
  repeat constructor.
Qed.

(** X13: the episode count of every record [get_stage_identity] returns
    is [None] or an integer that is not negative: it is the number
    [extract_episode_count] reads in the scripts of the page, and the count
    Layer A found is never copied. *)
Theorem episode_count_is_a_count (url : string) :
  Py.get "episode_count" (get_stage_identity L url) = VNone
  \/ exists n,
       Py.get "episode_count" (get_stage_identity L url) = VInt n /\ (0 <= n)%Z.
Proof.
  unfold get_stage_identity.
  destruct (get_stage_identity_body_cases L url)
    as [(e & _ & ->) | [(html & e & _ & _ & ->)
                       | (html & soup & result & _ & _ & _ & Hs & ->)]];
    try (now left).
  rewrite finish_get by discriminate.
  destruct Hs as (_ & _ & _ & Hep & _).
  unfold merged_record.
  destruct (negb (Py.truthy (Py.get "title" result))); [|now left].
  unfold merge_layers.
  destruct (next_layer_spec L soup result) as (nd & ne & r' & -> & Hne & Hr').
  destruct (ld_layer_spec L soup) as (ld & le & -> & Hle).
  set (merged := merge_ld le (merge_next ne r')).
  assert (Hm : forall typed,
             (typed = merged \/ exists v, typed = Py.set "type" v merged) ->
             Py.get "episode_count" typed = VNone).
  { intros typed [-> | [v ->]]; [|rewrite get_set_other by discriminate];
      unfold merged, Py.get, Py.get_default;
      rewrite (merge_ld_preserves Hle), (merge_next_preserves Hne), Hr';
      try discriminate; try exact Hep; simpl; intuition discriminate. }
  match goal with
  | |- context [if Py.eq_str (Py.get "type" ?typed) "Series" then _ else _] =>
      assert (Ht : Py.get "episode_count" typed = VNone)
        by (apply Hm; destruct (negb (Py.truthy (Py.get "type" merged))); eauto);
      destruct (Py.eq_str (Py.get "type" typed) "Series")
  end.
  - rewrite get_set_same. apply extract_episode_count_nonneg.
  - now left.
Qed.

End Counts.

(* ================================================================== *)
(** * What Layer A stores *)
(* ================================================================== *)

Section EmbeddedFields.

Variable L : Libraries.

Import PyFacts.

Ltac skip_step lemma :=
  rewrite (writes_other _ lemma) by discriminate.

Lemma set_poster_address (key dir html_content : string) :
  writes key (poster_address dir) (Embedded.set_poster key dir html_content).
Proof.
  intros d. unfold Embedded.set_poster.
  destruct (Re.search false (Embedded.poster_pattern dir) html_content)
    as [m|] eqn:E; [right | now left].
  exists (VStr (Re.group 1 m)). split; [|reflexivity].
  pose proof (@search_group false _ _ _ 1 _ E eq_refl) as Hg.
  destruct Hg as (w1 & x1 & -> & H1 & w2 & x2 & -> & H2 & w3 & w4 & -> & H3 & H4).
  apply lit_agree_exact in H1, H3. subst w1 w3.
  destruct H2 as (Hb & _). apply takes_extension in H4.
  exists w2, w4. rewrite !append_assoc. auto.
Qed.

(** X14: a poster [extract_embedded_data] stores is the whole address of
    the image: "https://media.stage.in/episode/horizontal/" (or
    ".../vertical/"), characters other than the double quote, a dot and one
    of the extensions "webp", "jpg", "jpeg". *)
Theorem embedded_poster_is_address (html_content : string) (v : pyval) :
  (Py.lookup "horizontalThumbnail" (extract_embedded_data L html_content) = Some v ->
   poster_address "horizontal" v)
  /\ (Py.lookup "verticalThumbnail" (extract_embedded_data L html_content) = Some v ->
      poster_address "vertical" v).
Proof.
  unfold extract_embedded_data.
  destruct (BeautifulSoup L html_content) as [soup|msg]; [|split; discriminate].
  cbv zeta.
  assert (Hno : forall k, k <> "type" -> k <> "episode_count" -> k <> "title" ->
                  k <> "description" -> k <> "duration" -> k <> "yearOfRelease" ->
                  k <> "dialect" -> k <> "genre" ->
                  Py.lookup k
                    (set_episode_count L html_content
                       (Embedded.scan_genre Embedded.genre_patterns html_content
                          (Embedded.scan_language Embedded.lang_patterns html_content
                             (Embedded.scan_year Embedded.year_patterns html_content
                                (Embedded.set_duration html_content
                                   (Embedded.set_description soup
                                      (Embedded.set_title soup
                                         (Embedded.classify html_content []))))))))
                  = None).
  { intros k H1 H2 H3 H4 H5 H6 H7 H8.
    rewrite (writes_other _ (set_episode_count_writes L html_content)) by assumption.
    rewrite (writes_other _ (scan_genre_writes Embedded.genre_patterns html_content))
      by assumption.
    rewrite (writes_other _ (scan_language_writes Embedded.lang_patterns html_content))
      by assumption.
    rewrite (writes_other _ (scan_year_writes Embedded.year_patterns html_content))
      by assumption.
    rewrite (writes_other _ (set_duration_writes html_content)) by assumption.
    rewrite (writes_other _ (set_description_writes soup)) by assumption.
    rewrite (writes_other _ (set_title_writes soup)) by assumption.
    now apply classify_no_key. }
  split.
  - skip_step (set_poster_writes "verticalThumbnail" "vertical" html_content).
    match goal with
    | |- Py.lookup _ (Embedded.set_poster _ _ _ ?d) = _ -> _ =>
        destruct (writes_same d
                    (set_poster_address "horizontalThumbnail" "horizontal"
                       html_content)) as [E | (v' & Hv & E)]; rewrite E
    end.
    + rewrite Hno by discriminate. discriminate.
    + now intros [= <-].
  - match goal with
    | |- Py.lookup _ (Embedded.set_poster _ _ _ ?d) = _ -> _ =>
        destruct (writes_same d
                    (set_poster_address "verticalThumbnail" "vertical"
                       html_content)) as [E | (v' & Hv & E)]; rewrite E
    end.
    + skip_step (set_poster_writes "horizontalThumbnail" "horizontal" html_content).
      rewrite Hno by discriminate. discriminate.
    + now intros [= <-].
Qed.

End EmbeddedFields.

(* ================================================================== *)
(** * The functions the layers are made of *)
(* ================================================================== *)

Section Functions.

Variable L : Libraries.

Import PyFacts.

Lemma as_content_some (v : pyval) (d : dict) :
  as_content v = Some d -> v = VDict d /\ is_content d.
Proof.
  destruct v; cbn [as_content]; try discriminate.
  destruct (Py.in_strs (Py.get "type" d0) content_types) eqn:E; [|discriminate].
  intros [= <-]. auto.
Qed.

Lemma first_content_some (items : list pyval) (d : dict) :
  first_content items = Some d -> In (VDict d) items /\ is_content d.
Proof.
  induction items as [|item rest IH]; cbn [first_content]; [discriminate|].
  destruct (as_content item) as [d'|] eqn:E.
  - intros [= <-]. apply as_content_some in E as [-> H]. simpl. auto.
  - intros H. apply IH in H as [H1 H2]. simpl. auto.
Qed.

Lemma find_nested_cases (items : dict) :
  find_nested items = []
  \/ (is_content (find_nested items)
      /\ exists k,
           In (k, VDict (find_nested items)) items
           \/ exists l, In (k, VList l) items /\ In (VDict (find_nested items)) l).
Proof.
  induction items as [|[k value] rest IH]; [now left|].
  cbn [find_nested].
  assert (Hrest : find_nested rest = []
                  \/ (is_content (find_nested rest)
                      /\ exists k0,
                           In (k0, VDict (find_nested rest)) ((k, value) :: rest)
                           \/ exists l, In (k0, VList l) ((k, value) :: rest)
                                        /\ In (VDict (find_nested rest)) l)).
  { destruct IH as [IH | (H1 & k0 & [H2 | (l & H2 & H3)])]; [now left | |];
      right; (split; [exact H1|]); exists k0; [left | right].
    - now right.
    - exists l. split; [now right | exact H3]. }
  destruct (as_content value) as [d|] eqn:E.
  - apply as_content_some in E as [-> H]. right. split; [exact H|].
    exists k. left. now left.
  - destruct value; try exact Hrest.
    destruct (first_content l) as [d|] eqn:El; [|exact Hrest].
    apply first_content_some in El as [H1 H2]. right. split; [exact H2|].
    exists k. right. exists l. split; [now left | exact H1].
Qed.

(** X15: [find_movie_data] returns the empty dict, or a dict whose type is
    "movie", "individual" or "series" and which is the data itself, one of
    its values, or an item of a list among its values: it looks one level
    down and no further.  Applied to its own result, it returns it. *)
Theorem find_movie_data_one_level (data : pyval) :
  let d := find_movie_data data in
  (d = [] \/ (is_content d /\ one_level_down data d))
  /\ find_movie_data (VDict d) = d.
Proof.
  cbv zeta.
  assert (H : find_movie_data data = []
              \/ (is_content (find_movie_data data)
                  /\ one_level_down data (find_movie_data data))).
  { unfold find_movie_data. destruct data; try (now left).
    destruct (Py.in_strs (Py.get "type" d) content_types) eqn:E.
    - right. split; [exact E | now left].
    - destruct (find_nested_cases d) as [H | (H1 & k & H2)]; [now left|].
      right. split; [exact H1|]. right. exists d, k. split; [reflexivity|].
      exact H2. }
  split; [exact H|].
  destruct H as [-> | [H _]]; [reflexivity|].
  unfold is_content in H. cbn [find_movie_data]. now rewrite H.
Qed.

Lemma scan_sources_cases (sources : list pyval) :
  forall content_data,
    scan_sources sources content_data = content_data
    \/ is_content_data (scan_sources sources content_data).
Proof.
  assert (Hitem : forall items item,
             first_movie_item items = Some item -> is_content_data item).
  { induction items as [|item0 rest IH]; cbn [first_movie_item]; [discriminate|].
    intros item. destruct item0; auto.
    destruct (Py.eq_str (Py.get "type" d) "movie") eqn:E; auto.
    intros [= <-]. apply eq_str_true in E. exists d. auto. }
  induction sources as [|source rest IH]; intros content_data; [now left|].
  cbn [scan_sources]. destruct source; auto.
  destruct (Py.eq_str (Py.get "type" d) "movie"
            || Py.eq_str (Py.get "type" d) "show")%bool eqn:E.
  - right. exists d. split; [reflexivity|].
    apply orb_true_iff in E. destruct E as [E | E]; apply eq_str_true in E; auto.
  - destruct (Py.lookup "content" d) as [[| | | | |items|]|]; auto.
    destruct (first_movie_item items) as [item|] eqn:Ei; auto.
    destruct (IH item) as [-> | H]; auto.
    right. now apply (Hitem items).
Qed.

Lemma scan_movie_patterns_idle (patterns : list (string * Re.regex))
    (json_text : string) :
  Forall (fun pattern => field_name_of (fst pattern) = "type") patterns ->
  forall extracted,
    scan_movie_patterns L patterns json_text extracted = Running extracted.
Proof.
  induction 1 as [|[text pattern] rest Hp Hrest IH]; intros extracted;
    cbn [scan_movie_patterns]; [reflexivity|].
  destruct (Re.search false pattern json_text) as [m|]; [|apply IH].
  cbn [fst] in Hp. rewrite Hp. unfold store_field. cbn [String.eqb Ascii.eqb Bool.eqb].
  cbn [and_then]. apply IH.
Qed.

(** X16: [extract_from_next_data] returns something only when it found a
    content object, a dict of type "movie" or "show" at one of the places
    it looks in.  The five [movie_patterns] never add a field: the name
    [pattern.split] cuts out of each of them is "type", which no branch of
    lines 240-257 tests for. *)
Theorem next_data_needs_content_object (next_json : pyval) :
  extract_from_next_data L next_json <> [] ->
  exists sources,
    data_sources next_json = Ok sources
    /\ is_content_data (scan_sources sources VNone).
Proof.
  unfold extract_from_next_data.
  destruct (data_sources next_json) as [sources|msg]; [|intros H; now elim H].
  intros H. exists sources. split; [reflexivity|].
  destruct (scan_sources_cases sources VNone) as [E | E]; [|exact E].
  rewrite E in H. cbn [Py.truthy negb] in H.
  rewrite scan_movie_patterns_idle in H.
  - now elim H.
  - repeat constructor.
Qed.

Lemma split_head (sep : ascii) (s : string) :
  forall cur,
    exists d,
      hd "" (Str.split_acc sep cur s) = Str.rev_onto cur d
      /\ Str.contains (String sep "") d = false
      /\ (s = d \/ exists t, s = d ++ String sep t).
Proof.
  induction s as [|c s IH]; intros cur; cbn [Str.split_acc].
  - exists "". auto.
  - destruct (Str.eqb_char c sep) eqn:E.
    + exists "". repeat split; auto. right. exists s.
      unfold Str.eqb_char in E. apply Ascii.eqb_eq in E. now subst.
    + destruct (IH (String c cur)) as (d & H1 & H2 & H3).
      exists (String c d). split; [exact H1|]. split.
      * cbn [Str.contains Str.startswith]. rewrite H2.
        unfold Str.eqb_char in *. rewrite Ascii.eqb_sym, E. reflexivity.
      * destruct H3 as [-> | (t & ->)]; [now left | right; now exists t].
Qed.

(** X17: the release date of Layer C is the text of "uploadDate" up to
    its first "T", which it does not hold.  An "uploadDate" that is not
    empty and not a string stops the extraction: the title and the
    description are returned, and no other field. *)
Theorem ld_json_upload_date (ld : dict) :
  (forall s, Py.get "uploadDate" ld = VStr s -> s <> "" ->
     exists d,
       Py.get "release_date" (extract_from_ld_json L (VDict ld)) = VStr d
       /\ Str.contains "T" d = false
       /\ (s = d \/ exists t, s = d ++ "T" ++ t))
  /\ (Py.truthy (Py.get "uploadDate" ld) = true ->
      (forall s, Py.get "uploadDate" ld <> VStr s) ->
      extract_from_ld_json L (VDict ld)
      = [("title", Py.get "name" ld); ("description", Py.get "description" ld)]).
Proof.
  assert (Hd : Py.truthy (Py.get "uploadDate" ld) = true ->
               Py.get_default "uploadDate" (VStr "") ld = Py.get "uploadDate" ld).
  { unfold Py.get, Py.get_default.
    destruct (Py.lookup "uploadDate" ld); [reflexivity | discriminate]. }
  split.
  - intros s Hs Hne.
    assert (Ht : Py.truthy (Py.get "uploadDate" ld) = true).
    { rewrite Hs. destruct s; [contradiction | reflexivity]. }
    cbn [extract_from_ld_json]. rewrite Ht, (Hd Ht), Hs. cbn [date_part].
    destruct (split_head "T" s "") as (d & H1 & H2 & H3).
    exists d. split; [|split; [exact H2 | exact H3]].
    rewrite !get_set_other by discriminate. rewrite get_set_same.
    unfold Str.split. now rewrite H1.
  - intros Ht Hns. cbn [extract_from_ld_json]. rewrite Ht, (Hd Ht).
    destruct (Py.get "uploadDate" ld) eqn:E; try reflexivity.
    now elim (Hns s).
Qed.

Lemma append_not_empty (a : string) (c : ascii) (b : string) :
  Str.is_empty (a ++ String c b) = false.
Proof. destruct a; reflexivity. Qed.

(** X18: [convert_duration] returns [None] for every empty argument
    ([None], the empty string, zero, an empty list or dict) and a
    non-empty value for every other one; an argument that is not a string
    and not empty is returned as it came. *)
Theorem convert_duration_emptiness (v : pyval) :
  (Py.truthy v = false -> convert_duration L v = VNone)
  /\ Py.truthy (convert_duration L v) = Py.truthy v
  /\ (Py.truthy v = true -> (forall s, v <> VStr s) -> convert_duration L v = v).
Proof.
  unfold convert_duration. destruct (Py.truthy v) eqn:E; cbn [negb].
  - split; [discriminate|]. split.
    + destruct v; auto.
      destruct (parse_duration L s); auto.
      unfold hours_minutes_text.
      destruct (0 <? whole_minutes L a / 60)%Z; cbn [Py.truthy];
        rewrite <- ?append_assoc, append_not_empty; reflexivity.
    + intros _ Hs. destruct v; auto. now elim (Hs s).
  - split; [reflexivity|]. split; [reflexivity | discriminate].
Qed.

(** Line 420 writes the value of Layer C where the record has none. *)
Lemma merge_ld_writes (ld_extracted : dict) (k : string) (v : pyval) :
  NoDup (map fst ld_extracted) ->
  Py.lookup k ld_extracted = Some v ->
  Py.truthy v = true ->
  forall result,
    Py.truthy (Py.get k result) = false ->
    Py.get k (merge_ld ld_extracted result) = v.
Proof.
  induction ld_extracted as [|[k0 v0] d IH]; simpl; [discriminate|].
  intros Hnd Hl Hv result Hr. inversion Hnd as [|? ? Hnotin Hd]. subst.
  unfold merge_ld in *. simpl.
  destruct (String.eqb_spec k k0) as [<- | Hne].
  - injection Hl as ->. rewrite Hv, Hr. cbn [andb negb].
    unfold Py.get, Py.get_default.
    rewrite (merge_ld_preserves (keys_in_own d)) by assumption.
    now rewrite lookup_set_same.
  - apply IH; auto.
    destruct (Py.truthy v0 && negb (Py.truthy (Py.get k0 result)))%bool;
      [now rewrite get_set_other | exact Hr].
Qed.

Lemma extract_from_ld_json_tidy (ld_data : pyval) :
  NoDup (map fst (extract_from_ld_json L ld_data)).
Proof. apply extract_from_ld_json_keys. Qed.

(** X19: when Layer A left no title, a field that Layer A and Layer B
    both left empty takes the non-empty value Layer C has for it. *)
Theorem layer_c_fills_gap (url html : string) (soup : Soup) (result : dict)
    (ld_script : Tag) (ld_data : pyval) (k : string) (v : pyval) :
  http_get L url = Ok html ->
  BeautifulSoup L html = Ok soup ->
  layer_a L html (initial_result (extract_stage_id url) url) = Ok result ->
  Py.truthy (Py.get "title" result) = false ->
  In k ["title"; "description"; "release_date"; "genre"; "languages"] ->
  Py.truthy (Py.get k result) = false ->
  (forall next_script next_data,
     find_script_by_id soup "__NEXT_DATA__" = Some next_script ->
     script_json L next_script = Ok next_data ->
     Py.truthy (Py.get k (extract_from_next_data L next_data)) = false) ->
  find_script_by_type soup "application/ld+json" = Some ld_script ->
  script_json L ld_script = Ok ld_data ->
  Py.lookup k (extract_from_ld_json L ld_data) = Some v ->
  Py.truthy v = true ->
  Py.get k (get_stage_identity L url) = v.
Proof.
  intros Hget Hsoup Ha Ht Hk Hr Hb Hscript Hjson Hl Hv.
  destruct (run_on_parsed_page L url Hget Hsoup)
    as (result' & Ha' & _ & _ & _ & ->).
  assert (result' = result) by congruence. subst result'.
  assert (Hks : k <> "duration" /\ k <> "success" /\ k <> "type"
                /\ k <> "episode_count" /\ k <> "landscape_poster"
                /\ k <> "portrait_poster").
  { simpl in Hk. intuition (subst; discriminate). }
  destruct Hks as (H1 & H2 & H3 & H4 & H5 & H6).
  rewrite finish_get by assumption.
  unfold merged_record. rewrite Ht. cbn [negb].
  unfold merge_layers, ld_layer. rewrite Hscript, Hjson.
  assert (Hn : exists nd ne r', next_layer L soup result = (nd, ne, r')
                                /\ Py.get k (merge_next ne r') = Py.get k result).
  { unfold next_layer.
    destruct (find_script_by_id soup "__NEXT_DATA__") as [next_script|].
    - destruct (script_json L next_script) as [next_data|msg] eqn:Ej.
      + do 3 eexists. split; [reflexivity|].
        rewrite merge_next_skips.
        * now rewrite !get_set_other by assumption.
        * apply extract_from_next_data_keys.
        * now apply (Hb next_script).
      + do 3 eexists. split; reflexivity.
    - do 3 eexists. split; reflexivity. }
  destruct Hn as (nd & ne & r' & -> & Hn).
  assert (Hm : Py.get k (merge_ld (extract_from_ld_json L ld_data) (merge_next ne r'))
               = v).
  { apply merge_ld_writes; auto.
    - apply extract_from_ld_json_tidy.
    - now rewrite Hn. }
  repeat match goal with
         | |- context [if ?b then _ else _] => destruct b
         end;
    rewrite ?get_set_other by assumption; exact Hm.
Qed.

End Functions.

Section EmbeddedValues.

Variable L : Libraries.

Import PyFacts.

Ltac skip_step lemma :=
  rewrite (writes_other _ lemma) by discriminate.

Lemma written_by (key : string) (P : pyval -> Prop) (f : dict -> dict)
    (d : dict) (v : pyval) :
  writes key P f -> Py.lookup key d = None ->
  Py.lookup key (f d) = Some v -> P v.
Proof.
  intros Hw Hd Hv. destruct (writes_same d Hw) as [E | (v' & Hp & E)];
    rewrite E in Hv; [congruence|]. now injection Hv as <-.
Qed.

Lemma set_title_acceptable (soup : Soup) :
  writes "title" acceptable_title (Embedded.set_title soup).
Proof.
  intros d. unfold Embedded.set_title.
  destruct (Embedded.find_title soup Embedded.title_selectors) as [title|] eqn:E;
    [right | now left].
  exists (VStr title). split; [|reflexivity].
  apply find_title_acceptable in E as [H1 H2].
  exists title. repeat split; auto. intros ->. discriminate.
Qed.

Lemma find_description_long (soup : Soup) (selectors : list string) (desc : string) :
  Embedded.find_description soup selectors = Some desc ->
  50 < String.length desc.
Proof.
  induction selectors as [|selector rest IH]; simpl; [discriminate|].
  destruct (select_one soup selector) as [element|]; auto.
  destruct (negb (Str.is_empty (Embedded.desc_of_element element))
            && Nat.ltb 50 (String.length (Embedded.desc_of_element element)))%bool
    eqn:E; auto.
  intros [= <-]. apply andb_true_iff in E. destruct E as [_ E].
  now apply Nat.ltb_lt.
Qed.

Lemma set_description_long (soup : Soup) :
  writes "description" long_description (Embedded.set_description soup).
Proof.
  intros d. unfold Embedded.set_description.
  destruct (Embedded.find_description soup Embedded.desc_selectors)
    as [desc|] eqn:E; [right | now left].
  exists (VStr desc). split; [|reflexivity].
  exists desc. split; [reflexivity|]. now apply find_description_long in E.
Qed.

Lemma scan_year_range (patterns : list Re.regex) (html_content : string) :
  writes "yearOfRelease" year_in_range
         (Embedded.scan_year patterns html_content).
Proof.
  induction patterns as [|pattern rest IH]; intros d; simpl.
  - now left.
  - destruct (Re.search false pattern html_content) as [m|]; [|apply IH].
    match goal with |- context [if ?b then _ else _] => destruct b eqn:E end;
      [right | apply IH].
    eexists. split; [|reflexivity].
    apply andb_true_iff in E. destruct E as [E1 E2].
    apply Z.leb_le in E1, E2. eexists. split; [reflexivity | lia].
Qed.

Lemma scan_language_letters (patterns : list Re.regex) (html_content : string) :
  Forall (fun pattern => group_pattern 1 pattern = Some (Re.plus Re.alpha))
         patterns ->
  writes "dialect" lowered_word (Embedded.scan_language patterns html_content).
Proof.
  induction 1 as [|pattern rest Hp Hrest IH]; intros d; simpl.
  - now left.
  - destruct (Re.search false pattern html_content) as [m|] eqn:Em; [|apply IH].
    match goal with |- context [if ?b then _ else _] => destruct b eqn:E end;
      [right | apply IH].
    eexists. split; [|reflexivity].
    exists (Re.group 1 m). split; [reflexivity|].
    split; [now apply Nat.ltb_lt|].
    pose proof (@search_group false _ _ _ 1 _ Em Hp) as Hg. apply Hg.
Qed.

(** X20: what [extract_embedded_data] stores obeys the tests of its
    loops: a title is a non-empty string other than "STAGE", a description
    a string of more than 50 characters, a year of release an integer
    from 1900 to 2030, and a dialect the lower case of a word of more than
    two letters A-Z or a-z. *)
Theorem embedded_data_fields (html_content : string) (v : pyval) :
  let d := extract_embedded_data L html_content in
  (Py.lookup "title" d = Some v -> acceptable_title v)
  /\ (Py.lookup "description" d = Some v -> long_description v)
  /\ (Py.lookup "yearOfRelease" d = Some v -> year_in_range v)
  /\ (Py.lookup "dialect" d = Some v -> lowered_word v).
Proof.
  cbv zeta. unfold extract_embedded_data.
  destruct (BeautifulSoup L html_content) as [soup|msg];
    [|repeat split; discriminate].
  cbv zeta.
  split; [|split; [|split]].
  - skip_step (set_poster_writes "verticalThumbnail" "vertical" html_content).
    skip_step (set_poster_writes "horizontalThumbnail" "horizontal" html_content).
    skip_step (set_episode_count_writes L html_content).
    skip_step (scan_genre_writes Embedded.genre_patterns html_content).
    skip_step (scan_language_writes Embedded.lang_patterns html_content).
    skip_step (scan_year_writes Embedded.year_patterns html_content).
    skip_step (set_duration_writes html_content).
    skip_step (set_description_writes soup).
    apply written_by; [apply set_title_acceptable|].
    apply classify_no_key; discriminate.
  - skip_step (set_poster_writes "verticalThumbnail" "vertical" html_content).
    skip_step (set_poster_writes "horizontalThumbnail" "horizontal" html_content).
    skip_step (set_episode_count_writes L html_content).
    skip_step (scan_genre_writes Embedded.genre_patterns html_content).
    skip_step (scan_language_writes Embedded.lang_patterns html_content).
    skip_step (scan_year_writes Embedded.year_patterns html_content).
    skip_step (set_duration_writes html_content).
    apply written_by; [apply set_description_long|].
    skip_step (set_title_writes soup).
    apply classify_no_key; discriminate.
  - skip_step (set_poster_writes "verticalThumbnail" "vertical" html_content).
    skip_step (set_poster_writes "horizontalThumbnail" "horizontal" html_content).
    skip_step (set_episode_count_writes L html_content).
    skip_step (scan_genre_writes Embedded.genre_patterns html_content).
    skip_step (scan_language_writes Embedded.lang_patterns html_content).
    apply written_by; [apply scan_year_range|].
    skip_step (set_duration_writes html_content).
    skip_step (set_description_writes soup).
    skip_step (set_title_writes soup).
    apply classify_no_key; discriminate.
  - skip_step (set_poster_writes "verticalThumbnail" "vertical" html_content).
    skip_step (set_poster_writes "horizontalThumbnail" "horizontal" html_content).
    skip_step (set_episode_count_writes L html_content).
    skip_step (scan_genre_writes Embedded.genre_patterns html_content).
    apply written_by; [apply scan_language_letters; repeat constructor|].
    skip_step (scan_year_writes Embedded.year_patterns html_content).
    skip_step (set_duration_writes html_content).
    skip_step (set_description_writes soup).
    skip_step (set_title_writes soup).
    apply classify_no_key; discriminate.
Qed.

End EmbeddedValues.

(* ================================================================== *)
(** * What Layer B reads *)
(* ================================================================== *)

Section LayerB.

Variable L : Libraries.

Import PyFacts.

Lemma and_then_get (p : progress) (f : dict -> progress) (k : string) (v : pyval) :
  Py.get k (extracted_of p) = v ->
  (forall d, Py.get k d = v -> Py.get k (extracted_of (f d)) = v) ->
  Py.get k (extracted_of (and_then p f)) = v.
Proof. destruct p; simpl; auto. Qed.

Lemma unless_set_other (key k : string) (value : pyval) (extracted : dict) :
  k <> key -> Py.get k (unless_set key value extracted) = Py.get k extracted.
Proof.
  intros H. unfold unless_set.
  destruct (negb (Py.truthy (Py.get key extracted))); auto.
  now apply get_set_other.
Qed.

(** X21: when [extract_from_next_data] finds a content object, the title
    and the description it returns are those of the object, and its release
    date is the text of the object's "yearOfRelease", the empty text when
    the object has none: nothing read before can stand in their place. *)
Theorem next_data_reads_content_object (next_json : pyval)
    (sources : list pyval) (content_data : dict) :
  data_sources next_json = Ok sources ->
  scan_sources sources VNone = VDict content_data ->
  content_data <> [] ->
  let extracted := extract_from_next_data L next_json in
  Py.get "title" extracted = Py.get "title" content_data
  /\ Py.get "description" extracted = Py.get "description" content_data
  /\ Py.get "release_date" extracted
     = VStr (py_str L (Py.get_default "yearOfRelease" (VStr "") content_data)).
Proof.
  intros Hs Hc Hne. cbv zeta. unfold extract_from_next_data. rewrite Hs, Hc.
  assert (Ht : Py.truthy (VDict content_data) = true)
    by (destruct content_data; [contradiction | reflexivity]).
  rewrite Ht. cbn [negb and_then]. unfold fill_from_content. cbv zeta.
  set (e1 := unless_set "title" (Py.get "title" content_data) []).
  set (e2 := unless_set "description" (Py.get "description" content_data) e1).
  set (e3 := unless_set "release_date"
               (VStr (py_str L (Py.get_default "yearOfRelease" (VStr "") content_data)))
               e2).
  assert (H3 : Py.get "title" e3 = Py.get "title" content_data
               /\ Py.get "description" e3 = Py.get "description" content_data
               /\ Py.get "release_date" e3
                  = VStr (py_str L (Py.get_default "yearOfRelease" (VStr "")
                                                   content_data))).
  { unfold e3, e2, e1. repeat split. }
  clearbody e3. clear e1 e2.
  assert (Hk : forall k v, In k ["title"; "description"; "release_date"] ->
                 Py.get k e3 = v ->
                 Py.get k (extracted_of
                   (and_then
                      (if negb (Py.truthy (Py.get "duration" e3))
                       then
                         if Py.truthy (Py.get "duration" content_data)
                         then
                           match duration_text L (Py.get "duration" content_data) with
                           | Ok text => Running (Py.set "duration" (VStr text) e3)
                           | Raise _ => Stopped e3
                           end
                         else Running e3
                       else Running e3)
                      (fun extracted =>
                         and_then
                           (if negb (Py.truthy (Py.get "languages" extracted))
                            then
                              match Py.obj_title
                                      (Py.get_default "dialect" (VStr "") content_data) with
                              | Ok languages =>
                                  Running (Py.set "languages" languages extracted)
                              | Raise _ => Stopped extracted
                              end
                            else Running extracted)
                           (fun extracted =>
                              Running (unless_set "genre" (Py.get "genre" content_data)
                                                  extracted))))) = v).
  { intros k v Hin Hv.
    assert (Hd : k <> "duration" /\ k <> "languages" /\ k <> "genre").
    { simpl in Hin. intuition (subst; discriminate). }
    destruct Hd as (D1 & D2 & D3).
    apply and_then_get.
    - repeat match goal with
             | |- context [if ?b then _ else _] => destruct b
             | |- context [match duration_text ?l ?x with _ => _ end] =>
                 destruct (duration_text l x)
             end; cbn [extracted_of]; rewrite ?get_set_other by assumption; exact Hv.
    - intros d Hdv. apply and_then_get.
      + repeat match goal with
               | |- context [if ?b then _ else _] => destruct b
               | |- context [match Py.obj_title ?x with _ => _ end] =>
                   destruct (Py.obj_title x)
               end; cbn [extracted_of]; rewrite ?get_set_other by assumption;
          exact Hdv.
      + intros d' Hd'. cbn [extracted_of].
        now rewrite unless_set_other by assumption. }
  destruct H3 as (T1 & T2 & T3).
  repeat split; apply Hk; simpl; auto.
Qed.

End LayerB.

(* ================================================================== *)
(** * The further properties on concrete pages *)
(* ================================================================== *)


(** X3 on a page whose only link is a /show/ path. *)
Lemma series_path_gives_series_show :
  Py.get "type" (get_stage_identity Pages.show Pages.show_url) = VStr "Series".
Proof.
  apply (@series_path_gives_series Pages.show Pages.show_url Pages.show_html
           (Pages.soup_of [] [] []) eq_refl eq_refl).
  vm_compute. reflexivity.
Defined.

(** X4 on the page of Videshi Bahu, whose Layer A holds the episode
    count 12. *)
Lemma layer_a_genre_and_episodes_dropped_videshi :
  let r := get_stage_identity Pages.videshi Pages.videshi_url in
  Py.get "title" r = VStr "Videshi Bahu"
  /\ Py.get "genre" r = VNone
  /\ Py.get "episode_count" r = VNone.
Proof.
  apply (@layer_a_genre_and_episodes_dropped Pages.videshi Pages.videshi_url
           Pages.videshi_html Pages.videshi_soup "Videshi Bahu" eq_refl eq_refl).
  vm_compute. reflexivity.
Defined.

(** X5 on a page with no title: the identifier 1 of the address makes the
    call a success. *)
Lemma identifier_gives_success_show :
  Py.get "stage_id" (get_stage_identity Pages.show Pages.show_url) = VStr "1"
  /\ Py.get "success" (get_stage_identity Pages.show Pages.show_url) = VBool true.
Proof.
  apply (@identifier_gives_success Pages.show Pages.show_url Pages.show_html
           (Pages.soup_of [] [] []) "1" eq_refl eq_refl).
  vm_compute. reflexivity.
Defined.

(** X6 on a document the parser refuses. *)
Lemma unparsed_page_fails_sample :
  extract_embedded_data Samples.unparsed "<html>" = []
  /\ get_stage_identity Samples.unparsed Pages.kayantar_url
     = failure_record Pages.kayantar_url "no document".
Proof.
  exact (@unparsed_page_fails Samples.unparsed Pages.kayantar_url "<html>"
           "no document" eq_refl eq_refl).
Defined.

(** X7 on a page whose text gives the year 2020 and whose JSON-LD script
    gives the upload date 2021-05-01: the release date stays "2020". *)
Lemma layer_a_value_kept_year :
  Py.get "release_date" (get_stage_identity Samples.ld_page Pages.kayantar_url)
  = VStr "2020".
Proof.
  apply (@layer_a_value_kept Samples.ld_page Pages.kayantar_url Samples.ld_html
           Samples.ld_soup Samples.ld_layer_a "release_date" eq_refl eq_refl).
  - vm_compute. reflexivity.
  - simpl. auto.
  - reflexivity.
  - intros next_script next_data H. discriminate H.
Defined.

(** X8 on a page whose script parses and names no image. *)
Lemma posters_from_next_data_years :
  let r := get_stage_identity Pages.years Pages.years_url in
  Py.get "landscape_poster" r
  = Py.get "landscape" (detect_posters Pages.years Pages.years_tree)
  /\ Py.get "portrait_poster" r
     = Py.get "portrait" (detect_posters Pages.years Pages.years_tree).
Proof.
  apply (@posters_from_next_data Pages.years Pages.years_url Pages.years_html
           Pages.years_soup (Pages.script Pages.years_text) Pages.years_tree
           eq_refl eq_refl); reflexivity.
Defined.

(** X9 on a message that holds the address of Kayantar. *)
Lemma extracted_urls_shape_message :
  (exists scheme body,
      Pages.kayantar_url = scheme ++ "://" ++ body
      /\ (scheme = "http" \/ scheme = "https")
      /\ body <> ""
      /\ all_in false url_body body = true)
  /\ exists before after,
       Samples.message = before ++ Pages.kayantar_url ++ after.
Proof.
  apply (@extracted_urls_shape Samples.message Pages.kayantar_url).
  vm_compute. left. reflexivity.
Defined.

(** X10 on the same message. *)
Lemma detection_needs_scheme_message :
  Str.contains "stage.in" Samples.message = true
  /\ (Str.contains "http://" Samples.message = true
      \/ Str.contains "https://" Samples.message = true).
Proof.
  apply (@detection_needs_scheme Samples.message).
  vm_compute. reflexivity.
Defined.

(** X11 on the address of Kayantar. *)
Lemma identified_url_is_valid_kayantar :
  validate_stage_url Pages.kayantar_url = true.
Proof.
  apply (@identified_url_is_valid Pages.kayantar_url "14145");
    vm_compute; reflexivity.
Defined.

(** X12 on a tree that holds the address of a horizontal image. *)
Lemma url_poster_is_extension_tree :
  exists ext,
    In ext image_extensions
    /\ Py.get "landscape" (detect_posters Pages.kayantar Samples.poster_tree)
       = VStr ext.
Proof.
  apply (proj1 (@url_poster_is_extension Pages.kayantar Samples.poster_tree)).
  vm_compute. reflexivity.
Defined.

(** X14 on a page whose text holds the address of a horizontal image. *)
Lemma embedded_poster_is_address_page :
  poster_address "horizontal" (VStr Samples.poster_url).
Proof.
  apply (proj1 (@embedded_poster_is_address Samples.poster_page
                  Samples.poster_html (VStr Samples.poster_url))).
  vm_compute. reflexivity.
Defined.

(** X16 on a tree whose content object is found under "movie". *)
Lemma next_data_needs_content_object_years :
  exists sources,
    data_sources Pages.years_tree = Ok sources
    /\ is_content_data (scan_sources sources VNone).
Proof.
  apply (@next_data_needs_content_object Pages.years Pages.years_tree).
  vm_compute. discriminate.
Defined.

(** X17 on an upload date with a time. *)
Lemma ld_json_upload_date_sample :
  exists d,
    Py.get "release_date" (extract_from_ld_json Samples.ld_page Samples.ld_tree)
    = VStr d
    /\ Str.contains "T" d = false
    /\ ("2021-05-01T10:00:00Z" = d \/ exists t, "2021-05-01T10:00:00Z" = d ++ "T" ++ t).
Proof.
  apply (proj1 (@ld_json_upload_date Samples.ld_page
                  [("name", VStr "Kayantar");
                   ("uploadDate", VStr "2021-05-01T10:00:00Z")])
               "2021-05-01T10:00:00Z" eq_refl).
  discriminate.
Defined.

(** X18 on a number of seconds given where a text is expected. *)
Lemma convert_duration_emptiness_number :
  convert_duration Pages.iso (VInt 5400) = VInt 5400.
Proof.
  apply (proj2 (proj2 (@convert_duration_emptiness Pages.iso (VInt 5400))));
    [reflexivity | discriminate].
Defined.

(** X19 on the page with the JSON-LD script: the title is the name the
    script gives. *)
Lemma layer_c_fills_gap_title :
  Py.get "title" (get_stage_identity Samples.ld_page Pages.kayantar_url)
  = VStr "Kayantar".
Proof.
  apply (@layer_c_fills_gap Samples.ld_page Pages.kayantar_url Samples.ld_html
           Samples.ld_soup Samples.ld_layer_a (Pages.script Samples.ld_text)
           Samples.ld_tree "title" (VStr "Kayantar") eq_refl eq_refl).
  - vm_compute. reflexivity.
  - reflexivity.
  - simpl. auto.
  - reflexivity.
  - intros next_script next_data H. discriminate H.
  - reflexivity.
  - reflexivity.
  - reflexivity.
  - reflexivity.
Defined.

(** X20 on a page whose text says "released in 2020". *)
Lemma embedded_data_fields_year :
  year_in_range (VInt 2020).
Proof.
  apply (proj1 (proj2 (proj2 (@embedded_data_fields Pages.years Pages.years_html
                                (VInt 2020))))).
  vm_compute. reflexivity.
Defined.

(** X21 on a tree whose content object gives the year 2021 and no title. *)
Lemma next_data_reads_content_object_years :
  let content_data := [("type", VStr "movie"); ("yearOfRelease", VInt 2021)] in
  let extracted := extract_from_next_data Pages.years Pages.years_tree in
  Py.get "title" extracted = Py.get "title" content_data
  /\ Py.get "description" extracted = Py.get "description" content_data
  /\ Py.get "release_date" extracted
     = VStr (py_str Pages.years
                    (Py.get_default "yearOfRelease" (VStr "") content_data)).
Proof.
  apply (@next_data_reads_content_object Pages.years Pages.years_tree
           [ VDict []; VDict [];
             VDict [("type", VStr "movie"); ("yearOfRelease", VInt 2021)];
             VDict []; VDict []; VDict [] ]
           [("type", VStr "movie"); ("yearOfRelease", VInt 2021)]);
    [reflexivity | reflexivity | discriminate].
Defined.
